(** * Simulacrum protocols: voting, jury deliberation and negotiation

  A shallow embedding of [simulacrum/protocols/base.py],
  [simulacrum/protocols/voting.py], [simulacrum/protocols/jury.py] and
  [simulacrum/economy/negotiation.py], followed by the properties of the
  protocol layer.

  Conventions of the embedding:
  - Python [int] is [Z]; Python [float] is an exact rational [Q] (the
    properties below are statements of exact arithmetic on the formulas
    of the code; rounding of binary floating point is not modelled);
  - Python [str] is [string], read as ASCII text: [upper], [lower],
    [isdigit] and [strip] are the ASCII ones;
  - an insertion-ordered [dict] / [Counter] is an association list in
    insertion order, because [most_common] and [max(d, key=d.get)] break
    ties by that order;
  - exceptions are the [Raise] results of the monad [M]; the mutable
    [self.state] and the log of calls to [agent.think] are its state;
  - time stamps ([datetime.now]) and console output ([print]) are not
    modelled. *)

From Stdlib Require Import ZArith QArith Qabs Lqa Lia List String Ascii Bool.
From Stdlib Require Import DecimalString DecimalPos Permutation Sorted.
Import ListNotations.

Set Implicit Arguments.

(** ** Python prelude *)

Module Py.

Inductive exn : Type :=
| ValueError (msg : string)
| IndexError
| ZeroDivisionError
| CapabilityError (msg : string).

Inductive res (A : Type) : Type :=
| Ok (a : A)
| Raise (e : exn).
Arguments Ok {A} a.
Arguments Raise {A} e.

Definition rbind {A B} (r : res A) (k : A -> res B) : res B :=
  match r with
  | Ok a => k a
  | Raise e => Raise e
  end.

(** [l[i]] for a Python [int] index: negative indices count from the end,
    anything out of range raises [IndexError]. *)
Definition getitem {A} (l : list A) (i : Z) : res A :=
  let n := Z.of_nat (List.length l) in
  let j := if (i <? 0)%Z then (n + i)%Z else i in
  if ((0 <=? j)%Z && (j <? n)%Z)%bool
  then match nth_error l (Z.to_nat j) with
       | Some a => Ok a
       | None => Raise IndexError
       end
  else Raise IndexError.

(** [len(l)] *)
Definition len {A} (l : list A) : Z := Z.of_nat (List.length l).

(** [range(a, b)] *)
Definition range (a b : Z) : list Z :=
  map (fun i => (a + Z.of_nat i)%Z) (seq 0 (Z.to_nat (b - a))).

(** [l[-n:]] *)
Definition last_n {A} (n : nat) (l : list A) : list A :=
  match n with
  | O => l
  | _ => skipn (List.length l - n) l
  end.

(** [d.get(key, default)]: an absent key is [None] *)
Definition get {A} (x : option A) (default : A) : A :=
  match x with Some a => a | None => default end.

(** [enumerate(l, start)] *)
Fixpoint enumerate {A} (l : list A) (start : Z) : list (Z * A) :=
  match l with
  | [] => []
  | a :: l' => (start, a) :: enumerate l' (start + 1)
  end.

(** *** Characters *)

Definition code (c : ascii) : nat := nat_of_ascii c.

Definition isdigit (c : ascii) : bool :=
  ((48 <=? code c) && (code c <=? 57))%nat.

(** [str.isspace] on ASCII: tab, LF, VT, FF, CR, the separators
    0x1c..0x1f and the space. *)
Definition isspace (c : ascii) : bool :=
  (((9 <=? code c) && (code c <=? 13))
   || ((28 <=? code c) && (code c <=? 32)))%nat.

Definition upper_char (c : ascii) : ascii :=
  if ((97 <=? code c) && (code c <=? 122))%nat
  then ascii_of_nat (code c - 32) else c.

Definition lower_char (c : ascii) : ascii :=
  if ((65 <=? code c) && (code c <=? 90))%nat
  then ascii_of_nat (code c + 32) else c.

(** *** Strings *)

Fixpoint smap (f : ascii -> ascii) (s : string) : string :=
  match s with
  | EmptyString => EmptyString
  | String c s' => String (f c) (smap f s')
  end.

Fixpoint sfilter (f : ascii -> bool) (s : string) : string :=
  match s with
  | EmptyString => EmptyString
  | String c s' => if f c then String c (sfilter f s') else sfilter f s'
  end.

(** [s.upper()], [s.lower()] *)
Definition upper : string -> string := smap upper_char.
Definition lower : string -> string := smap lower_char.

(** [sub in s] *)
Fixpoint contains (sub s : string) : bool :=
  (String.prefix sub s
   || match s with
      | EmptyString => false
      | String _ s' => contains sub s'
      end)%bool.

(** [s.split(sep)] for a one-character separator: never empty. *)
Fixpoint split (sep : ascii) (s : string) : list string :=
  match s with
  | EmptyString => [EmptyString]
  | String c s' =>
      if Ascii.eqb c sep then EmptyString :: split sep s'
      else match split sep s' with
           | [] => [String c EmptyString]
           | h :: t => String c h :: t
           end
  end.

(** [s.split(sep, 1)]: cut at the first separator only. *)
Fixpoint split1 (sep : ascii) (s : string) : list string :=
  match s with
  | EmptyString => [EmptyString]
  | String c s' =>
      if Ascii.eqb c sep then [EmptyString; s']
      else match split1 sep s' with
           | [] => [String c EmptyString]
           | h :: t => String c h :: t
           end
  end.

Fixpoint lstrip (s : string) : string :=
  match s with
  | EmptyString => EmptyString
  | String c s' => if isspace c then lstrip s' else s
  end.

Fixpoint rstrip (s : string) : string :=
  match s with
  | EmptyString => EmptyString
  | String c s' =>
      match rstrip s' with
      | EmptyString => if isspace c then EmptyString else String c EmptyString
      | r => String c r
      end
  end.

(** [s.strip()] *)
Definition strip (s : string) : string := rstrip (lstrip s).

(** [s[:n]] *)
Definition take (n : nat) (s : string) : string := String.substring 0 n s.

(** [sep.join(l)] *)
Fixpoint join (sep : string) (l : list string) : string :=
  match l with
  | [] => EmptyString
  | [s] => s
  | s :: l' => (s ++ sep ++ join sep l')%string
  end.

(** [str(i)] for an [int]. *)
Definition str (i : Z) : string := NilZero.string_of_int (Z.to_int i).

Fixpoint digits_value (acc : Z) (s : string) : Z :=
  match s with
  | EmptyString => acc
  | String c s' => digits_value (10 * acc + Z.of_nat (code c - 48)) s'
  end.

(** [int(s)], for the strings the code applies it to (the digits kept by
    [filter(str.isdigit, ...)]): the empty string raises [ValueError]. *)
Definition int (s : string) : res Z :=
  match s with
  | EmptyString => Raise (ValueError "invalid literal for int()")
  | _ => if String.eqb (sfilter isdigit s) s
         then Ok (digits_value 0 s)
         else Raise (ValueError "invalid literal for int()")
  end.

(** Truthiness of an [Optional[str]] ([if not x]). *)
Definition truthy (x : option string) : bool :=
  match x with
  | None => false
  | Some s => negb (String.eqb s EmptyString)
  end.

Definition nl : string := String (ascii_of_nat 10) EmptyString.

(** *** Numbers *)

Definition Qlt_bool (a b : Q) : bool := negb (Qle_bool b a).

(** [a / b] (true division): raises on a zero divisor. *)
Definition truediv (a b : Q) : res Q :=
  if Qeq_bool b 0 then Raise ZeroDivisionError else Ok (a / b)%Q.

(** [max(a, b)] and [min(a, b)] on numbers: the first argument wins a tie. *)
Definition max2 (a b : Q) : Q := if Qlt_bool a b then b else a.
Definition min2 (a b : Q) : Q := if Qlt_bool b a then b else a.

(** [int(x)] for a float: truncation toward zero. *)
Definition trunc (x : Q) : Z := Z.quot (Qnum x) (Zpos (Qden x)).

(** [max(l)] on a list of [int]: [ValueError] on the empty list. *)
Definition max_list (l : list Z) : res Z :=
  match l with
  | [] => Raise (ValueError "max() arg is an empty sequence")
  | c :: cs => Ok (fold_left Z.max cs c)
  end.

End Py.

(** ** [simulacrum/agents/persona.py]: what the protocols read of a citizen *)

Module Persona.

(** Big Five traits, each a float in [0, 1] (pydantic [ge=0, le=1]). *)
Record PsychologicalProfile : Type := {
  openness : Q;
  conscientiousness : Q;
  extraversion : Q;
  agreeableness : Q;
  neuroticism : Q
}.

Definition in_unit (x : Q) : Prop := (0 <= x /\ x <= 1)%Q.

Definition valid_profile (p : PsychologicalProfile) : Prop :=
  in_unit (openness p) /\ in_unit (conscientiousness p)
  /\ in_unit (extraversion p) /\ in_unit (agreeableness p)
  /\ in_unit (neuroticism p).

(** One call of [Citizen.think]: who was asked, with which stimulus and
    context label, and what came back. *)
Record Call : Type := {
  caller : string;
  stimulus : string;
  label : string;
  reply : string
}.

(** A citizen.  [think] goes to a language model: its answer is opaque and
    may depend on everything asked so far (the citizen's memory), so the
    model is a function [llm] of the history of calls; it can fail. *)
Record Citizen : Type := {
  name : string;
  traits : PsychologicalProfile;
  llm : list Call -> string -> string -> Py.res string
}.

End Persona.

(** ** [simulacrum/protocols/base.py] *)

Module ProtocolMessage.
Record t : Type := {
  sender_id : string;
  content : string;
  message_type : string
}.
End ProtocolMessage.

Module AgentResponse.
Record t : Type := {
  agent_id : string;
  response : string;
  confidence : option Q;
  reasoning : option string;
  vote : option string
}.
End AgentResponse.

Inductive ConsensusType : Type :=
| UNANIMOUS
| SIMPLE_MAJORITY
| SUPERMAJORITY
| PLURALITY
| WEIGHTED
| RANKED_CHOICE.

(** A [Counter] or [dict] from option labels to counts, in insertion order. *)
Definition Tally : Type := list (string * Z).

Module VotingResult.
Record t : Type := {
  winner : string;
  vote_counts : Tally;
  total_votes : Z;
  consensus_type : ConsensusType;
  is_decisive : bool;
  tied : bool;
  confidence : option Q;
  breakdown : list (string * list string)
}.
End VotingResult.

Module ProtocolState.
Record t : Type := {
  round_number : Z;
  messages : list ProtocolMessage.t;
  responses : list AgentResponse.t;
  is_complete : bool;
  result : option VotingResult.t
}.

(** [ProtocolState()] *)
Definition fresh : t := {|
  round_number := 0;
  messages := [];
  responses := [];
  is_complete := false;
  result := None
|}.
End ProtocolState.

(** The world a protocol run acts on: its own [self.state] and the calls
  made to the participants so far. *)
Record World : Type := {
state : ProtocolState.t;
calls : list Persona.Call
}.

Definition M (A : Type) : Type := World -> Py.res A * World.

Definition ret {A} (a : A) : M A := fun w => (Py.Ok a, w).

Definition raise {A} (e : Py.exn) : M A := fun w => (Py.Raise e, w).

Definition bind {A B} (m : M A) (k : A -> M B) : M B :=
fun w => match m w with
         | (Py.Ok a, w') => k a w'
         | (Py.Raise e, w') => (Py.Raise e, w')
         end.

Definition lift {A} (r : Py.res A) : M A := fun w => (r, w).

Declare Scope proto_scope.
Delimit Scope proto_scope with proto.
Notation "x <- m ;; k" := (bind m (fun x => k))
(at level 100, m at next level, right associativity) : proto_scope.
Notation "m ;;; k" := (bind m (fun _ => k))
(at level 100, right associativity) : proto_scope.

Module Protocol.
Import Persona.
Local Open Scope proto_scope.

(** [agent.think(stimulus, context=label)] *)
Definition think (agent : Citizen) (stim lbl : string) : M string :=
  fun w =>
    match llm agent (calls w) stim lbl with
    | Py.Ok r =>
        (Py.Ok r,
         {| state := state w;
            calls := calls w ++ [{| caller := name agent; stimulus := stim;
                                    label := lbl; reply := r |}] |})
    | Py.Raise e => (Py.Raise e, w)
    end.

Definition modify_state (f : ProtocolState.t -> ProtocolState.t) : M unit :=
  fun w => (Py.Ok tt, {| state := f (state w); calls := calls w |}).

Definition get_state : M ProtocolState.t := fun w => (Py.Ok (state w), w).

(** [Protocol.log_message] *)
Definition log_message (sender content : string) (message_type : string)
  : M unit :=
  modify_state (fun s =>
    {| ProtocolState.round_number := ProtocolState.round_number s;
       ProtocolState.messages :=
         ProtocolState.messages s
         ++ [{| ProtocolMessage.sender_id := sender;
                ProtocolMessage.content := content;
                ProtocolMessage.message_type := message_type |}];
       ProtocolState.responses := ProtocolState.responses s;
       ProtocolState.is_complete := ProtocolState.is_complete s;
       ProtocolState.result := ProtocolState.result s |}).

(** [Protocol.log_response], with the keyword arguments the callers use. *)
Definition log_response (agent response : string)
  (vote reasoning : option string) : M unit :=
  modify_state (fun s =>
    {| ProtocolState.round_number := ProtocolState.round_number s;
       ProtocolState.messages := ProtocolState.messages s;
       ProtocolState.responses :=
         ProtocolState.responses s
         ++ [{| AgentResponse.agent_id := agent;
                AgentResponse.response := response;
                AgentResponse.confidence := None;
                AgentResponse.reasoning := reasoning;
                AgentResponse.vote := vote |}];
       ProtocolState.is_complete := ProtocolState.is_complete s;
       ProtocolState.result := ProtocolState.result s |}).

(** [Protocol.get_history] *)
Definition get_history : M (list string) :=
  fun w =>
    (Py.Ok (map (fun msg =>
                   ("[" ++ ProtocolMessage.sender_id msg ++ "] "
                    ++ ProtocolMessage.content msg)%string)
                (ProtocolState.messages (state w))),
     w).

(** [Protocol.reset] *)
Definition reset : M unit := modify_state (fun _ => ProtocolState.fresh).

(** The initial world of a protocol object: [Protocol.__init__]. *)
Definition init : World := {| state := ProtocolState.fresh; calls := [] |}.

End Protocol.

(** ** [simulacrum/protocols/voting.py] *)

Module Voting.
Import Persona.
Local Open Scope proto_scope.
Local Open Scope string_scope.

(** The fields of a [VotingProtocol] object besides its state. *)
Record VotingProtocol : Type := {
  consensus_type : ConsensusType;
  allow_abstention : bool;
  require_reasoning : bool
}.

(** [VotingProtocol()] with the default arguments. *)
Definition default : VotingProtocol := {|
  consensus_type := SIMPLE_MAJORITY;
  allow_abstention := false;
  require_reasoning := true
|}.

(** The [context] dictionary of [execute]: each key may be absent. *)
Record Context : Type := {
  question : option string;
  options : option (list string);
  background : option string
}.

(** One entry of the [votes] list: the dictionary built by [_parse_vote]
    and completed by [_collect_votes]. *)
Record Vote : Type := {
  choice : string;
  reasoning : option string;
  raw_response : string;
  agent_id : string;
  agent : Citizen
}.

(** The dictionary [_parse_vote] returns. *)
Record VoteData : Type := {
  vd_choice : string;
  vd_reasoning : option string;
  vd_raw_response : string
}.

Definition validate_participation (agents : list Citizen) : bool :=
  (2 <=? Py.len agents)%Z.

(** *** [_parse_vote] *)

(** The body of the [try] of the structured tier: any exception leaves the
    choice as it was. *)
Definition vote_of_line (options : list string) (vote_str : string)
  (choice : option string) : option string :=
  match Py.int (Py.sfilter Py.isdigit vote_str) with
  | Py.Ok vote_num =>
      if ((1 <=? vote_num)%Z && (vote_num <=? Py.len options)%Z)%bool
      then match Py.getitem options (vote_num - 1) with
           | Py.Ok o => Some o
           | Py.Raise _ => choice
           end
      else choice
  | Py.Raise _ => choice
  end.

(** One iteration of [for i, line in enumerate(lines)]. *)
Definition structured_line (options lines : list string) (i : Z)
  (line : string) (acc : option string * option string)
  : Py.res (option string * option string) :=
  let (choice, reason) := acc in
  Py.rbind
    (if Py.contains "VOTE:" (Py.upper line)
     then Py.rbind (Py.getitem (Py.split1 ":" line) 1)
            (fun rest => Py.Ok (vote_of_line options (Py.strip rest) choice))
     else Py.Ok choice)
    (fun choice' =>
       if (Py.contains "REASON:" (Py.upper line) && (i <? Py.len lines)%Z)%bool
       then Py.rbind (Py.getitem (Py.split1 ":" line) 1)
              (fun rest =>
                 let reason_str := Py.strip rest in
                 if (negb (Py.truthy (Some reason_str))
                     && (i + 1 <? Py.len lines)%Z)%bool
                 then Py.rbind (Py.getitem lines (i + 1))
                        (fun next => Py.Ok (choice', Some (Py.strip next)))
                 else Py.Ok (choice', Some reason_str))
       else Py.Ok (choice', reason)).

Fixpoint structured_loop (options lines : list string)
  (todo : list (Z * string)) (acc : option string * option string)
  : Py.res (option string * option string) :=
  match todo with
  | [] => Py.Ok acc
  | (i, line) :: todo' =>
      Py.rbind (structured_line options lines i line acc)
               (structured_loop options lines todo')
  end.

(** Tier 1: the [VOTE: n] / [REASON: ...] lines. *)
Definition structured_tier (response : string) (options : list string)
  : Py.res (option string * option string) :=
  if Py.contains "VOTE:" (Py.upper response)
  then let lines := Py.split (ascii_of_nat 10) response in
       structured_loop options lines (Py.enumerate lines 0) (None, None)
  else Py.Ok (None, None).

(** Tier 2: the first option whose text occurs in the response. *)
Definition mention_tier (response : string) (options : list string)
  (choice : option string) : option string :=
  if Py.truthy choice then choice
  else match find (fun option => Py.contains (Py.lower option)
                                             (Py.lower response)) options with
       | Some option => Some option
       | None => choice
       end.

(** Tier 3: the first option whose 1-based position is printed in the
    first 50 characters. *)
Definition number_tier (response : string) (options : list string)
  (choice : option string) : option string :=
  if Py.truthy choice then choice
  else match find (fun io => Py.contains (Py.str (fst io))
                                         (Py.take 50 response))
                  (Py.enumerate options 1) with
       | Some io => Some (snd io)
       | None => choice
       end.

Definition _parse_vote (self : VotingProtocol) (response : string)
  (options : list string) : Py.res VoteData :=
  Py.rbind (structured_tier response options) (fun cr =>
    let (c1, reason) := cr in
    let c2 := mention_tier response options c1 in
    let c3 := number_tier response options c2 in
    Py.rbind
      (if Py.truthy c3
       then Py.Ok (Py.get c3 "")
       else if allow_abstention self then Py.Ok "ABSTAIN"
            else Py.getitem options 0)
      (fun c => Py.Ok {| vd_choice := c;
                         vd_reasoning := reason;
                         vd_raw_response := response |})).

(** *** [_collect_votes] *)

Definition options_str (options : list string) : string :=
  Py.join Py.nl
    (map (fun io => Py.str (fst io + 1) ++ ". " ++ snd io)
         (Py.enumerate options 0)).

Definition voting_prompt (self : VotingProtocol)
  (question : string) (options : list string) (background : string)
  : string :=
  (if Py.truthy (Some background) then background ++ Py.nl ++ Py.nl else "")
  ++ "QUESTION: " ++ question ++ Py.nl ++ Py.nl
  ++ "OPTIONS:" ++ Py.nl ++ options_str options ++ Py.nl ++ Py.nl
  ++ (if require_reasoning self
      then "Respond with:" ++ Py.nl
           ++ "1. Your choice (just the number)" ++ Py.nl
           ++ "2. Your reasoning (1-2 sentences)" ++ Py.nl
           ++ "Format: 'VOTE: [number]\nREASON: [your reasoning]'"
      else "Respond with just the number of your choice (1, 2, 3, etc.)").

(** The body of [for agent in agents]. *)
Definition collect_one (self : VotingProtocol) (prompt : string)
  (options : list string) (a : Citizen) : M Vote :=
  response <- Protocol.think a prompt "Voting decision" ;;
  vote_data <- lift (_parse_vote self response options) ;;
  Protocol.log_response (name a) response
    (Some (vd_choice vote_data)) (vd_reasoning vote_data) ;;;
  ret {| choice := vd_choice vote_data;
         reasoning := vd_reasoning vote_data;
         raw_response := vd_raw_response vote_data;
         agent_id := name a;
         agent := a |}.

Fixpoint collect_loop (self : VotingProtocol) (prompt : string)
  (options : list string) (agents : list Citizen) : M (list Vote) :=
  match agents with
  | [] => ret []
  | a :: rest =>
      v <- collect_one self prompt options a ;;
      vs <- collect_loop self prompt options rest ;;
      ret (v :: vs)
  end.

Definition _collect_votes (self : VotingProtocol) (agents : list Citizen)
  (question : string) (options : list string) (background : string)
  : M (list Vote) :=
  collect_loop self (voting_prompt self question options background)
               options agents.

(** *** Counting *)

(** [counter[k] += n] on an insertion-ordered dictionary. *)
Fixpoint tally_add (k : string) (n : Z) (t : Tally) : Tally :=
  match t with
  | [] => [(k, n)]
  | (k', c) :: t' =>
      if String.eqb k k' then (k', (c + n)%Z) :: t'
      else (k', c) :: tally_add k n t'
  end.

(** [Counter(l)] *)
Definition Counter (l : list string) : Tally :=
  fold_left (fun t k => tally_add k 1 t) l [].

(** Stable insertion by decreasing count: an element goes before the
    first one whose count is not larger. *)
Fixpoint insert_desc (x : string * Z) (l : Tally) : Tally :=
  match l with
  | [] => [x]
  | y :: l' =>
      if (snd x <? snd y)%Z then y :: insert_desc x l' else x :: y :: l'
  end.

(** [sorted(items, key=itemgetter(1), reverse=True)]: stable. *)
Fixpoint sorted_desc (t : Tally) : Tally :=
  match t with
  | [] => []
  | x :: t' => insert_desc x (sorted_desc t')
  end.

(** [Counter.most_common(n)]: the [n] largest counts, equal counts in
    insertion order. *)
Definition most_common (n : nat) (t : Tally) : Tally :=
  firstn n (sorted_desc t).

(** [breakdown[k].append(a)] on a [defaultdict(list)]. *)
Fixpoint breakdown_add (k a : string) (b : list (string * list string))
  : list (string * list string) :=
  match b with
  | [] => [(k, [a])]
  | (k', l) :: b' =>
      if String.eqb k k' then (k', (l ++ [a])%list) :: b'
      else (k', l) :: breakdown_add k a b'
  end.

Definition build_breakdown (votes : list Vote)
  : list (string * list string) :=
  fold_left (fun b v => breakdown_add (choice v) (agent_id v) b) votes [].

(** *** The consensus rules *)

Definition inject (z : Z) : Q := inject_Z z.

Definition _simple_majority (vote_counts : Tally) (total_votes : Z)
  (breakdown : list (string * list string)) : Py.res VotingResult.t :=
  Py.rbind (Py.getitem (most_common 1 vote_counts) 0) (fun top =>
    let (winner, max_votes) := top in
    Py.rbind (Py.truediv (inject total_votes) 2) (fun required =>
      let is_decisive := Py.Qlt_bool required (inject max_votes) in
      let top_two := most_common 2 vote_counts in
      let tied :=
        match top_two with
        | a :: b :: _ => (snd a =? snd b)%Z
        | _ => false
        end in
      Py.rbind
        (if negb tied
         then Py.truediv (inject max_votes) (inject total_votes)
         else Py.Ok (1 # 2)%Q)
        (fun confidence =>
           Py.Ok {| VotingResult.winner := winner;
                    VotingResult.vote_counts := vote_counts;
                    VotingResult.total_votes := total_votes;
                    VotingResult.consensus_type := SIMPLE_MAJORITY;
                    VotingResult.is_decisive := is_decisive && negb tied;
                    VotingResult.tied := tied;
                    VotingResult.confidence := Some confidence;
                    VotingResult.breakdown := breakdown |}))).

Definition _supermajority (vote_counts : Tally) (total_votes : Z)
  (breakdown : list (string * list string)) : Py.res VotingResult.t :=
  Py.rbind (Py.getitem (most_common 1 vote_counts) 0) (fun top =>
    let (winner, max_votes) := top in
    Py.rbind (Py.truediv (inject (2 * total_votes)) 3) (fun required =>
      let is_decisive := Qle_bool required (inject max_votes) in
      Py.rbind (Py.truediv (inject max_votes) (inject total_votes))
        (fun confidence =>
           Py.Ok {| VotingResult.winner := winner;
                    VotingResult.vote_counts := vote_counts;
                    VotingResult.total_votes := total_votes;
                    VotingResult.consensus_type := SUPERMAJORITY;
                    VotingResult.is_decisive := is_decisive;
                    VotingResult.tied := false;
                    VotingResult.confidence := Some confidence;
                    VotingResult.breakdown := breakdown |}))).

Definition _unanimous (vote_counts : Tally) (total_votes : Z)
  (breakdown : list (string * list string)) : Py.res VotingResult.t :=
  Py.rbind (Py.getitem (most_common 1 vote_counts) 0) (fun top =>
    let (winner, max_votes) := top in
    let is_decisive := (max_votes =? total_votes)%Z in
    Py.rbind
      (if is_decisive then Py.Ok 1%Q
       else Py.truediv (inject max_votes) (inject total_votes))
      (fun confidence =>
         Py.Ok {| VotingResult.winner := winner;
                  VotingResult.vote_counts := vote_counts;
                  VotingResult.total_votes := total_votes;
                  VotingResult.consensus_type := UNANIMOUS;
                  VotingResult.is_decisive := is_decisive;
                  VotingResult.tied := false;
                  VotingResult.confidence := Some confidence;
                  VotingResult.breakdown := breakdown |})).

Definition _plurality (vote_counts : Tally) (total_votes : Z)
  (breakdown : list (string * list string)) : Py.res VotingResult.t :=
  Py.rbind (Py.getitem (most_common 1 vote_counts) 0) (fun top =>
    let (winner, max_votes) := top in
    let top_two := most_common 2 vote_counts in
    let tied :=
      match top_two with
      | a :: b :: _ => (snd a =? snd b)%Z
      | _ => false
      end in
    Py.rbind (Py.truediv (inject max_votes) (inject total_votes))
      (fun confidence =>
         Py.Ok {| VotingResult.winner := winner;
                  VotingResult.vote_counts := vote_counts;
                  VotingResult.total_votes := total_votes;
                  VotingResult.consensus_type := PLURALITY;
                  VotingResult.is_decisive := negb tied;
                  VotingResult.tied := tied;
                  VotingResult.confidence := Some confidence;
                  VotingResult.breakdown := breakdown |})).

(** [weighted_votes[k] += w] on a [defaultdict(float)]. *)
Fixpoint weight_add (k : string) (w : Q) (t : list (string * Q))
  : list (string * Q) :=
  match t with
  | [] => [(k, (0 + w)%Q)]
  | (k', c) :: t' =>
      if String.eqb k k' then (k', (c + w)%Q) :: t'
      else (k', c) :: weight_add k w t'
  end.

(** [max(d, key=d.get)]: the first key of largest value. *)
Fixpoint argmax_from (best : string * Q) (t : list (string * Q))
  : string * Q :=
  match t with
  | [] => best
  | x :: t' =>
      argmax_from (if Py.Qlt_bool (snd best) (snd x) then x else best) t'
  end.

Definition argmax (t : list (string * Q)) : Py.res (string * Q) :=
  match t with
  | [] => Py.Raise (Py.ValueError "max() arg is an empty sequence")
  | x :: t' => Py.Ok (argmax_from x t')
  end.

Definition _weighted (votes : list Vote)
  (breakdown : list (string * list string)) : Py.res VotingResult.t :=
  let weighted_votes :=
    fold_left (fun t v =>
                 weight_add (choice v) (conscientiousness (traits (agent v))) t)
              votes [] in
  Py.rbind (argmax weighted_votes) (fun top =>
    let (winner, winner_weight) := top in
    let total_weight :=
      fold_left (fun acc kv => (acc + snd kv)%Q) weighted_votes 0%Q in
    Py.rbind (Py.truediv winner_weight total_weight) (fun confidence =>
      Py.Ok {| VotingResult.winner := winner;
               VotingResult.vote_counts :=
                 map (fun kv => (fst kv, Py.trunc (snd kv * 10)%Q))
                     weighted_votes;
               VotingResult.total_votes := Py.len votes;
               VotingResult.consensus_type := WEIGHTED;
               VotingResult.is_decisive := true;
               VotingResult.tied := false;
               VotingResult.confidence := Some confidence;
               VotingResult.breakdown := breakdown |})).

Definition _calculate_result (self : VotingProtocol) (votes : list Vote)
  (agents : list Citizen) : Py.res VotingResult.t :=
  let vote_counts := Counter (map choice votes) in
  let total_votes := Py.len votes in
  let breakdown := build_breakdown votes in
  match consensus_type self with
  | SIMPLE_MAJORITY => _simple_majority vote_counts total_votes breakdown
  | SUPERMAJORITY => _supermajority vote_counts total_votes breakdown
  | UNANIMOUS => _unanimous vote_counts total_votes breakdown
  | PLURALITY => _plurality vote_counts total_votes breakdown
  | WEIGHTED => _weighted votes breakdown
  | RANKED_CHOICE => _simple_majority vote_counts total_votes breakdown
  end.

(** *** [execute] *)

Definition record_result (r : VotingResult.t) : M unit :=
  Protocol.modify_state (fun s =>
    {| ProtocolState.round_number := ProtocolState.round_number s;
       ProtocolState.messages := ProtocolState.messages s;
       ProtocolState.responses := ProtocolState.responses s;
       ProtocolState.is_complete := true;
       ProtocolState.result := Some r |}).

Definition execute (self : VotingProtocol) (agents : list Citizen)
  (context : Context) : M VotingResult.t :=
  if negb (validate_participation agents)
  then raise (Py.ValueError "Voting requires at least 2 agents")
  else
    let question := Py.get (question context) "" in
    let options := Py.get (options context) [] in
    let background := Py.get (background context) "" in
    match options with
    | [] => raise (Py.ValueError "Voting requires options to choose from")
    | _ =>
        votes <- _collect_votes self agents question options background ;;
        result <- lift (_calculate_result self votes agents) ;;
        record_result result ;;;
        ret result
    end.

(** [quick_vote] *)
Definition quick_vote (agents : list Citizen) (question : string)
  (options : list string) (consensus_type : ConsensusType)
  : M VotingResult.t :=
  execute {| consensus_type := consensus_type;
             allow_abstention := false;
             require_reasoning := true |}
          agents
          {| Voting.question := Some question;
             Voting.options := Some options;
             Voting.background := None |}.

End Voting.

(** ** [simulacrum/protocols/jury.py] *)

Module Jury.
Import Persona.
Local Open Scope proto_scope.
Local Open Scope string_scope.

Record JuryVerdict : Type := {
  verdict : string;
  final_vote_counts : Tally;
  rounds_taken : Z;
  consensus_reached : bool;
  vote_trajectory : list Tally;
  key_arguments : list string;
  holdouts : list string
}.

Record JuryProtocol : Type := {
  max_rounds : Z;
  required_consensus : Q;
  allow_hung_jury : bool
}.

(** [JuryProtocol()] with the default arguments. *)
Definition default : JuryProtocol := {|
  max_rounds := 5;
  required_consensus := (75 # 100)%Q;
  allow_hung_jury := true
|}.

Record Context : Type := {
  case_summary : option string;
  evidence : option (list string);
  charges : option string;
  verdict_options : option (list string)
}.

Definition validate_participation (agents : list Citizen) : bool :=
  ((6 <=? Py.len agents)%Z && (Py.len agents <=? 12)%Z)%bool.

(** [d[k] = v] on an insertion-ordered dictionary. *)
Fixpoint dict_set {V} (k : string) (v : V) (d : list (string * V))
  : list (string * V) :=
  match d with
  | [] => [(k, v)]
  | (k', v') :: d' =>
      if String.eqb k k' then (k', v) :: d' else (k', v') :: dict_set k v d'
  end.

(** [max(d, key=d.get)] on a tally: the first key of largest count. *)
Fixpoint argmax_from (best : string * Z) (t : Tally) : string * Z :=
  match t with
  | [] => best
  | x :: t' => argmax_from (if (snd best <? snd x)%Z then x else best) t'
  end.

Definition argmax (t : Tally) : Py.res string :=
  match t with
  | [] => Py.Raise (Py.ValueError "max() arg is an empty sequence")
  | x :: t' => Py.Ok (fst (argmax_from x t'))
  end.

(** *** [_parse_jury_vote] *)

Definition _parse_jury_vote (response : string) (options : list string)
  : Py.res string :=
  let response_upper := Py.upper response in
  let fallback :=
    if Py.contains "NOT GUILTY" response_upper then Py.Ok "Not Guilty"
    else if Py.contains "GUILTY" response_upper then Py.Ok "Guilty"
    else Py.getitem options 0 in
  if Py.contains "VOTE:" response_upper
  then
    Py.rbind
      (Py.getitem
         (filter (fun line => Py.contains "VOTE:" (Py.upper line))
                 (Py.split (ascii_of_nat 10) response)) 0)
      (fun vote_line =>
         Py.rbind (Py.getitem (Py.split1 ":" vote_line) 1) (fun rest =>
           let vote_text := Py.strip rest in
           if (Py.contains "GUILTY" (Py.upper vote_text)
               && negb (Py.contains "NOT" (Py.upper vote_text)))%bool
           then Py.Ok "Guilty"
           else if Py.contains "NOT GUILTY" (Py.upper vote_text)
                then Py.Ok "Not Guilty"
                else fallback))
  else fallback.

(** *** [_check_consensus] *)

Definition _check_consensus (self : JuryProtocol) (votes : Tally)
  (total_jurors : Z) : Py.res bool :=
  match votes with
  | [] => Py.Ok false
  | _ =>
      Py.rbind (Py.max_list (map snd votes)) (fun max_votes =>
        Py.rbind (Py.truediv (inject_Z max_votes) (inject_Z total_jurors))
          (fun share => Py.Ok (Qle_bool (required_consensus self) share)))
  end.

Definition _find_holdouts (vote_trajectory : list Tally) : list string := [].

(** *** Ballots *)

(** The loop shared by [_initial_vote] and [_revote]: ask, parse, count,
    log. *)
Fixpoint ballot_loop (prompt lbl : string) (options : list string)
  (agents : list Citizen) (votes : Tally) : M Tally :=
  match agents with
  | [] => ret votes
  | a :: rest =>
      response <- Protocol.think a prompt lbl ;;
      vote <- lift (_parse_jury_vote response options) ;;
      let votes' := Voting.tally_add vote 1 votes in
      Protocol.log_response (name a) response (Some vote) None ;;;
      ballot_loop prompt lbl options rest votes'
  end.

Definition initial_prompt (case_summary : string) (evidence : list string)
  (charges : string) : string :=
  let evidence_str :=
    match evidence with
    | [] => "See case summary"
    | _ => Py.join Py.nl (map (fun e => "- " ++ e) evidence)
    end in
  "You are a juror in a criminal trial." ++ Py.nl ++ Py.nl
  ++ "CHARGES: " ++ charges ++ Py.nl ++ Py.nl
  ++ "CASE SUMMARY:" ++ Py.nl ++ case_summary ++ Py.nl ++ Py.nl
  ++ "EVIDENCE:" ++ Py.nl ++ evidence_str ++ Py.nl ++ Py.nl
  ++ "As a juror, you must vote based on the evidence presented. " ++ Py.nl
  ++ "Respond with ONLY your initial vote and brief reasoning:"
  ++ Py.nl ++ Py.nl
  ++ "VOTE: [Guilty or Not Guilty]" ++ Py.nl
  ++ "REASON: [1-2 sentences explaining your reasoning]" ++ Py.nl.

Definition _initial_vote (agents : list Citizen) (case_summary : string)
  (evidence : list string) (charges : string) (options : list string)
  : M Tally :=
  ballot_loop (initial_prompt case_summary evidence charges)
              "Jury initial vote" options agents [].

Definition revote_prompt (agents : list Citizen) (arguments : list string)
  : string :=
  let recent_arguments :=
    Py.join (Py.nl ++ Py.nl) (Py.last_n (List.length agents) arguments) in
  "The jury has heard the following arguments:" ++ Py.nl ++ Py.nl
  ++ recent_arguments ++ Py.nl ++ Py.nl
  ++ "After hearing these perspectives, has your position changed?" ++ Py.nl
  ++ "Consider if the arguments were persuasive and if reasonable doubt exists."
  ++ Py.nl ++ Py.nl
  ++ "VOTE: [Guilty or Not Guilty]" ++ Py.nl
  ++ "BRIEF NOTE: [Did you change your mind? Why/why not?]".

Definition _revote (agents : list Citizen) (arguments : list string)
  (options : list string) : M Tally :=
  ballot_loop (revote_prompt agents arguments) "Jury re-vote"
              options agents [].

(** *** [_discussion_round] *)

Definition discussion_prompt (current_votes : Tally) (round_num : Z)
  : string :=
  let vote_summary :=
    Py.join ", "
      (map (fun vc => Py.str (snd vc) ++ " vote(s) for " ++ fst vc)
           current_votes) in
  "You are in jury deliberations (Round " ++ Py.str round_num ++ ")."
  ++ Py.nl ++ Py.nl
  ++ "CURRENT VOTE COUNT: " ++ vote_summary ++ Py.nl ++ Py.nl
  ++ "The jury is not unanimous. Please share your strongest argument for your position."
  ++ Py.nl
  ++ "Be persuasive but respectful. Consider the evidence and the burden of proof."
  ++ Py.nl ++ Py.nl
  ++ "Your argument (2-3 sentences):".

Fixpoint discussion_loop (prompt : string) (agents : list Citizen)
  (arguments : list string) : M (list string) :=
  match agents with
  | [] => ret arguments
  | a :: rest =>
      argument <- Protocol.think a prompt "Jury deliberation argument" ;;
      let arguments' := (arguments ++ [(name a ++ ": " ++ argument)%string])%list in
      Protocol.log_message (name a) argument "argument" ;;;
      discussion_loop prompt rest arguments'
  end.

Definition _discussion_round (agents : list Citizen) (current_votes : Tally)
  (case_summary : string) (round_num : Z) : M (list string) :=
  discussion_loop (discussion_prompt current_votes round_num) agents [].

(** *** [execute] *)

(** The "update positions" loops: each agent takes the vote of the first
    of the given responses that carries its name and a non-empty vote. *)
Definition update_positions (agents : list Citizen)
  (responses : list AgentResponse.t)
  (positions : list (string * option string))
  : list (string * option string) :=
  fold_left
    (fun pos a =>
       match find (fun r => (String.eqb (AgentResponse.agent_id r) (name a)
                             && Py.truthy (AgentResponse.vote r))%bool)
                  responses with
       | Some r => dict_set (name a) (AgentResponse.vote r) pos
       | None => pos
       end)
    agents positions.

(** After the loop: hung jury, or the forced plurality verdict. *)
Definition conclude (self : JuryProtocol) (current_votes : Tally)
  (vote_trajectory : list Tally) (key_arguments : list string)
  : M JuryVerdict :=
  if allow_hung_jury self
  then ret {| verdict := "Hung Jury";
              final_vote_counts := current_votes;
              rounds_taken := max_rounds self;
              consensus_reached := false;
              vote_trajectory := vote_trajectory;
              key_arguments := firstn 5 key_arguments;
              holdouts := _find_holdouts vote_trajectory |}
  else
    winner <- lift (argmax current_votes) ;;
    ret {| verdict := winner;
           final_vote_counts := current_votes;
           rounds_taken := max_rounds self;
           consensus_reached := false;
           vote_trajectory := vote_trajectory;
           key_arguments := firstn 5 key_arguments;
           holdouts := _find_holdouts vote_trajectory |}.

(** [for round_num in range(1, self.max_rounds + 1)], followed by the
    code after the loop. *)
Fixpoint deliberate (self : JuryProtocol) (agents : list Citizen)
  (case_summary : string) (options : list string) (rounds : list Z)
  (current_votes : Tally) (vote_trajectory : list Tally)
  (key_arguments : list string)
  (agent_positions : list (string * option string)) : M JuryVerdict :=
  match rounds with
  | [] => conclude self current_votes vote_trajectory key_arguments
  | round_num :: rounds' =>
      arguments <- _discussion_round agents current_votes case_summary
                                     round_num ;;
      let key_arguments' := (key_arguments ++ arguments)%list in
      new_votes <- _revote agents arguments options ;;
      let vote_trajectory' := (vote_trajectory ++ [new_votes])%list in
      s <- Protocol.get_state ;;
      let agent_positions' :=
        update_positions agents
          (Py.last_n (List.length agents) (ProtocolState.responses s))
          agent_positions in
      reached <- lift (_check_consensus self new_votes (Py.len agents)) ;;
      if reached : bool
      then
        winner <- lift (argmax new_votes) ;;
        ret {| verdict := winner;
               final_vote_counts := new_votes;
               rounds_taken := round_num;
               consensus_reached := true;
               vote_trajectory := vote_trajectory';
               key_arguments := firstn 5 key_arguments';
               holdouts := _find_holdouts vote_trajectory' |}
      else
        deliberate self agents case_summary options rounds' new_votes
                   vote_trajectory' key_arguments' agent_positions'
  end.

Definition execute (self : JuryProtocol) (agents : list Citizen)
  (context : Context) : M JuryVerdict :=
  if negb (validate_participation agents)
  then raise (Py.ValueError ("Jury requires 6-12 agents, got "
                             ++ Py.str (Py.len agents)))
  else
    let case_summary := Py.get (case_summary context) "" in
    let evidence := Py.get (evidence context) [] in
    let charges := Py.get (charges context) "" in
    let verdict_options :=
      Py.get (verdict_options context) ["Guilty"; "Not Guilty"] in
    let agent_positions :=
      fold_left (fun d a => dict_set (name a) None d) agents [] in
    current_votes <- _initial_vote agents case_summary evidence charges
                                   verdict_options ;;
    let vote_trajectory := [current_votes] in
    s <- Protocol.get_state ;;
    let agent_positions' :=
      update_positions agents (ProtocolState.responses s) agent_positions in
    reached <- lift (_check_consensus self current_votes (Py.len agents)) ;;
    if reached : bool
    then
      winner <- lift (argmax current_votes) ;;
      ret {| verdict := winner;
             final_vote_counts := current_votes;
             rounds_taken := 0;
             consensus_reached := true;
             vote_trajectory := vote_trajectory;
             key_arguments := [];
             holdouts := [] |}
    else
      deliberate self agents case_summary verdict_options
                 (Py.range 1 (max_rounds self + 1)) current_votes
                 vote_trajectory [] agent_positions'.

(** [simulate_trial] *)
Definition simulate_trial (agents : list Citizen) (case_summary charges : string)
  (evidence : list string) (max_rounds : Z) : M JuryVerdict :=
  execute {| max_rounds := max_rounds;
             required_consensus := (75 # 100)%Q;
             allow_hung_jury := true |}
          agents
          {| Jury.case_summary := Some case_summary;
             Jury.evidence := Some evidence;
             Jury.charges := Some charges;
             Jury.verdict_options := Some ["Guilty"; "Not Guilty"] |}.

End Jury.

(** ** [simulacrum/economy/negotiation.py] *)

Module Negotiation.
Import Persona.
Local Open Scope proto_scope.
Local Open Scope Q_scope.

Inductive NegotiationOutcome : Type :=
| SUCCESS
| FAILURE
| TIMEOUT.

Record Offer : Type := {
  round : Z;
  agent_id : string;
  role : string;
  price : Q;
  message : string
}.

Record NegotiationResult : Type := {
  outcome : NegotiationOutcome;
  final_price : option Q;
  rounds_taken : Z;
  offers : list Offer;
  buyer_id : string;
  seller_id : string;
  item : string;
  initial_ask : Q;
  initial_bid : Q;
  savings : option Q;
  premium : option Q
}.

Record NegotiationProtocol : Type := {
  max_rounds : Z;
  min_price_movement : Q;
  convergence_threshold : Q
}.

(** [NegotiationProtocol()] with the default arguments. *)
Definition default : NegotiationProtocol := {|
  max_rounds := 5;
  min_price_movement := 1;
  convergence_threshold := 5
|}.

Record Context : Type := {
  ctx_item : option string;
  seller_index : option Z;
  seller_reserve : option Q;
  buyer_max : option Q
}.

Definition validate_participation (agents : list Citizen) : bool :=
  (Py.len agents =? 2)%Z.

Definition _get_initial_ask (seller : Citizen) (reserve_price : Q) : Q :=
  let markup_factor :=
    if Py.Qlt_bool (7 # 10) (openness (traits seller)) then 18 # 10
    else if Py.Qlt_bool (7 # 10) (neuroticism (traits seller)) then 12 # 10
    else 15 # 10 in
  reserve_price * markup_factor.

Definition _get_initial_bid (buyer : Citizen) (max_price : Q) : Q :=
  let bid_factor :=
    if Py.Qlt_bool (7 # 10) (agreeableness (traits buyer)) then 75 # 100
    else if Py.Qlt_bool (7 # 10) (conscientiousness (traits buyer))
         then 65 # 100
         else 6 # 10 in
  max_price * bid_factor.

Definition seller_rate (seller : Citizen) : Q :=
  if Py.Qlt_bool (6 # 10) (agreeableness (traits seller)) then 4 # 10
  else if Py.Qlt_bool (6 # 10) (conscientiousness (traits seller))
       then 3 # 10
       else 2 # 10.

Definition _seller_counter (self : NegotiationProtocol) (seller : Citizen)
  (current_ask buyer_bid reserve : Q) (round_num : Z) : Py.res Q :=
  let gap := current_ask - buyer_bid in
  Py.rbind (Py.truediv (inject_Z round_num) (inject_Z (max_rounds self)))
    (fun pressure_factor =>
       let concession_rate := seller_rate seller * (1 + pressure_factor) in
       let new_ask := current_ask - gap * concession_rate in
       let new_ask := Py.max2 new_ask reserve in
       if Py.Qlt_bool (Qabs (new_ask - current_ask)) (min_price_movement self)
       then Py.Ok (Py.max2 (current_ask - min_price_movement self) reserve)
       else Py.Ok new_ask).

Definition buyer_rate (buyer : Citizen) : Q :=
  if Py.Qlt_bool (6 # 10) (agreeableness (traits buyer)) then 4 # 10
  else if Py.Qlt_bool (6 # 10) (openness (traits buyer)) then 35 # 100
       else 25 # 100.

Definition _buyer_counter (self : NegotiationProtocol) (buyer : Citizen)
  (current_bid seller_ask max_price : Q) (round_num : Z) : Py.res Q :=
  let gap := seller_ask - current_bid in
  Py.rbind (Py.truediv (inject_Z round_num) (inject_Z (max_rounds self)))
    (fun pressure_factor =>
       let concession_rate := buyer_rate buyer * (1 + pressure_factor) in
       let new_bid := current_bid + gap * concession_rate in
       let new_bid := Py.min2 new_bid max_price in
       if Py.Qlt_bool (Qabs (new_bid - current_bid)) (min_price_movement self)
       then Py.Ok (Py.min2 (current_bid + min_price_movement self) max_price)
       else Py.Ok new_bid).

Definition _create_success_result (buyer seller : Citizen) (item : string)
  (final_price initial_ask initial_bid : Q) (offers : list Offer)
  : NegotiationResult :=
  {| outcome := SUCCESS;
     final_price := Some final_price;
     rounds_taken :=
       (Py.len (filter (fun o => (0 <? round o)%Z) offers) / 2)%Z;
     offers := offers;
     buyer_id := name buyer;
     seller_id := name seller;
     item := item;
     initial_ask := initial_ask;
     initial_bid := initial_bid;
     savings := Some (initial_ask - final_price);
     premium := Some (final_price - initial_bid) |}.

(** [abs(ask - bid) <= self.convergence_threshold] *)
Definition converged (self : NegotiationProtocol) (ask bid : Q) : bool :=
  Qle_bool (Qabs (ask - bid)) (convergence_threshold self).

(** [for round_num in range(1, self.max_rounds + 1)], followed by the
    time-out result after the loop. *)
Fixpoint bargain (self : NegotiationProtocol) (buyer seller : Citizen)
  (item : string) (reserve max_price initial_ask initial_bid : Q)
  (rounds : list Z) (current_ask current_bid : Q) (offers : list Offer)
  : M NegotiationResult :=
  match rounds with
  | [] =>
      ret {| outcome := TIMEOUT;
             final_price := None;
             rounds_taken := max_rounds self;
             offers := offers;
             buyer_id := name buyer;
             seller_id := name seller;
             item := item;
             initial_ask := initial_ask;
             initial_bid := initial_bid;
             savings := None;
             premium := None |}
  | round_num :: rounds' =>
      current_ask' <- lift (_seller_counter self seller current_ask
                              current_bid reserve round_num) ;;
      let offers1 :=
        (offers ++ [{| round := round_num; agent_id := name seller;
                       role := "seller"; price := current_ask';
                       message := "Counter-offer" |}])%list in
      if converged self current_ask' current_bid
      then ret (_create_success_result buyer seller item
                  ((current_ask' + current_bid) / 2)
                  initial_ask initial_bid offers1)
      else
        current_bid' <- lift (_buyer_counter self buyer current_bid
                                current_ask' max_price round_num) ;;
        let offers2 :=
          (offers1 ++ [{| round := round_num; agent_id := name buyer;
                          role := "buyer"; price := current_bid';
                          message := "Counter-offer" |}])%list in
        if converged self current_ask' current_bid'
        then ret (_create_success_result buyer seller item
                    ((current_ask' + current_bid') / 2)
                    initial_ask initial_bid offers2)
        else bargain self buyer seller item reserve max_price
                     initial_ask initial_bid rounds'
                     current_ask' current_bid' offers2
  end.

Definition execute (self : NegotiationProtocol) (agents : list Citizen)
  (context : Context) : M NegotiationResult :=
  if negb (validate_participation agents)
  then raise (Py.ValueError "Negotiation requires exactly 2 agents")
  else
    let item := Py.get (ctx_item context) "Product"%string in
    let seller_index := Py.get (seller_index context) 0%Z in
    let buyer_index := (1 - seller_index)%Z in
    seller <- lift (Py.getitem agents seller_index) ;;
    buyer <- lift (Py.getitem agents buyer_index) ;;
    let seller_reserve := Py.get (seller_reserve context) 100 in
    let buyer_max := Py.get (buyer_max context) 200 in
    if Py.Qlt_bool buyer_max seller_reserve
    then ret {| outcome := FAILURE;
                final_price := None;
                rounds_taken := 0;
                offers := [];
                buyer_id := name buyer;
                seller_id := name seller;
                item := item;
                initial_ask := seller_reserve;
                initial_bid := buyer_max;
                savings := None;
                premium := None |}
    else
      let initial_ask := _get_initial_ask seller seller_reserve in
      let initial_bid := _get_initial_bid buyer buyer_max in
      let offers :=
        [ {| round := 0; agent_id := name seller; role := "seller";
             price := initial_ask; message := "Initial ask" |};
          {| round := 0; agent_id := name buyer; role := "buyer";
             price := initial_bid; message := "Initial bid" |} ] in
      if converged self initial_ask initial_bid
      then ret (_create_success_result buyer seller item
                  ((initial_ask + initial_bid) / 2)
                  initial_ask initial_bid offers)
      else bargain self buyer seller item seller_reserve buyer_max
                   initial_ask initial_bid
                   (Py.range 1 (max_rounds self + 1))
                   initial_ask initial_bid offers.

(** [negotiate_price] *)
Definition negotiate_price (buyer seller : Citizen) (item : string)
  (seller_reserve buyer_max : Q) (max_rounds : Z) : M NegotiationResult :=
  execute {| max_rounds := max_rounds;
             min_price_movement := 1;
             convergence_threshold := 5 |}
          [seller; buyer]
          {| ctx_item := Some item;
             Negotiation.seller_index := Some 0%Z;
             Negotiation.seller_reserve := Some seller_reserve;
             Negotiation.buyer_max := Some buyer_max |}.

End Negotiation.

(** * Properties *)

(** ** Vocabulary of the statements *)

Module Spec.

(** The largest count of a tally (0 for the empty tally). *)
Definition top_count (t : Tally) : Z :=
  match map snd t with
  | [] => 0%Z
  | c :: cs => fold_left Z.max cs c
  end.

(** [a / b] as an exact fraction. *)
Definition share (a b : Z) : Q := (inject_Z a / inject_Z b)%Q.

(** At least two options hold the largest count: the top two counts are
    equal. *)
Definition top_shared (t : Tally) : Prop :=
  (2 <= count_occ Z.eq_dec (map snd t) (top_count t))%nat.

(** Counts in decreasing order. *)
Definition ge_count (a b : string * Z) : Prop := (snd b <= snd a)%Z.

(** A citizen whose language model always gives the same answer. *)
Definition parrot (who answer : string) : Persona.Citizen :=
  {| Persona.name := who;
     Persona.traits :=
       {| Persona.openness := 1 # 2;
          Persona.conscientiousness := 1 # 2;
          Persona.extraversion := 1 # 2;
          Persona.agreeableness := 1 # 2;
          Persona.neuroticism := 1 # 2 |};
     Persona.llm := fun _ _ _ => Py.Ok answer |}.

(** The character [c] occurs in [s]. *)
Fixpoint occurs (c : ascii) (s : string) : bool :=
  match s with
  | EmptyString => false
  | String c' s' => (Ascii.eqb c' c || occurs c s')%bool
  end.



(** The participants answer: their language model does not fail. *)
Definition responsive (agents : list Persona.Citizen) : Prop :=
  forall a, In a agents ->
            forall history stim lbl,
              exists r, Persona.llm a history stim lbl = Py.Ok r.

(** A choice, when set, is one of the options. *)
Definition listed (options : list string) (c : option string) : Prop :=
  match c with
  | None => True
  | Some o => In o options
  end.

(** A complete ballot of [n] voters: every listed verdict got at least one
    vote and the counts add up to [n]. *)
Definition ballot (n : Z) (t : Tally) : Prop :=
  Forall (fun x => (0 < snd x)%Z) t
  /\ fold_right Z.add 0%Z (map snd t) = n.

(** The tally meets the jury's threshold: the share of its largest count
    among [n] jurors is at least [required_consensus]. *)
Definition meets (self : Jury.JuryProtocol) (n : Z) (t : Tally) : Prop :=
  (Jury.required_consensus self <= share (top_count t) n)%Q.

(** How often participants have been consulted, and how many messages and
    responses the protocol state holds. *)
Definition asked (w : World) : Z := Py.len (calls w).

Definition voiced (w : World) : Z :=
  Py.len (ProtocolState.messages (state w)).

Definition answered (w : World) : Z :=
  Py.len (ProtocolState.responses (state w)).

(** The place of an offer in the record of a negotiation: offer [i]
    belongs to round [i / 2], the seller speaks at even positions and the
    buyer at odd ones. *)
Definition turn (seller buyer : string) (i : nat) (o : Negotiation.Offer)
  : Prop :=
  Negotiation.round o = (Z.of_nat i / 2)%Z
  /\ Negotiation.agent_id o = (if Nat.even i then seller else buyer)
  /\ Negotiation.role o
     = (if Nat.even i then "seller" else "buyer")%string.

Definition in_turns (seller buyer : string)
  (offers : list Negotiation.Offer) : Prop :=
  forall i o, nth_error offers i = Some o -> turn seller buyer i o.

(** A counter-offer (an offer of round 1 or later) respects the limit of
    the party that makes it. *)
Definition within_limits (reserve max_price : Q) (o : Negotiation.Offer)
  : Prop :=
  (0 < Negotiation.round o)%Z ->
  (Negotiation.role o = "seller"%string -> (reserve <= Negotiation.price o)%Q)
  /\ (Negotiation.role o = "buyer"%string
      -> (Negotiation.price o <= max_price)%Q).

(** What the record of a negotiation that ran out of rounds shows: no price,
    and the last two offers still further apart than the threshold. *)
Definition timed_out (self : Negotiation.NegotiationProtocol)
  (r : Negotiation.NegotiationResult) : Prop :=
  Negotiation.rounds_taken r = Negotiation.max_rounds self
  /\ Negotiation.final_price r = None
  /\ Negotiation.savings r = None
  /\ Negotiation.premium r = None
  /\ exists rest a b,
      Negotiation.offers r = (rest ++ [a; b])%list
      /\ (Negotiation.convergence_threshold self
          < Qabs (Negotiation.price a - Negotiation.price b))%Q.

(** What the record of an agreement shows: the price is the midpoint of the
    last two offers, which are within the threshold of each other; savings
    and premium are measured from the opening offers; the rounds counted
    are the completed pairs of counter-offers. *)
Definition agreed (self : Negotiation.NegotiationProtocol)
  (r : Negotiation.NegotiationResult) : Prop :=
  Negotiation.rounds_taken r = ((Py.len (Negotiation.offers r) - 2) / 2)%Z
  /\ exists rest a b p,
      Negotiation.offers r = (rest ++ [a; b])%list
      /\ Negotiation.final_price r = Some p
      /\ (p == (Negotiation.price a + Negotiation.price b) / 2)%Q
      /\ (Qabs (Negotiation.price a - Negotiation.price b)
          <= Negotiation.convergence_threshold self)%Q
      /\ Negotiation.savings r = Some (Negotiation.initial_ask r - p)%Q
      /\ Negotiation.premium r = Some (p - Negotiation.initial_bid r)%Q.

(** The number of supporters listed per option of a breakdown. *)
Definition sizes (b : list (string * list string)) : Tally :=
  map (fun kl => (fst kl, Py.len (snd kl))) b.

(** The sum of the counts of a tally. *)
Definition tally_sum (t : Tally) : Z := fold_right Z.add 0%Z (map snd t).

End Spec.

(** ** Concrete runs used as examples *)

Module Examples.
Import Voting.
Local Open Scope string_scope.

Definition three_two : Tally := [("A", 3%Z); ("B", 2%Z)].

Definition four_two : Tally := [("A", 4%Z); ("B", 2%Z)].

Definition two_two : Tally := [("A", 2%Z); ("B", 2%Z)].

Definition cast (who option : string) : Vote :=
  {| choice := option;
     reasoning := None;
     raw_response := option;
     agent_id := who;
     agent := Spec.parrot who option |}.

(** Four votes for A and one for B. *)
Definition four_one : list Vote :=
  [cast "v1" "A"; cast "v2" "A"; cast "v3" "B"; cast "v4" "A"; cast "v5" "A"].

(** Two votes for A and two for B. *)
Definition two_each : list Vote :=
  [cast "v1" "A"; cast "v2" "B"; cast "v3" "B"; cast "v4" "A"].

Definition abstaining_protocol : VotingProtocol :=
  {| consensus_type := SIMPLE_MAJORITY;
     allow_abstention := true;
     require_reasoning := true |}.

Definition weighted_protocol : VotingProtocol :=
{| consensus_type := WEIGHTED;
   allow_abstention := false;
   require_reasoning := true |}.

(** A voter whose conscientiousness is 0. *)
Definition careless (who option : string) : Vote :=
{| choice := option;
   reasoning := None;
   raw_response := option;
   agent_id := who;
   agent :=
     {| Persona.name := who;
        Persona.traits :=
          {| Persona.openness := 1 # 2;
             Persona.conscientiousness := 0;
             Persona.extraversion := 1 # 2;
             Persona.agreeableness := 1 # 2;
             Persona.neuroticism := 1 # 2 |};
        Persona.llm := fun _ _ _ => Py.Ok option |} |}.

Definition unanimous_protocol : VotingProtocol :=
  {| consensus_type := UNANIMOUS;
     allow_abstention := false;
     require_reasoning := true |}.

(** Five voters, four options: A gets two votes, B, C and D one each. *)
Definition split_ballot : list Persona.Citizen :=
  [ Spec.parrot "v1" "VOTE: 1"; Spec.parrot "v2" "VOTE: 1";
    Spec.parrot "v3" "VOTE: 2"; Spec.parrot "v4" "VOTE: 3";
    Spec.parrot "v5" "VOTE: 4" ].

Definition four_options : Context :=
  {| question := Some "Which?"%string;
     options := Some ["A"; "B"; "C"; "D"]%string;
     background := None |}.

Definition no_options : Context :=
  {| question := Some "Which?"%string;
     options := None;
     background := None |}.



Definition nine_three_tally : Tally := [("Guilty", 9%Z); ("Not Guilty", 3%Z)].

Definition eight_four_tally : Tally := [("Guilty", 8%Z); ("Not Guilty", 4%Z)].

(** A jury of six that stays split three to three. *)
Definition three_three : list Persona.Citizen :=
  [ Spec.parrot "j1" "VOTE: Guilty"; Spec.parrot "j2" "VOTE: Not Guilty";
    Spec.parrot "j3" "VOTE: Guilty"; Spec.parrot "j4" "VOTE: Not Guilty";
    Spec.parrot "j5" "VOTE: Guilty"; Spec.parrot "j6" "VOTE: Not Guilty" ].

(** A jury of six that agrees at once. *)
Definition six_guilty : list Persona.Citizen :=
  [ Spec.parrot "j1" "VOTE: Guilty"; Spec.parrot "j2" "VOTE: Guilty";
    Spec.parrot "j3" "VOTE: Guilty"; Spec.parrot "j4" "VOTE: Guilty";
    Spec.parrot "j5" "VOTE: Guilty"; Spec.parrot "j6" "VOTE: Guilty" ].

Definition theft_case : Jury.Context :=
  {| Jury.case_summary := Some "Defendant accused of theft";
     Jury.evidence := Some ["Security footage"; "Witness testimony"];
     Jury.charges := Some "Grand Theft Auto";
     Jury.verdict_options := None |}.


Definition one_round : Jury.JuryProtocol :=
  {| Jury.max_rounds := 1%Z;
     Jury.required_consensus := (75 # 100)%Q;
     Jury.allow_hung_jury := true |}.


Definition seller : Persona.Citizen := Spec.parrot "seller" "I will sell".

Definition buyer : Persona.Citizen := Spec.parrot "buyer" "I will buy".

(** A negotiation protocol that allows a single round of counter-offers. *)
Definition one_shot : Negotiation.NegotiationProtocol :=
  {| Negotiation.max_rounds := 1%Z;
     Negotiation.min_price_movement := 1%Q;
     Negotiation.convergence_threshold := 5%Q |}.

(** [negotiate_price]-style contexts: the seller is agent 0. *)
Definition deal (seller_reserve buyer_max : Q) : Negotiation.Context :=
  {| Negotiation.ctx_item := Some "Vintage Guitar";
     Negotiation.seller_index := Some 0%Z;
     Negotiation.seller_reserve := Some seller_reserve;
     Negotiation.buyer_max := Some buyer_max |}.

End Examples.


(** ** The prelude *)

Section PreludeFacts.

Lemma getitem_head {A} (x : A) (l : list A) : Py.getitem (x :: l) 0 = Py.Ok x.
Proof.
  unfold Py.getitem. cbn [List.length nth_error Z.to_nat Z.ltb Z.compare].
  replace (0 <=? 0)%Z with true by reflexivity.
  replace (0 <? Z.of_nat (S (List.length l)))%Z with true; [reflexivity|].
  symmetry. apply Z.ltb_lt. lia.
Qed.

Lemma getitem_nil {A} (i : Z) : Py.getitem (@nil A) i = Py.Raise Py.IndexError.
Proof.
  unfold Py.getitem. cbn [List.length Z.of_nat].
  destruct (i <? 0)%Z eqn:Hi.
  - destruct (0 <=? 0 + i)%Z eqn:H1; [|reflexivity].
    apply Z.leb_le in H1. apply Z.ltb_lt in Hi. lia.
  - destruct (0 <=? i)%Z eqn:H1; [|reflexivity].
    destruct (i <? 0)%Z eqn:H2; [discriminate|reflexivity].
Qed.

Lemma inject_Z_zero (z : Z) : Qeq_bool (inject_Z z) 0 = false <-> z <> 0%Z.
Proof.
  split.
  - intros H Hz. subst z. discriminate H.
  - intros Hz. destruct (Qeq_bool (inject_Z z) 0) eqn:E; [|reflexivity].
    apply Qeq_bool_iff in E. unfold Qeq in E. cbn in E. lia.
Qed.

Lemma truediv_ok (a b : Z) :
  b <> 0%Z ->
  Py.truediv (inject_Z a) (inject_Z b) = Py.Ok (Spec.share a b).
Proof.
  intros Hb. unfold Py.truediv.
  rewrite (proj2 (inject_Z_zero b) Hb). reflexivity.
Qed.

Lemma Qlt_bool_iff (a b : Q) : Py.Qlt_bool a b = true <-> (a < b)%Q.
Proof.
  unfold Py.Qlt_bool. rewrite negb_true_iff.
  split.
  - intros H. apply Qnot_le_lt. intros Hle.
    apply Qle_bool_iff in Hle. congruence.
  - intros H. destruct (Qle_bool b a) eqn:E; [|reflexivity].
    apply Qle_bool_iff in E. apply Qle_not_lt in E. contradiction.
Qed.

Lemma Qlt_bool_false_iff (a b : Q) : Py.Qlt_bool a b = false <-> (b <= a)%Q.
Proof.
  unfold Py.Qlt_bool. rewrite negb_false_iff. apply Qle_bool_iff.
Qed.

End PreludeFacts.

(** ** Counting and [most_common] *)

Section CountingFacts.
Import Voting.
Local Open Scope Z_scope.

Lemma fold_max_ge_init (cs : list Z) (c : Z) : c <= fold_left Z.max cs c.
Proof.
  revert c. induction cs as [|x cs IH]; intros c; cbn; [lia|].
  specialize (IH (Z.max c x)). lia.
Qed.

Lemma fold_max_ge_all (cs : list Z) (c x : Z) :
  In x cs -> x <= fold_left Z.max cs c.
Proof.
  revert c. induction cs as [|y cs IH]; intros c Hin; [contradiction|].
  cbn. destruct Hin as [->|Hin].
  - pose proof (fold_max_ge_init cs (Z.max c x)). lia.
  - apply IH. exact Hin.
Qed.

Lemma fold_max_in (cs : list Z) (c : Z) : In (fold_left Z.max cs c) (c :: cs).
Proof.
  revert c. induction cs as [|y cs IH]; intros c; cbn; [now left|].
  destruct (IH (Z.max c y)) as [H|H].
  - rewrite <- H. destruct (Z.max_spec c y) as [[_ E]|[_ E]]; rewrite E; auto.
  - right. right. exact H.
Qed.

Lemma top_count_ge (t : Tally) (x : string * Z) :
  In x t -> snd x <= Spec.top_count t.
Proof.
  unfold Spec.top_count. destruct t as [|y t]; [contradiction|].
  cbn [map]. intros [->|Hin].
  - apply fold_max_ge_init.
  - apply fold_max_ge_all. apply in_map. exact Hin.
Qed.

Lemma top_count_in (t : Tally) :
  t <> [] -> exists x, In x t /\ snd x = Spec.top_count t.
Proof.
  intros Hne. destruct t as [|y t]; [congruence|].
  unfold Spec.top_count. cbn [map].
  destruct (fold_max_in (map snd t) (snd y)) as [H|H].
  - exists y. split; [now left|exact H].
  - apply in_map_iff in H. destruct H as [x [Hx Hin]].
    exists x. split; [now right|exact Hx].
Qed.

Lemma insert_desc_perm (x : string * Z) (l : Tally) :
  Permutation (insert_desc x l) (x :: l).
Proof.
  induction l as [|y l IH]; cbn; [constructor; constructor|].
  destruct (snd x <? snd y); [|reflexivity].
  rewrite IH. apply perm_swap.
Qed.

Lemma sorted_desc_perm (t : Tally) : Permutation (sorted_desc t) t.
Proof.
  induction t as [|x t IH]; cbn; [constructor|].
  rewrite insert_desc_perm. constructor. exact IH.
Qed.

Lemma insert_desc_sorted (x : string * Z) (l : Tally) :
  StronglySorted Spec.ge_count l ->
  StronglySorted Spec.ge_count (insert_desc x l).
Proof.
  induction 1 as [|y l Hs IH Hall]; cbn.
  - repeat constructor.
  - destruct (snd x <? snd y) eqn:E.
    + constructor; [exact IH|].
      apply (Permutation_Forall (Permutation_sym (insert_desc_perm x l))).
      constructor; [|exact Hall].
      unfold Spec.ge_count. apply Z.ltb_lt in E. lia.
    + apply Z.ltb_ge in E.
      constructor; [constructor; assumption|].
      constructor; [exact E|].
      eapply Forall_impl; [|exact Hall].
      unfold Spec.ge_count. intros a Ha. lia.
Qed.

Lemma sorted_desc_sorted (t : Tally) :
  StronglySorted Spec.ge_count (sorted_desc t).
Proof.
  induction t as [|x t IH]; cbn; [constructor|].
  apply insert_desc_sorted. exact IH.
Qed.

Lemma sorted_desc_nil (t : Tally) : sorted_desc t = [] -> t = [].
Proof.
  intros H. apply Permutation_nil.
  rewrite <- H. apply sorted_desc_perm.
Qed.

(** The first entry of the sorted tally carries the largest count. *)
Lemma sorted_head_top (t : Tally) (x : string * Z) (rest : Tally) :
  sorted_desc t = x :: rest -> snd x = Spec.top_count t.
Proof.
  intros Hs.
  assert (Hne : t <> []).
  { intros ->. discriminate Hs. }
  pose proof (sorted_desc_perm t) as Hp. rewrite Hs in Hp.
  pose proof (sorted_desc_sorted t) as Hsort. rewrite Hs in Hsort.
  assert (Hx : In x t).
  { apply (Permutation_in _ Hp). now left. }
  apply top_count_ge in Hx.
  destruct (top_count_in Hne) as [y [Hy Hytop]].
  apply (Permutation_in _ (Permutation_sym Hp)) in Hy.
  destruct Hy as [->|Hy]; [exact Hytop|].
  inversion Hsort as [|? ? _ Hall]; subst.
  rewrite Forall_forall in Hall. specialize (Hall y Hy).
  unfold Spec.ge_count in Hall. lia.
Qed.

Lemma most_common_1 (t : Tally) :
  t <> [] -> exists w, most_common 1 t = [(w, Spec.top_count t)].
Proof.
  intros Hne. unfold most_common.
  destruct (sorted_desc t) as [|[w c] rest] eqn:Hs.
  - apply sorted_desc_nil in Hs. contradiction.
  - exists w. cbn. apply sorted_head_top in Hs. cbn in Hs. now subst c.
Qed.

(** When two options hold the largest count, both head the sorted tally. *)
Lemma sorted_top_two (t : Tally) :
  Spec.top_shared t ->
  exists a b rest, sorted_desc t = a :: b :: rest
                   /\ snd a = Spec.top_count t /\ snd b = Spec.top_count t.
Proof.
  unfold Spec.top_shared. intros Hc.
  pose proof (sorted_desc_perm t) as Hp.
  pose proof (sorted_desc_sorted t) as Hsort.
  pose proof (proj1 (Permutation_count_occ Z.eq_dec _ _)
                (Permutation_map snd Hp) (Spec.top_count t)) as Hcnt.
  rewrite <- Hcnt in Hc. clear Hcnt.
  destruct (sorted_desc t) as [|a [|b rest]] eqn:Hs.
  - cbn in Hc. lia.
  - cbn in Hc. destruct (Z.eq_dec (snd a) (Spec.top_count t)); cbn in Hc; lia.
  - exists a, b, rest. split; [reflexivity|].
    assert (Ha : snd a = Spec.top_count t) by (eapply sorted_head_top; eauto).
    split; [exact Ha|].
    assert (Hb : In b t).
    { apply (Permutation_in _ Hp). right. now left. }
    apply top_count_ge in Hb.
    cbn [map count_occ] in Hc.
    destruct (Z.eq_dec (snd a) (Spec.top_count t)) as [_|]; [|contradiction].
    destruct (Z.eq_dec (snd b) (Spec.top_count t)) as [E|NE]; [exact E|].
    assert (Hin : In (Spec.top_count t) (map snd rest)).
    { apply (count_occ_In Z.eq_dec). lia. }
    apply in_map_iff in Hin. destruct Hin as [y [Hy Hin]].
    inversion Hsort as [|? ? Hsort' _]; subst.
    inversion Hsort' as [|? ? _ Hall]; subst.
    rewrite Forall_forall in Hall. specialize (Hall y Hin).
    unfold Spec.ge_count in Hall. lia.
Qed.

(** The tie test of the code: the two largest counts are equal. *)
Lemma tie_test_shared (t : Tally) :
  match most_common 2 t with
  | a :: b :: _ => snd a =? snd b
  | _ => false
  end = true <-> Spec.top_shared t.
Proof.
  split.
  - unfold most_common, Spec.top_shared.
    pose proof (sorted_desc_perm t) as Hp.
    rewrite <- (proj1 (Permutation_count_occ Z.eq_dec _ _)
                      (Permutation_map snd Hp) (Spec.top_count t)).
    destruct (sorted_desc t) as [|a [|b rest]] eqn:Es; cbn [firstn];
      try discriminate.
    intros Heq. apply Z.eqb_eq in Heq.
    pose proof (sorted_head_top _ Es) as Ha.
    cbn [map count_occ]. rewrite <- Heq, Ha.
    destruct (Z.eq_dec (Spec.top_count t) (Spec.top_count t)); [|congruence].
    lia.
  - intros Hs. destruct (sorted_top_two Hs) as [a [b [rest [Es [Ha Hb]]]]].
    unfold most_common. rewrite Es. cbn [firstn]. apply Z.eqb_eq. congruence.
Qed.


End CountingFacts.

(** ** The consensus rules of the voting protocol *)

Section VotingFacts.
Import Voting.
Local Open Scope Z_scope.

Lemma tally_add_nonempty (k : string) (n : Z) (t : Tally) :
  tally_add k n t <> [].
Proof.
  destruct t as [|[k' c] t]; cbn; [discriminate|].
  destruct (String.eqb k k'); discriminate.
Qed.

Lemma tally_add_sum (k : string) (n : Z) (t : Tally) :
  Spec.tally_sum (tally_add k n t) = Spec.tally_sum t + n.
Proof.
  unfold Spec.tally_sum. induction t as [|[k' c] t IH]; cbn; [lia|].
  destruct (String.eqb k k'); cbn; lia.
Qed.

Lemma tally_add_positive (k : string) (n : Z) (t : Tally) :
  0 < n -> Forall (fun x => 0 < snd x) t ->
  Forall (fun x => 0 < snd x) (tally_add k n t).
Proof.
  intros Hn. induction 1 as [|[k' c] t Hc Ht IH]; cbn.
  - repeat constructor. exact Hn.
  - destruct (String.eqb k k'); constructor; cbn in *; try lia; assumption.
Qed.

Lemma counter_fold (l : list string) (t : Tally) :
  Forall (fun x => 0 < snd x) t ->
  let t' := fold_left (fun t k => tally_add k 1 t) l t in
  Forall (fun x => 0 < snd x) t'
  /\ Spec.tally_sum t' = Spec.tally_sum t + Z.of_nat (List.length l)
  /\ (l <> [] -> t' <> []).
Proof.
  revert t. induction l as [|k l IH]; intros t Ht; cbn [fold_left].
  - cbn. repeat split; [exact Ht|lia|congruence].
  - destruct (IH (tally_add k 1 t)) as [H1 [H2 H3]].
    { apply tally_add_positive; [lia|exact Ht]. }
    cbv zeta in *. repeat split; [exact H1| |].
    + rewrite H2, tally_add_sum. cbn [List.length].
      rewrite Nat2Z.inj_succ. lia.
    + intros _. destruct l as [|k2 l]; [apply tally_add_nonempty|].
      apply H3. discriminate.
Qed.

Lemma positive_le_sum (t : Tally) (x : string * Z) :
  Forall (fun x => 0 < snd x) t -> In x t -> snd x <= Spec.tally_sum t.
Proof.
  unfold Spec.tally_sum. induction 1 as [|y t Hy Ht IH]; [contradiction|].
  cbn. intros [->|Hin]; [|specialize (IH Hin); lia].
  assert (0 <= fold_right Z.add 0 (map snd t)); [|lia].
  clear - Ht. induction Ht as [|z t Hz Ht IH]; cbn; lia.
Qed.

(** The tally of a non-empty ballot: not empty, and its largest count is
    between 1 and the number of votes. *)
Lemma counter_bounds (l : list string) :
  l <> [] ->
  Counter l <> []
  /\ 0 < Spec.top_count (Counter l) <= Py.len l.
Proof.
  intros Hne. unfold Counter.
  destruct (@counter_fold l [] (Forall_nil _)) as [Hpos [Hsum Hnn]].
  cbn in Hpos, Hsum, Hnn. specialize (Hnn Hne).
  split; [exact Hnn|].
  destruct (top_count_in Hnn) as [x [Hx Htop]].
  rewrite <- Htop. split.
  - rewrite Forall_forall in Hpos. apply Hpos. exact Hx.
  - pose proof (@positive_le_sum _ _ Hpos Hx) as Hle.
    unfold Py.len. lia.
Qed.

Lemma votes_len_nonzero (votes : list Vote) :
  votes <> [] -> Py.len votes <> 0.
Proof.
  destruct votes; [congruence|]. intros _. unfold Py.len. cbn. lia.
Qed.

(** What [_simple_majority] computes on a non-empty tally. *)
Lemma simple_majority_run (vc : Tally) (total : Z)
  (bd : list (string * list string)) :
  vc <> [] -> total <> 0 ->
  exists r q,
    _simple_majority vc total bd = Py.Ok r
    /\ VotingResult.confidence r = Some q
    /\ VotingResult.tied r
       = match most_common 2 vc with
         | a :: b :: _ => snd a =? snd b
         | _ => false
         end
    /\ VotingResult.is_decisive r
       = (Py.Qlt_bool (inject_Z total / 2) (inject_Z (Spec.top_count vc))
          && negb (VotingResult.tied r))%bool
    /\ (VotingResult.tied r = false -> q = Spec.share (Spec.top_count vc) total)
    /\ (VotingResult.tied r = true -> q = (1 # 2)%Q).
Proof.
  intros Hne Htot. unfold _simple_majority.
  destruct (most_common_1 Hne) as [w Hw]. rewrite Hw, getitem_head.
  cbn [Py.rbind]. unfold inject.
  replace (Py.truediv (inject_Z total) 2)
    with (Py.Ok (inject_Z total / 2)%Q) by reflexivity.
  cbn [Py.rbind].
  destruct (match most_common 2 vc with
            | a :: b :: _ => snd a =? snd b
            | _ => false
            end) eqn:Htied; cbn [negb Py.rbind].
  - eexists; eexists. split; [reflexivity|]. cbn.
    repeat split; try reflexivity; intros; congruence.
  - rewrite (truediv_ok _ Htot). cbn [Py.rbind].
    eexists; eexists. split; [reflexivity|]. cbn.
    repeat split; try reflexivity; intros; congruence.
Qed.

(** C1, as the code has it: under simple majority the tie flag is set
    exactly when at least two options share the largest count; the
    confidence is [max_count / total] whenever the flag is not set, in
    particular for every decisive result and also for a result that is
    neither decisive nor tied, and it is 0.5 whenever the flag is set.  The
    value 0.5 is not reserved for ties: an untied tally may give it as
    [max_count / total], as 2 votes of 4 do. *)
Theorem simple_majority_confidence (vc : Tally) (total : Z)
  (bd : list (string * list string)) (r : VotingResult.t) :
  _simple_majority vc total bd = Py.Ok r ->
  exists q,
    VotingResult.confidence r = Some q
    /\ (VotingResult.is_decisive r = true ->
        (q == Spec.share (Spec.top_count vc) total)%Q)
    /\ (VotingResult.tied r = false ->
        (q == Spec.share (Spec.top_count vc) total)%Q)
    /\ (VotingResult.tied r = true -> (q == 1 # 2)%Q)
    /\ (VotingResult.tied r = true <-> Spec.top_shared vc).
Proof.
  intros Hr.
  assert (Hne : vc <> []).
  { intros ->. unfold _simple_majority, most_common in Hr.
    cbn [sorted_desc firstn] in Hr. rewrite getitem_nil in Hr.
    cbn [Py.rbind] in Hr. discriminate Hr. }
  destruct (Z.eq_dec total 0) as [->|Htot].
  - unfold _simple_majority in Hr.
    destruct (most_common_1 Hne) as [w Hw]. rewrite Hw, getitem_head in Hr.
    cbn [Py.rbind] in Hr.
    replace (Py.truediv (inject 0) 2) with (Py.Ok (inject 0 / 2)%Q) in Hr
      by reflexivity.
    cbn [Py.rbind] in Hr.
    destruct (match most_common 2 vc with
              | a :: b :: _ => snd a =? snd b
              | _ => false
              end) eqn:Htied; cbn [negb Py.rbind] in Hr.
    + injection Hr as <-. exists (1 # 2)%Q. cbn. rewrite andb_false_r.
      split; [reflexivity|]. split; [intros H; discriminate H|].
      split; [intros H; discriminate H|]. split; [reflexivity|].
      split; [intros _; apply tie_test_shared; exact Htied|reflexivity].
    + replace (Py.truediv (inject (Spec.top_count vc)) (inject 0))
        with (@Py.Raise Q Py.ZeroDivisionError) in Hr by reflexivity.
      discriminate Hr.
  - destruct (simple_majority_run bd Hne Htot)
      as [r' [q [Hr' [Hq [Hflag [Hdec [Hfree Htie]]]]]]].
    rewrite Hr' in Hr. injection Hr as <-.
    exists q. split; [exact Hq|]. split; [|split; [|split]].
    + intros Hd. rewrite Hd in Hdec. symmetry in Hdec.
      apply andb_true_iff in Hdec. destruct Hdec as [_ Hnt].
      apply negb_true_iff in Hnt. rewrite (Hfree Hnt). reflexivity.
    + intros Hnt. rewrite (Hfree Hnt). reflexivity.
    + intros Ht. rewrite (Htie Ht). reflexivity.
    + rewrite Hflag. apply tie_test_shared.
Qed.

Lemma simple_majority_confidence_witness :
  exists r q,
    _simple_majority Examples.three_two 5 [] = Py.Ok r
    /\ VotingResult.confidence r = Some q
    /\ VotingResult.is_decisive r = true
    /\ (q == Spec.share (Spec.top_count Examples.three_two) 5)%Q.
Proof.
  eexists. 
  destruct (@simple_majority_confidence Examples.three_two 5 []
              (VotingResult.Build_t "A" Examples.three_two 5 SIMPLE_MAJORITY
                 true false (Some (3 # 5)%Q) []))
    as [q [Hq [Hdec _]]].
  - vm_compute. reflexivity.
  - exists q. split; [vm_compute; reflexivity|].
    split; [exact Hq|]. split; [reflexivity|]. apply Hdec. reflexivity.
Defined.

(** C1 as stated fails: a simple-majority result that is not decisive and
    not tied has confidence 2/5, not 0.5. *)
Lemma simple_majority_confidence_counterexample :
  exists r w,
    execute default Examples.split_ballot Examples.four_options Protocol.init = (Py.Ok r, w)
    /\ VotingResult.consensus_type r = SIMPLE_MAJORITY
    /\ VotingResult.is_decisive r = false
    /\ VotingResult.confidence r = Some (2 # 5)%Q
    /\ ~ (2 # 5 == 1 # 2)%Q.
Proof.
  eexists; eexists. split; [vm_compute; reflexivity|].
  cbn. repeat split. intros H. discriminate H.
Qed.

(** C6: under the supermajority rule the result is decisive exactly when
    [max_count >= (2/3) * total], the boundary included, and the
    confidence is [max_count / total] whether or not it is decisive. *)
Theorem supermajority_rule (vc : Tally) (total : Z)
  (bd : list (string * list string)) :
  vc <> [] -> total <> 0 ->
  exists r q,
    _supermajority vc total bd = Py.Ok r
    /\ (VotingResult.is_decisive r = true <->
        ((2 # 3) * inject_Z total <= inject_Z (Spec.top_count vc))%Q)
    /\ VotingResult.confidence r = Some q
    /\ (q == Spec.share (Spec.top_count vc) total)%Q.
Proof.
  intros Hne Htot. unfold _supermajority.
  destruct (most_common_1 Hne) as [w Hw]. rewrite Hw, getitem_head.
  cbn [Py.rbind]. unfold inject.
  replace (Py.truediv (inject_Z (2 * total)) 3)
    with (Py.Ok (inject_Z (2 * total) / 3)%Q) by reflexivity.
  cbn [Py.rbind]. rewrite (truediv_ok _ Htot). cbn [Py.rbind].
  eexists; eexists. split; [reflexivity|]. cbn.
  split; [|split; reflexivity].
  rewrite Qle_bool_iff. unfold Qle, Qdiv, Qmult, Qinv, inject_Z. cbn. lia.
Qed.

Lemma supermajority_rule_witness :
  exists r q,
    _supermajority Examples.four_two 6 [] = Py.Ok r
    /\ (VotingResult.is_decisive r = true <->
        ((2 # 3) * inject_Z 6 <= inject_Z (Spec.top_count Examples.four_two))%Q)
    /\ VotingResult.confidence r = Some q
    /\ (q == Spec.share (Spec.top_count Examples.four_two) 6)%Q.
Proof.
  apply (@supermajority_rule Examples.four_two 6 []).
  - discriminate.
  - lia.
Defined.

(** The two tallies of the specification: 4 of 6 is decisive, 3 of 5 is
    not. *)
Example supermajority_boundary :
  (exists r, _supermajority Examples.four_two 6 [] = Py.Ok r
             /\ VotingResult.is_decisive r = true)
  /\ (exists r, _supermajority Examples.three_two 5 [] = Py.Ok r
                /\ VotingResult.is_decisive r = false).
Proof.
  split; eexists; (split; [vm_compute; reflexivity|reflexivity]).
Qed.

(** What [_unanimous] computes on a non-empty tally. *)
Lemma unanimous_run (vc : Tally) (total : Z)
  (bd : list (string * list string)) :
  vc <> [] -> total <> 0 ->
  exists r q,
    _unanimous vc total bd = Py.Ok r
    /\ VotingResult.confidence r = Some q
    /\ VotingResult.tied r = false
    /\ VotingResult.is_decisive r = (Spec.top_count vc =? total)
    /\ (VotingResult.is_decisive r = true -> q = 1%Q)
    /\ (VotingResult.is_decisive r = false ->
        q = Spec.share (Spec.top_count vc) total).
Proof.
  intros Hne Htot. unfold _unanimous.
  destruct (most_common_1 Hne) as [w Hw]. rewrite Hw, getitem_head.
  cbn [Py.rbind]. unfold inject.
  destruct (Spec.top_count vc =? total) eqn:E; cbn [Py.rbind].
  - eexists; eexists. split; [reflexivity|]. cbn.
    repeat split; try reflexivity; try assumption; intros; congruence.
  - rewrite (truediv_ok _ Htot). cbn [Py.rbind].
    eexists; eexists. split; [reflexivity|]. cbn.
    repeat split; try reflexivity; try assumption; intros; congruence.
Qed.

Lemma share_one (a b : Z) :
  b <> 0 -> (Spec.share a b == 1)%Q <-> a = b.
Proof.
  intros Hb. unfold Spec.share. split.
  - intros H.
    assert (E : (inject_Z a == inject_Z b)%Q).
    { rewrite <- (Qmult_1_l (inject_Z b)), <- H.
      field. intros Hz. apply Hb.
      unfold Qeq in Hz. cbn in Hz. lia. }
    unfold Qeq in E. cbn in E. lia.
  - intros ->. field. intros Hz. apply Hb.
    unfold Qeq in Hz. cbn in Hz. lia.
Qed.

Lemma share_lt_one (a b : Z) :
  0 < b -> a < b -> (Spec.share a b < 1)%Q.
Proof.
  intros Hb Hab. unfold Spec.share.
  apply Qlt_shift_div_r.
  - unfold Qlt. cbn. lia.
  - rewrite Qmult_1_l. rewrite <- Zlt_Qlt. exact Hab.
Qed.

(** C7: under the unanimous rule a voting result is decisive exactly when
    the largest count is the number of votes, its confidence is 1 exactly
    when it is decisive, and otherwise the confidence is
    [max_count / total], below 1. *)
Theorem unanimous_rule (self : VotingProtocol) (votes : list Vote)
  (agents : list Persona.Citizen) :
  consensus_type self = UNANIMOUS -> votes <> [] ->
  exists r q,
    _calculate_result self votes agents = Py.Ok r
    /\ VotingResult.confidence r = Some q
    /\ (VotingResult.is_decisive r = true <->
        Spec.top_count (Counter (map choice votes)) = Py.len votes)
    /\ ((q == 1)%Q <-> VotingResult.is_decisive r = true)
    /\ (VotingResult.is_decisive r = false ->
        (q == Spec.share (Spec.top_count (Counter (map choice votes)))
                         (Py.len votes))%Q
        /\ (q < 1)%Q).
Proof.
  intros Hrule Hne. unfold _calculate_result. rewrite Hrule.
  assert (Hl : map choice votes <> []).
  { destruct votes; [congruence|discriminate]. }
  destruct (counter_bounds Hl) as [Hvc [Hpos Hle]].
  assert (Hlen : Py.len (map choice votes) = Py.len votes).
  { unfold Py.len. now rewrite length_map. }
  rewrite Hlen in Hle.
  pose proof (votes_len_nonzero Hne) as Htot.
  destruct (unanimous_run (build_breakdown votes) Hvc Htot)
    as [r [q [Hr [Hq [_ [Hdec [Hone Hfrac]]]]]]].
  exists r, q. split; [exact Hr|]. split; [exact Hq|].
  rewrite Hdec. split; [apply Z.eqb_eq|]. split.
  - split.
    + intros Hq1.
      destruct (Spec.top_count (Counter (map choice votes)) =? Py.len votes)
        eqn:E; [reflexivity|].
      rewrite Hdec in Hfrac. rewrite (Hfrac eq_refl) in Hq1.
      pose proof (proj1 (@share_one _ _ Htot) Hq1) as Heq.
      apply Z.eqb_neq in E. contradiction.
    + intros E. rewrite Hdec in Hone. rewrite (Hone E). reflexivity.
  - intros E. rewrite Hdec in Hfrac. rewrite (Hfrac E).
    split; [reflexivity|].
    apply Z.eqb_neq in E. apply share_lt_one; lia.
Qed.

Lemma unanimous_rule_witness :
  exists r q,
    _calculate_result Examples.unanimous_protocol Examples.four_one
                      Examples.split_ballot = Py.Ok r
    /\ VotingResult.confidence r = Some q
    /\ (VotingResult.is_decisive r = true <->
        Spec.top_count (Counter (map choice Examples.four_one))
        = Py.len Examples.four_one)
    /\ ((q == 1)%Q <-> VotingResult.is_decisive r = true)
    /\ (VotingResult.is_decisive r = false ->
        (q == Spec.share
                (Spec.top_count (Counter (map choice Examples.four_one)))
                (Py.len Examples.four_one))%Q
        /\ (q < 1)%Q).
Proof.
  apply (@unanimous_rule Examples.unanimous_protocol Examples.four_one
                         Examples.split_ballot).
  - reflexivity.
  - discriminate.
Defined.

(** A simple-majority tally whose top two counts are equal is reported
    tied and not decisive, whatever the share of the winner. *)
Lemma simple_majority_tie (vc : Tally) (total : Z)
  (bd : list (string * list string)) :
  Spec.top_shared vc ->
  exists r,
    _simple_majority vc total bd = Py.Ok r
    /\ VotingResult.tied r = true
    /\ VotingResult.is_decisive r = false
    /\ VotingResult.confidence r = Some (1 # 2)%Q.
Proof.
  intros Hshared. unfold _simple_majority.
  destruct (sorted_top_two Hshared) as [a [b [rest [Hs [Ha Hb]]]]].
  unfold most_common. rewrite Hs. cbn [firstn]. rewrite getitem_head.
  destruct a as [w c]. cbn [Py.rbind snd] in *.
  replace (Py.truediv (inject total) 2)
    with (Py.Ok (inject total / 2)%Q) by reflexivity.
  cbn [Py.rbind]. rewrite Ha, Hb, Z.eqb_refl. cbn [negb Py.rbind].
  eexists. split; [reflexivity|]. cbn.
  rewrite andb_false_r. repeat split.
Qed.

(** Peel the successful binds of a run that returned. *)
Ltac returned H :=
  repeat match type of H with
    | Py.rbind ?x _ = Py.Ok _ =>
        let E := fresh "E" in
        destruct x eqn:E; cbn [Py.rbind] in H; [|discriminate H]
    | (let (_, _) := ?p in _) = Py.Ok _ => destruct p
    end;
  injection H as H; subst.

Lemma simple_majority_tied_flag (vc : Tally) (total : Z)
  (bd : list (string * list string)) (r : VotingResult.t) :
  _simple_majority vc total bd = Py.Ok r ->
  VotingResult.tied r = true -> VotingResult.is_decisive r = false.
Proof.
  unfold _simple_majority. intros H. returned H. cbn.
  intros ->. apply andb_false_r.
Qed.

Lemma plurality_tied_flag (vc : Tally) (total : Z)
  (bd : list (string * list string)) (r : VotingResult.t) :
  _plurality vc total bd = Py.Ok r ->
  VotingResult.tied r = true -> VotingResult.is_decisive r = false.
Proof.
  unfold _plurality. intros H. returned H. cbn.
  intros ->. reflexivity.
Qed.

(** C8: in every voting result, under whichever consensus rule, a set
    tie flag excludes decisiveness; and a simple-majority tally whose top
    two option counts are equal is tied and not decisive. *)
Theorem tied_never_decisive (self : VotingProtocol) (votes : list Vote)
  (agents : list Persona.Citizen) (r : VotingResult.t) :
  _calculate_result self votes agents = Py.Ok r ->
  (VotingResult.tied r = true -> VotingResult.is_decisive r = false)
  /\ (consensus_type self = SIMPLE_MAJORITY ->
      Spec.top_shared (Counter (map choice votes)) ->
      VotingResult.tied r = true /\ VotingResult.is_decisive r = false).
Proof.
  intros Hr. split.
  - unfold _calculate_result in Hr.
    destruct (consensus_type self).
    + unfold _unanimous in Hr. returned Hr. cbn. discriminate.
    + eapply simple_majority_tied_flag; eassumption.
    + unfold _supermajority in Hr. returned Hr. cbn. discriminate.
    + eapply plurality_tied_flag; eassumption.
    + unfold _weighted in Hr. returned Hr. cbn. discriminate.
    + eapply simple_majority_tied_flag; eassumption.
  - intros Hrule Hshared. unfold _calculate_result in Hr.
    rewrite Hrule in Hr.
    destruct (simple_majority_tie (Py.len votes) (build_breakdown votes)
                                  Hshared) as [r' [Hr' [Ht [Hd _]]]].
    rewrite Hr' in Hr. injection Hr as <-. split; assumption.
Qed.

Lemma tied_never_decisive_witness :
  exists r,
    _calculate_result default Examples.two_each [] = Py.Ok r
    /\ VotingResult.tied r = true /\ VotingResult.is_decisive r = false.
Proof.
  eexists. split; [vm_compute; reflexivity|].
  apply (@tied_never_decisive default Examples.two_each []).
  - vm_compute. reflexivity.
  - reflexivity.
  - unfold Spec.top_shared. vm_compute. apply le_n.
Defined.

End VotingFacts.

(** ** Parsing a vote *)

Section ParsingFacts.
Import Voting.
Local Open Scope string_scope.

Lemma prefix_occurs (c : ascii) (sub s : string) :
  String.prefix sub s = true -> Spec.occurs c sub = true ->
  Spec.occurs c s = true.
Proof.
  revert s. induction sub as [|a sub IH]; intros s Hp Ho; [discriminate Ho|].
  destruct s as [|b s]; [discriminate Hp|].
  cbn in Hp. destruct (ascii_dec a b) as [->|]; [|discriminate Hp].
  cbn in Ho |- *. apply orb_true_iff in Ho. apply orb_true_iff.
  destruct Ho as [Ho|Ho]; [now left|right; now apply IH].
Qed.

Lemma contains_occurs (c : ascii) (sub s : string) :
  Py.contains sub s = true -> Spec.occurs c sub = true ->
  Spec.occurs c s = true.
Proof.
  intros Hc Ho. induction s as [|b s IH].
  - cbn in Hc. rewrite orb_false_r in Hc. eapply prefix_occurs; eassumption.
  - cbn [Py.contains] in Hc. apply orb_true_iff in Hc.
    destruct Hc as [Hc|Hc]; [eapply prefix_occurs; eassumption|].
    cbn. rewrite (IH Hc). apply orb_true_r.
Qed.

Lemma upper_char_colon (c : ascii) :
  Py.upper_char c = ":"%char -> c = ":"%char.
Proof.
  destruct c as [[] [] [] [] [] [] [] []]; vm_compute; intros H;
    first [reflexivity | discriminate H].
Qed.

Lemma occurs_upper_colon (s : string) :
  Spec.occurs ":" (Py.upper s) = true -> Spec.occurs ":" s = true.
Proof.
  induction s as [|c s IH]; [trivial|].
  unfold Py.upper in *. cbn [Py.smap Spec.occurs].
  intros H. apply orb_true_iff in H. apply orb_true_iff.
  destruct H as [H|H]; [left|right; now apply IH].
  apply Ascii.eqb_eq in H. apply upper_char_colon in H.
  subst c. reflexivity.
Qed.

Lemma split1_occurs (sep : ascii) (s : string) :
  Spec.occurs sep s = true -> exists a b, Py.split1 sep s = [a; b].
Proof.
  induction s as [|c s IH]; [discriminate|].
  cbn [Spec.occurs Py.split1]. destruct (Ascii.eqb c sep).
  - intros _. eexists; eexists; reflexivity.
  - cbn [orb]. intros H. destruct (IH H) as [a [b E]].
    rewrite E. eexists; eexists; reflexivity.
Qed.

(** A line that carries a keyword ending in a colon has a part after its
    first colon: [line.split(":", 1)[1]] does not raise. *)
Lemma after_colon (kw line : string) :
  Spec.occurs ":" kw = true ->
  Py.contains kw (Py.upper line) = true ->
  exists rest, Py.getitem (Py.split1 ":" line) 1 = Py.Ok rest.
Proof.
  intros Hkw Hc.
  pose proof (contains_occurs ":" _ _ Hc Hkw) as Ho.
  apply occurs_upper_colon in Ho.
  destruct (split1_occurs _ _ Ho) as [a [b E]].
  exists b. rewrite E. reflexivity.
Qed.

Lemma getitem_in_range {A} (l : list A) (i : Z) :
  (0 <= i < Py.len l)%Z -> exists x, Py.getitem l i = Py.Ok x.
Proof.
  unfold Py.len, Py.getitem. intros [H0 H1].
  destruct (i <? 0)%Z eqn:E; [apply Z.ltb_lt in E; lia|].
  apply Z.leb_le in H0. apply Z.ltb_lt in H1 as H1'. rewrite H0, H1'.
  cbn [andb].
  destruct (nth_error l (Z.to_nat i)) as [x|] eqn:En; [now exists x|].
  apply nth_error_None in En. apply Z.leb_le in H0. lia.
Qed.

Lemma structured_line_total (options lines : list string) (i : Z)
  (line : string) (acc : option string * option string) :
  (0 <= i)%Z ->
  exists acc', structured_line options lines i line acc = Py.Ok acc'.
Proof.
  intros Hi. unfold structured_line. destruct acc as [choice reason].
  assert (H1 : exists c,
             (if Py.contains "VOTE:" (Py.upper line)
              then Py.rbind (Py.getitem (Py.split1 ":" line) 1)
                     (fun rest =>
                        Py.Ok (vote_of_line options (Py.strip rest) choice))
              else Py.Ok choice) = Py.Ok c).
  { destruct (Py.contains "VOTE:" (Py.upper line)) eqn:E;
      [|eexists; reflexivity].
    destruct (after_colon "VOTE:" line eq_refl E) as [rest Hrest].
    rewrite Hrest. eexists; reflexivity. }
  destruct H1 as [c Hc]. rewrite Hc. cbn [Py.rbind].
  destruct (Py.contains "REASON:" (Py.upper line)) eqn:E;
    cbn [andb]; [|eexists; reflexivity].
  destruct (i <? Py.len lines)%Z; [|eexists; reflexivity].
  destruct (after_colon "REASON:" line eq_refl E) as [rest Hrest].
  rewrite Hrest. cbn [Py.rbind].
  destruct (negb (Py.truthy (Some (Py.strip rest)))); cbn [andb];
    [|eexists; reflexivity].
  destruct (i + 1 <? Py.len lines)%Z eqn:E2; [|eexists; reflexivity].
  apply Z.ltb_lt in E2.
  destruct (@getitem_in_range _ lines (i + 1)%Z) as [next Hnext]; [lia|].
  rewrite Hnext. eexists; reflexivity.
Qed.

Lemma structured_loop_total (options lines : list string) (rest : list string)
  (start : Z) (acc : option string * option string) :
  (0 <= start)%Z ->
  exists acc',
    structured_loop options lines (Py.enumerate rest start) acc = Py.Ok acc'.
Proof.
  revert start acc. induction rest as [|line rest IH]; intros start acc Hs.
  - eexists; reflexivity.
  - cbn [Py.enumerate structured_loop].
    destruct (structured_line_total options lines line acc Hs) as [acc1 H1].
    rewrite H1. cbn [Py.rbind]. apply IH. lia.
Qed.

(** The structured tier never raises. *)
Lemma structured_tier_total (response : string) (options : list string) :
  exists choice reason,
    structured_tier response options = Py.Ok (choice, reason).
Proof.
  unfold structured_tier.
  destruct (Py.contains "VOTE:" (Py.upper response));
    [|eexists; eexists; reflexivity].
  destruct (@structured_loop_total options
              (Py.split (ascii_of_nat 10) response)
              (Py.split (ascii_of_nat 10) response) 0 (None, None))
    as [[c r] H]; [lia|].
  exists c, r. exact H.
Qed.

(** A choice that is still empty after the last tier was empty after
    each of them. *)
Lemma falsy_through_tiers (response : string) (options : list string)
  (c1 : option string) :
  Py.truthy (number_tier response options
               (mention_tier response options c1)) = false ->
  Py.truthy c1 = false
  /\ Py.truthy (mention_tier response options c1) = false.
Proof.
  intros H.
  assert (H2 : Py.truthy (mention_tier response options c1) = false).
  { destruct (Py.truthy (mention_tier response options c1)) eqn:E;
      [|reflexivity].
    unfold number_tier in H. rewrite E in H. congruence. }
  split; [|exact H2].
  destruct (Py.truthy c1) eqn:E; [|reflexivity].
  unfold mention_tier in H2. rewrite E in H2. congruence.
Qed.

Lemma parse_vote_after_tiers (self : VotingProtocol) (response : string)
  (first : string) (others : list string)
  (c1 : option string) (reason : option string) :
  structured_tier response (first :: others) = Py.Ok (c1, reason) ->
  Py.truthy (number_tier response (first :: others)
               (mention_tier response (first :: others) c1)) = false ->
  _parse_vote self response (first :: others)
  = Py.Ok {| vd_choice := if allow_abstention self then "ABSTAIN" else first;
             vd_reasoning := reason;
             vd_raw_response := response |}.
Proof.
  intros H1 H3. unfold _parse_vote.
  rewrite H1. cbn [Py.rbind]. rewrite H3.
  destruct (allow_abstention self); cbn [Py.rbind]; [reflexivity|].
  rewrite getitem_head. reflexivity.
Qed.

(** C9: when none of the three tiers (the structured [VOTE:] line, the
    option text, the number in the first 50 characters) yields a vote, the
    parsed choice is the abstention when abstention is allowed, and the
    first listed option otherwise. *)
Theorem parse_vote_fallback (self : VotingProtocol) (response : string)
  (first : string) (others : list string)
  (c1 : option string) (reason : option string) :
  structured_tier response (first :: others) = Py.Ok (c1, reason) ->
  Py.truthy c1 = false ->
  Py.truthy (mention_tier response (first :: others) c1) = false ->
  Py.truthy (number_tier response (first :: others)
               (mention_tier response (first :: others) c1)) = false ->
  _parse_vote self response (first :: others)
  = Py.Ok {| vd_choice := if allow_abstention self then "ABSTAIN" else first;
             vd_reasoning := reason;
             vd_raw_response := response |}.
Proof.
  intros H1 _ _ H3. now apply parse_vote_after_tiers with (c1 := c1).
Qed.

Lemma parse_vote_fallback_witness :
  _parse_vote default "Hmm, let me think" ["Yes"; "No"]
  = Py.Ok {| vd_choice := "Yes";
             vd_reasoning := None;
             vd_raw_response := "Hmm, let me think" |}
  /\ _parse_vote Examples.abstaining_protocol "Hmm, let me think" ["Yes"; "No"]
     = Py.Ok {| vd_choice := "ABSTAIN";
                vd_reasoning := None;
                vd_raw_response := "Hmm, let me think" |}.
Proof.
  split.
  - apply (@parse_vote_fallback default "Hmm, let me think" "Yes" ["No"]
                                None None); vm_compute; reflexivity.
  - apply (@parse_vote_fallback Examples.abstaining_protocol
             "Hmm, let me think" "Yes" ["No"] None None);
      vm_compute; reflexivity.
Defined.

(** With at least one option, [_parse_vote] always returns a vote. *)
Lemma parse_vote_total (self : VotingProtocol) (response : string)
  (first : string) (others : list string) :
  exists vote_data,
    _parse_vote self response (first :: others) = Py.Ok vote_data.
Proof.
  unfold _parse_vote.
  destruct (structured_tier_total response (first :: others))
    as [c [r H]].
  rewrite H. cbn [Py.rbind].
  destruct (Py.truthy _); cbn [Py.rbind]; [eexists; reflexivity|].
  destruct (allow_abstention self); cbn [Py.rbind]; [eexists; reflexivity|].
  rewrite getitem_head. eexists; reflexivity.
Qed.

(** The same in terms of the text: a response without a [VOTE:] marker,
    without the text of any option and without the position of any option
    among its first 50 characters falls back. *)
Lemma parse_vote_no_clue (self : VotingProtocol) (response : string)
  (first : string) (others : list string) :
  let options := first :: others in
  Py.contains "VOTE:" (Py.upper response) = false ->
  (forall o, In o options ->
             Py.contains (Py.lower o) (Py.lower response) = false) ->
  (forall io, In io (Py.enumerate options 1) ->
              Py.contains (Py.str (fst io)) (Py.take 50 response) = false) ->
  _parse_vote self response options
  = Py.Ok {| vd_choice := if allow_abstention self then "ABSTAIN" else first;
             vd_reasoning := None;
             vd_raw_response := response |}.
Proof.
  intros options Hv Hm Hn.
  assert (E1 : structured_tier response options = Py.Ok (None, None)).
  { unfold structured_tier. now rewrite Hv. }
  assert (E2 : mention_tier response options None = None).
  { unfold mention_tier. cbn [Py.truthy].
    destruct (find _ options) as [o|] eqn:F; [|reflexivity].
    apply find_some in F. destruct F as [Hin Hc].
    rewrite (Hm o Hin) in Hc. discriminate Hc. }
  assert (E3 : number_tier response options None = None).
  { unfold number_tier. cbn [Py.truthy].
    destruct (find _ (Py.enumerate options 1)) as [io|] eqn:F; [|reflexivity].
    apply find_some in F. destruct F as [Hin Hc].
    rewrite (Hn io Hin) in Hc. discriminate Hc. }
  apply parse_vote_after_tiers with (c1 := None); [exact E1|].
  fold options. rewrite E2, E3. reflexivity.
Qed.

End ParsingFacts.

(** ** Running the voting protocol *)

Section VotingRunFacts.
Import Voting.
Local Open Scope string_scope.

(** C10: with at least two agents and an empty or missing list of options,
    [execute] raises before any participant is consulted and leaves the
    protocol state as it was: no result is recorded and the completion
    flag stays false. *)
Theorem execute_without_options (self : VotingProtocol)
  (agents : list Persona.Citizen) (context : Context) (w : World) :
  (2 <= List.length agents)%nat ->
  options context = None \/ options context = Some [] ->
  ProtocolState.is_complete (state w) = false ->
  exists e w',
    execute self agents context w = (Py.Raise e, w')
    /\ e = Py.ValueError "Voting requires options to choose from"
    /\ calls w' = calls w
    /\ state w' = state w
    /\ ProtocolState.is_complete (state w') = false.
Proof.
  intros Hlen Hopt Hflag.
  exists (Py.ValueError "Voting requires options to choose from"), w.
  split; [|repeat split; exact Hflag].
  unfold execute, validate_participation, Py.len.
  replace (2 <=? Z.of_nat (List.length agents))%Z with true
    by (symmetry; apply Z.leb_le; lia).
  cbn [negb]. destruct Hopt as [-> | ->]; reflexivity.
Qed.

Lemma execute_without_options_witness :
  exists e w',
    execute default Examples.split_ballot Examples.no_options Protocol.init
    = (Py.Raise e, w')
    /\ e = Py.ValueError "Voting requires options to choose from"
    /\ calls w' = calls Protocol.init
    /\ state w' = state Protocol.init
    /\ ProtocolState.is_complete (state w') = false.
Proof.
  apply (@execute_without_options default Examples.split_ballot
           Examples.no_options Protocol.init).
  - cbn. lia.
  - left. reflexivity.
  - reflexivity.
Defined.

(** With options, the same agents are consulted and a result is
    recorded. *)
Example execute_with_options :
  exists r w',
    execute default Examples.split_ballot Examples.four_options Protocol.init
    = (Py.Ok r, w')
    /\ List.length (calls w') = 5%nat
    /\ ProtocolState.is_complete (state w') = true
    /\ ProtocolState.result (state w') = Some r.
Proof.
  eexists; eexists. split; [vm_compute; reflexivity|].
  repeat split.
Qed.

End VotingRunFacts.

(** ** The monad of runs *)

Section RunFacts.

Lemma bind_ok {A B} (m : M A) (k : A -> M B) (w w' : World) (b : B) :
  bind m k w = (Py.Ok b, w') ->
  exists a w1, m w = (Py.Ok a, w1) /\ k a w1 = (Py.Ok b, w').
Proof.
  unfold bind. destruct (m w) as [[a|e] w1]; intros H.
  - exists a, w1. split; [reflexivity|exact H].
  - discriminate H.
Qed.

Lemma bind_run {A B} (m : M A) (k : A -> M B) (w w1 : World) (a : A) :
  m w = (Py.Ok a, w1) -> bind m k w = k a w1.
Proof. unfold bind. intros ->. reflexivity. Qed.

Lemma lift_ok {A} (r : Py.res A) (w w' : World) (a : A) :
  lift r w = (Py.Ok a, w') -> r = Py.Ok a /\ w' = w.
Proof. unfold lift. intros H. injection H as -> ->. split; reflexivity. Qed.

Lemma range_nil (a b : Z) : (b <= a)%Z -> Py.range a b = [].
Proof.
  intros H. unfold Py.range.
  replace (Z.to_nat (b - a)) with O by lia. reflexivity.
Qed.

Lemma range_cons (a b : Z) :
  (a < b)%Z -> Py.range a b = a :: Py.range (a + 1) b.
Proof.
  intros H. unfold Py.range.
  replace (Z.to_nat (b - a)) with (S (Z.to_nat (b - (a + 1)))) by lia.
  cbn [seq map]. f_equal; [lia|].
  rewrite <- seq_shift, map_map. apply map_ext. intros i. lia.
Qed.

End RunFacts.

(** ** Jury deliberation *)

Section JuryFacts.
Import Jury.
Local Open Scope Z_scope.

Lemma argmax_nonempty (t : Tally) :
  t <> [] -> exists winner, argmax t = Py.Ok winner.
Proof.
  destruct t as [|x t]; [congruence|]. intros _. eexists; reflexivity.
Qed.

(** The consensus check compares the exact fraction with the threshold. *)
Lemma check_consensus_exact (self : JuryProtocol) (votes : Tally) (n : Z) :
  votes <> [] -> n <> 0 ->
  _check_consensus self votes n
  = Py.Ok (Qle_bool (required_consensus self)
                    (Spec.share (Spec.top_count votes) n)).
Proof.
  intros Hne Hn. unfold _check_consensus, Spec.top_count, Py.max_list.
  destruct votes as [|x votes]; [congruence|].
  cbn [map Py.rbind]. rewrite (truediv_ok _ Hn). reflexivity.
Qed.



(** Round 0 of [execute]: the initial ballot, then the consensus check. *)
Lemma execute_initial_ballot (self : JuryProtocol)
  (agents : list Persona.Citizen) (context : Context) (w w1 : World)
  (votes : Tally) (reached : bool) :
  validate_participation agents = true ->
  _initial_vote agents (Py.get (case_summary context) ""%string)
                (Py.get (evidence context) [])
                (Py.get (charges context) ""%string)
                (Py.get (verdict_options context)
                        ["Guilty"; "Not Guilty"]%string) w
  = (Py.Ok votes, w1) ->
  _check_consensus self votes (Py.len agents) = Py.Ok reached ->
  execute self agents context w
  = if reached
    then bind (lift (argmax votes))
           (fun winner =>
              ret {| verdict := winner;
                     final_vote_counts := votes;
                     rounds_taken := 0;
                     consensus_reached := true;
                     vote_trajectory := [votes];
                     key_arguments := [];
                     holdouts := [] |}) w1
    else deliberate self agents (Py.get (case_summary context) ""%string)
           (Py.get (verdict_options context) ["Guilty"; "Not Guilty"]%string)
           (Py.range 1 (max_rounds self + 1)) votes [votes] []
           (update_positions agents (ProtocolState.responses (state w1))
              (fold_left (fun d a => dict_set (Persona.name a) None d)
                         agents [])) w1.
Proof.
  intros Hvalid Hballot Hcheck. unfold execute. rewrite Hvalid. cbn [negb].
  rewrite (@bind_run _ _ _ _ _ _ _ Hballot).
  unfold Protocol.get_state at 1. unfold bind at 1.
  unfold lift at 1. unfold bind at 1. rewrite Hcheck.
  destruct reached; reflexivity.
Qed.

(** One deliberation round: discussion, re-vote, consensus check. *)
Lemma deliberate_round (self : JuryProtocol) (agents : list Persona.Citizen)
  (case_summary : string) (options : list string) (round_num : Z)
  (rounds : list Z) (current_votes : Tally) (trajectory : list Tally)
  (key_args : list string) (positions : list (string * option string))
  (w w1 w2 : World) (arguments : list string) (votes : Tally)
  (reached : bool) :
  _discussion_round agents current_votes case_summary round_num w
  = (Py.Ok arguments, w1) ->
  _revote agents arguments options w1 = (Py.Ok votes, w2) ->
  _check_consensus self votes (Py.len agents) = Py.Ok reached ->
  deliberate self agents case_summary options (round_num :: rounds)
             current_votes trajectory key_args positions w
  = if reached
    then bind (lift (argmax votes))
           (fun winner =>
              ret {| verdict := winner;
                     final_vote_counts := votes;
                     rounds_taken := round_num;
                     consensus_reached := true;
                     vote_trajectory := trajectory ++ [votes];
                     key_arguments := firstn 5 (key_args ++ arguments);
                     holdouts := [] |}) w2
    else deliberate self agents case_summary options rounds votes
           (trajectory ++ [votes]) (key_args ++ arguments)
           (update_positions agents
              (Py.last_n (List.length agents)
                         (ProtocolState.responses (state w2)))
              positions) w2.
Proof.
  intros Hdisc Hvote Hcheck. cbn [deliberate].
  rewrite (@bind_run _ _ _ _ _ _ _ Hdisc), (@bind_run _ _ _ _ _ _ _ Hvote).
  unfold Protocol.get_state at 1. unfold bind at 1.
  unfold lift at 1. unfold bind at 1. rewrite Hcheck.
  destruct reached; reflexivity.
Qed.

(** The two tallies of the specification. *)
Example consensus_nine_not_eight :
  _check_consensus default Examples.nine_three_tally 12 = Py.Ok true
  /\ _check_consensus default Examples.eight_four_tally 12 = Py.Ok false.
Proof. split; reflexivity. Qed.

Lemma get_state_ok (w w' : World) (s : ProtocolState.t) :
  Protocol.get_state w = (Py.Ok s, w') -> s = state w /\ w' = w.
Proof.
  unfold Protocol.get_state. intros H. injection H as <- <-.
  split; reflexivity.
Qed.


Lemma len_app_one {A} (l : list A) (x : A) :
  Py.len (l ++ [x]) = Py.len l + 1.
Proof. unfold Py.len. rewrite length_app. cbn. lia. Qed.





(** *** Runs of the jury return *)

Lemma split_nonempty (sep : ascii) (s : string) :
  exists h t, Py.split sep s = h :: t.
Proof.
  induction s as [|c s [h [t IH]]]; cbn [Py.split].
  - eexists; eexists; reflexivity.
  - destruct (Ascii.eqb c sep); [eexists; eexists; reflexivity|].
    rewrite IH. eexists; eexists; reflexivity.
Qed.

Lemma upper_char_newline (c : ascii) :
  Py.upper_char c = ascii_of_nat 10 -> c = ascii_of_nat 10.
Proof.
  destruct c as [[] [] [] [] [] [] [] []]; vm_compute; intros H;
    first [reflexivity | discriminate H].
Qed.

(** A keyword without a line break that starts the text starts its first
    line. *)
Lemma prefix_first_line (kw : string) :
  Spec.occurs (ascii_of_nat 10) kw = false ->
  forall s h t,
    Py.split (ascii_of_nat 10) s = h :: t ->
    String.prefix kw (Py.upper s) = true ->
    String.prefix kw (Py.upper h) = true.
Proof.
  induction kw as [|k kw IH]; intros Hnl s h t Hsplit Hp;
    [destruct (Py.upper h); reflexivity|].
  cbn [Spec.occurs] in Hnl. apply orb_false_iff in Hnl.
  destruct Hnl as [Hk Hnl].
  destruct s as [|c s]; [discriminate Hp|].
  unfold Py.upper in *. cbn [Py.smap String.prefix] in Hp.
  destruct (ascii_dec k (Py.upper_char c)) as [->|]; [|discriminate Hp].
  cbn [Py.split] in Hsplit.
  destruct (Ascii.eqb c (ascii_of_nat 10)) eqn:Ec.
  - apply Ascii.eqb_eq in Ec. subst c. discriminate Hk.
  - destruct (split_nonempty (ascii_of_nat 10) s) as [h' [t' Hs]].
    rewrite Hs in Hsplit. injection Hsplit as <- <-.
    cbn [Py.smap String.prefix].
    destruct (ascii_dec (Py.upper_char c) (Py.upper_char c)); [|congruence].
    eapply IH; eassumption.
Qed.

Lemma contains_cons (kw : string) (c : ascii) (s : string) :
  Py.contains kw s = true -> Py.contains kw (String c s) = true.
Proof. intros H. cbn [Py.contains]. rewrite H. apply orb_true_r. Qed.

(** A keyword without a line break that occurs in the text occurs in one of
    its lines. *)
Lemma contains_in_line (kw : string) (s : string) :
  kw <> EmptyString ->
  Spec.occurs (ascii_of_nat 10) kw = false ->
  Py.contains kw (Py.upper s) = true ->
  exists line,
    In line (Py.split (ascii_of_nat 10) s)
    /\ Py.contains kw (Py.upper line) = true.
Proof.
  intros Hkw Hnl. induction s as [|c s IH]; intros Hc.
  - exists EmptyString. split; [now left|exact Hc].
  - destruct (split_nonempty (ascii_of_nat 10) s) as [h [t Hs]].
    unfold Py.upper in Hc. cbn [Py.smap Py.contains] in Hc.
    fold (Py.upper s) in Hc. apply orb_true_iff in Hc.
    cbn [Py.split]. destruct (Ascii.eqb c (ascii_of_nat 10)) eqn:Ec.
    + destruct Hc as [Hp|Hc].
      * exfalso. destruct kw as [|k kw]; [congruence|].
        cbn [String.prefix] in Hp.
        destruct (ascii_dec k (Py.upper_char c)) as [->|]; [|discriminate Hp].
        apply Ascii.eqb_eq in Ec. subst c.
        cbn [Spec.occurs] in Hnl. discriminate Hnl.
      * destruct (IH Hc) as [line [Hin Hl]].
        exists line. split; [now right|exact Hl].
    + rewrite Hs. destruct Hc as [Hp|Hc].
      * exists (String c h). split; [now left|].
        unfold Py.upper. cbn [Py.smap Py.contains]. apply orb_true_iff. left.
        apply (@prefix_first_line kw Hnl (String c s) (String c h) t).
        -- cbn [Py.split]. rewrite Ec, Hs. reflexivity.
        -- exact Hp.
      * destruct (IH Hc) as [line [Hin Hl]]. rewrite Hs in Hin.
        destruct Hin as [<-|Hin].
        -- exists (String c h). split; [now left|].
           unfold Py.upper. cbn [Py.smap]. apply contains_cons. exact Hl.
        -- exists line. split; [now right|exact Hl].
Qed.

(** With at least one verdict option, [_parse_jury_vote] returns a vote. *)
Lemma parse_jury_vote_total (response : string) (first : string)
  (others : list string) :
  exists vote, _parse_jury_vote response (first :: others) = Py.Ok vote.
Proof.
  unfold _parse_jury_vote.
  assert (Hfall : exists vote,
             (if Py.contains "NOT GUILTY" (Py.upper response)
              then Py.Ok "Not Guilty"%string
              else if Py.contains "GUILTY" (Py.upper response)
                   then Py.Ok "Guilty"%string
                   else Py.getitem (first :: others) 0) = Py.Ok vote).
  { destruct (Py.contains "NOT GUILTY" _); [eexists; reflexivity|].
    destruct (Py.contains "GUILTY" _); [eexists; reflexivity|].
    rewrite getitem_head. eexists; reflexivity. }
  destruct (Py.contains "VOTE:" (Py.upper response)) eqn:Hv; [|exact Hfall].
  destruct (@contains_in_line "VOTE:" response) as [line [Hin Hl]];
    [discriminate|reflexivity|exact Hv|].
  destruct (filter (fun l => Py.contains "VOTE:" (Py.upper l))
                   (Py.split (ascii_of_nat 10) response))
    as [|vote_line rest] eqn:Hf.
  - exfalso. assert (Hin' : In line []).
    { rewrite <- Hf. apply filter_In. split; assumption. }
    contradiction.
  - rewrite getitem_head. cbn [Py.rbind].
    assert (Hvl : Py.contains "VOTE:" (Py.upper vote_line) = true).
    { assert (Hin' : In vote_line (vote_line :: rest)) by now left.
      rewrite <- Hf in Hin'. apply filter_In in Hin'. apply Hin'. }
    destruct (@after_colon "VOTE:" vote_line eq_refl Hvl) as [text Ht].
    rewrite Ht. cbn [Py.rbind].
    destruct (_ && _)%bool; [eexists; reflexivity|].
    destruct (Py.contains "NOT GUILTY" (Py.upper (Py.strip text)));
      [eexists; reflexivity|exact Hfall].
Qed.

Lemma think_returns (a : Persona.Citizen) (stim lbl : string) (w : World) :
  (exists r, Persona.llm a (calls w) stim lbl = Py.Ok r) ->
  exists r w1, Protocol.think a stim lbl w = (Py.Ok r, w1).
Proof.
  intros [r Hr]. unfold Protocol.think. rewrite Hr.
  eexists; eexists; reflexivity.
Qed.

Lemma ballot_loop_returns (prompt lbl : string) (first : string)
  (others : list string) (agents : list Persona.Citizen) :
  Spec.responsive agents ->
  forall (votes : Tally) (w : World),
  exists tally w',
    ballot_loop prompt lbl (first :: others) agents votes w
    = (Py.Ok tally, w')
    /\ (votes <> [] \/ agents <> [] -> tally <> []).
Proof.
  induction agents as [|a agents IH]; intros Hresp votes w.
  - exists votes, w. split; [reflexivity|]. intros [H|H]; congruence.
  - cbn [ballot_loop].
    destruct (@think_returns a prompt lbl w) as [response [w1 Hthink]].
    { apply Hresp. now left. }
    rewrite (@bind_run _ _ _ _ _ _ _ Hthink).
    destruct (parse_jury_vote_total response first others) as [vote Hvote].
    unfold lift at 1. unfold bind at 1. rewrite Hvote.
    unfold Protocol.log_response, Protocol.modify_state. unfold bind at 1.
    edestruct (IH (fun x Hx => Hresp x (or_intror Hx)))
      as [tally [w' [Hrun Hne]]].
    exists tally, w'. split; [exact Hrun|].
    intros _. apply Hne. left. apply tally_add_nonempty.
Qed.

Lemma discussion_loop_returns (prompt : string)
  (agents : list Persona.Citizen) :
  Spec.responsive agents ->
  forall (arguments : list string) (w : World),
  exists result w',
    discussion_loop prompt agents arguments w = (Py.Ok result, w').
Proof.
  induction agents as [|a agents IH]; intros Hresp arguments w.
  - exists arguments, w. reflexivity.
  - cbn [discussion_loop].
    destruct (@think_returns a prompt "Jury deliberation argument" w)
      as [argument [w1 Hthink]].
    { apply Hresp. now left. }
    rewrite (@bind_run _ _ _ _ _ _ _ Hthink).
    unfold Protocol.log_message, Protocol.modify_state. unfold bind at 1.
    apply IH. intros x Hx. apply Hresp. now right.
Qed.

Lemma check_consensus_returns (self : JuryProtocol) (votes : Tally) (n : Z) :
  n <> 0 -> exists reached, _check_consensus self votes n = Py.Ok reached.
Proof.
  intros Hn. destruct votes as [|x votes]; [eexists; reflexivity|].
  rewrite check_consensus_exact by (discriminate || assumption).
  eexists; reflexivity.
Qed.

Lemma deliberate_returns (self : JuryProtocol) (agents : list Persona.Citizen)
  (case_summary : string) (first : string) (others : list string)
  (rounds : list Z) :
  Spec.responsive agents -> agents <> [] ->
  forall (current_votes : Tally) (trajectory : list Tally)
         (key_args : list string) (positions : list (string * option string))
         (w : World),
    current_votes <> [] ->
    exists v w',
      deliberate self agents case_summary (first :: others) rounds
                 current_votes trajectory key_args positions w
      = (Py.Ok v, w').
Proof.
  intros Hresp Hagents.
  assert (Hn : Py.len agents <> 0).
  { unfold Py.len. destruct agents; [congruence|cbn; lia]. }
  induction rounds as [|round_num rounds IH];
    intros cv trajectory ka pos w Hcv.
  - cbn [deliberate]. unfold conclude.
    destruct (allow_hung_jury self); [eexists; eexists; reflexivity|].
    destruct (argmax_nonempty Hcv) as [winner Hw].
    unfold lift, bind, ret. rewrite Hw. eexists; eexists; reflexivity.
  - destruct (@discussion_loop_returns
                (discussion_prompt cv round_num) agents Hresp [] w)
      as [args [w1 Hdisc]].
    destruct (@ballot_loop_returns (revote_prompt agents args) "Jury re-vote"
                first others agents Hresp [] w1)
      as [votes [w2 [Hvote Hne]]].
    assert (Hvotes : votes <> []) by (apply Hne; now right).
    destruct (check_consensus_returns self votes Hn) as [reached Hcheck].
    erewrite deliberate_round; [|exact Hdisc|exact Hvote|exact Hcheck].
    destruct reached.
    + destruct (argmax_nonempty Hvotes) as [winner Hw].
      unfold lift, bind, ret. rewrite Hw. eexists; eexists; reflexivity.
    + apply IH. exact Hvotes.
Qed.

(** X16: a jury of six to twelve participants who answer, deliberating
    over at least one verdict option, always gets a verdict back from
    [execute], whatever [max_rounds], the threshold and the case are. *)
Lemma jury_execute_returns (self : JuryProtocol)
  (agents : list Persona.Citizen) (context : Context) (w : World) :
  validate_participation agents = true ->
  Spec.responsive agents ->
  Py.get (verdict_options context) ["Guilty"; "Not Guilty"]%string <> [] ->
  exists v w', execute self agents context w = (Py.Ok v, w').
Proof.
  intros Hvalid Hresp Hopts.
  assert (Hagents : agents <> []).
  { intros ->. discriminate Hvalid. }
  assert (Hn : Py.len agents <> 0).
  { unfold Py.len. destruct agents; [congruence|cbn; lia]. }
  destruct (Py.get (verdict_options context) ["Guilty"; "Not Guilty"]%string)
    as [|first others] eqn:Eopts; [congruence|].
  destruct (@ballot_loop_returns
              (initial_prompt (Py.get (case_summary context) ""%string)
                              (Py.get (evidence context) [])
                              (Py.get (charges context) ""%string))
              "Jury initial vote" first others agents Hresp [] w)
    as [votes [w1 [Hvote Hne]]].
  assert (Hvotes : votes <> []) by (apply Hne; now right).
  destruct (check_consensus_returns self votes Hn) as [reached Hcheck].
  erewrite execute_initial_ballot;
    [|exact Hvalid|rewrite Eopts; exact Hvote|exact Hcheck].
  destruct reached.
  - destruct (argmax_nonempty Hvotes) as [winner Hw].
    unfold lift, bind, ret. rewrite Hw. eexists; eexists; reflexivity.
  - rewrite Eopts. apply deliberate_returns; assumption.
Qed.

End JuryFacts.



(** ** Negotiation *)

Section NegotiationFacts.
Import Negotiation.
Local Open Scope Q_scope.

Lemma two_agents (agents : list Persona.Citizen) :
  List.length agents = 2%nat -> exists a b, agents = [a; b].
Proof.
  destruct agents as [|a [|b [|c rest]]]; try discriminate.
  intros _. exists a, b. reflexivity.
Qed.

(** The negotiation never consults the participants and never touches the
    protocol state: it only reads their traits. *)
Lemma bargain_world (self : NegotiationProtocol) (buyer seller : Persona.Citizen)
  (item : string) (reserve max_price initial_ask initial_bid : Q)
  (rounds : list Z) :
  forall (ask bid : Q) (offers : list Offer) (w : World),
    snd (bargain self buyer seller item reserve max_price initial_ask
                 initial_bid rounds ask bid offers w) = w.
Proof.
  induction rounds as [|round_num rounds IH]; intros ask bid offers w;
    [reflexivity|].
  cbn [bargain]. unfold bind, lift, ret.
  destruct (_seller_counter self seller ask bid reserve round_num)
    as [ask'|e]; [|reflexivity].
  destruct (converged self ask' bid); [reflexivity|].
  destruct (_buyer_counter self buyer bid ask' max_price round_num)
    as [bid'|e]; [|reflexivity].
  destruct (converged self ask' bid'); [reflexivity|].
  apply IH.
Qed.

(** X22: [execute] of the negotiation protocol never consults a participant
    and never touches the protocol state, whether it returns a result or
    raises: no [think] call is made, nothing is logged, and the state is not
    marked complete. *)
Lemma execute_world (self : NegotiationProtocol)
  (agents : list Persona.Citizen) (context : Context) (w : World) :
  snd (execute self agents context w) = w.
Proof.
  unfold execute. destruct (negb (validate_participation agents));
    [reflexivity|].
  unfold bind, lift, ret.
  destruct (Py.getitem agents (Py.get (seller_index context) 0%Z));
    [|reflexivity].
  destruct (Py.getitem agents (1 - Py.get (seller_index context) 0)%Z);
    [|reflexivity].
  destruct (Py.Qlt_bool _ _); [reflexivity|].
  destruct (converged self _ _); [reflexivity|].
  apply bargain_world.
Qed.

(** C3: when [seller_reserve > buyer_max], [execute] returns a result, not
    an exception: the outcome is failure, with 0 rounds taken and no offer,
    and no participant was asked anything. *)
Theorem negotiation_without_zopa (self : NegotiationProtocol)
  (agents : list Persona.Citizen) (context : Context) (w : World) :
  List.length agents = 2%nat ->
  Py.get (seller_index context) 0%Z = 0%Z
  \/ Py.get (seller_index context) 0%Z = 1%Z ->
  Py.get (buyer_max context) 200 < Py.get (seller_reserve context) 100 ->
  exists r w',
    execute self agents context w = (Py.Ok r, w')
    /\ outcome r = FAILURE
    /\ rounds_taken r = 0%Z
    /\ offers r = []
    /\ final_price r = None
    /\ calls w' = calls w
    /\ state w' = state w.
Proof.
  intros Hlen Hidx Hgap.
  destruct (two_agents agents Hlen) as [a [b ->]].
  apply Qlt_bool_iff in Hgap.
  unfold execute. cbn [validate_participation negb].
  replace (negb (Py.len [a; b] =? 2)%Z) with false by reflexivity.
  unfold bind, lift, ret.
  destruct Hidx as [-> | ->]; cbn; rewrite Hgap;
    eexists; eexists; (split; [reflexivity|]); repeat split.
Qed.

Lemma negotiation_without_zopa_witness :
  exists r w',
    execute default [Examples.seller; Examples.buyer]
            (Examples.deal 900 500) Protocol.init = (Py.Ok r, w')
    /\ outcome r = FAILURE
    /\ rounds_taken r = 0%Z
    /\ offers r = []
    /\ final_price r = None
    /\ calls w' = calls Protocol.init
    /\ state w' = state Protocol.init.
Proof.
  apply (@negotiation_without_zopa default [Examples.seller; Examples.buyer]
           (Examples.deal 900 500) Protocol.init).
  - reflexivity.
  - left. reflexivity.
  - reflexivity.
Defined.


Lemma max2_cases (a b : Q) :
  (Py.max2 a b = a /\ b <= a) \/ (Py.max2 a b = b /\ a < b).
Proof.
  unfold Py.max2. destruct (Py.Qlt_bool a b) eqn:E.
  - right. split; [reflexivity|]. now apply Qlt_bool_iff.
  - left. split; [reflexivity|]. now apply Qlt_bool_false_iff.
Qed.

Lemma min2_cases (a b : Q) :
  (Py.min2 a b = a /\ a <= b) \/ (Py.min2 a b = b /\ b < a).
Proof.
  unfold Py.min2. destruct (Py.Qlt_bool b a) eqn:E.
  - right. split; [reflexivity|]. now apply Qlt_bool_iff.
  - left. split; [reflexivity|]. now apply Qlt_bool_false_iff.
Qed.

(** [round_num / max_rounds] inside the loop: defined, between 0 and 1. *)
Lemma pressure_bounds (round_num rounds : Z) :
  (1 <= round_num <= rounds)%Z ->
  exists p,
    Py.truediv (inject_Z round_num) (inject_Z rounds) = Py.Ok p
    /\ 0 <= p /\ p <= 1.
Proof.
  intros [H1 H2]. exists (Spec.share round_num rounds).
  split; [apply truediv_ok; lia|].
  assert (Hpos : 0 < inject_Z rounds).
  { replace 0 with (inject_Z 0) by reflexivity. rewrite <- Zlt_Qlt. lia. }
  unfold Spec.share. split.
  - apply Qle_shift_div_l; [exact Hpos|]. rewrite Qmult_0_l.
    replace 0 with (inject_Z 0) by reflexivity. rewrite <- Zle_Qle. lia.
  - apply Qle_shift_div_r; [exact Hpos|]. rewrite Qmult_1_l.
    rewrite <- Zle_Qle. lia.
Qed.

















End NegotiationFacts.

(** * Further properties of the protocol layer *)

Unset Implicit Arguments.

(** Peel the successful binds of a pure computation that returned. *)
Ltac peel H :=
  repeat match type of H with
    | Py.rbind ?x _ = Py.Ok _ =>
        let E := fresh "E" in
        destruct x eqn:E; cbn [Py.rbind] in H; [|discriminate H]
    | (let (_, _) := ?p in _) = Py.Ok _ => destruct p
    end.

(** ** Parsing a vote: what can come out *)

Section ParsingRange.
Import Voting.
Local Open Scope string_scope.

Lemma getitem_in {A} (l : list A) (i : Z) (x : A) :
  Py.getitem l i = Py.Ok x -> In x l.
Proof.
  unfold Py.getitem. destruct (_ && _)%bool; [|discriminate].
  destruct (nth_error l _) as [y|] eqn:E; [|discriminate].
  intros H. injection H as <-. eapply nth_error_In. exact E.
Qed.

Lemma enumerate_in {A} (l : list A) (start : Z) (io : Z * A) :
  In io (Py.enumerate l start) -> In (snd io) l.
Proof.
  revert start. induction l as [|a l IH]; intros start H; [contradiction|].
  cbn [Py.enumerate] in H. destruct H as [<-|H]; [now left|].
  right. eapply IH. exact H.
Qed.

Lemma vote_of_line_listed (options : list string) (vote_str : string)
  (choice : option string) :
  Spec.listed options choice ->
  Spec.listed options (vote_of_line options vote_str choice).
Proof.
  intros Hc. unfold vote_of_line.
  destruct (Py.int _) as [n|]; [|exact Hc].
  destruct (_ && _)%bool; [|exact Hc].
  destruct (Py.getitem options (n - 1)) as [o|] eqn:E; [|exact Hc].
  cbn. eapply getitem_in. exact E.
Qed.

Lemma structured_line_listed (options lines : list string) (i : Z)
  (line : string) (acc acc' : option string * option string) :
  Spec.listed options (fst acc) ->
  structured_line options lines i line acc = Py.Ok acc' ->
  Spec.listed options (fst acc').
Proof.
  intros Hc H. unfold structured_line in H. destruct acc as [choice reason].
  cbn [fst] in Hc.
  assert (Hmid : forall c,
             (if Py.contains "VOTE:" (Py.upper line)
              then Py.rbind (Py.getitem (Py.split1 ":" line) 1)
                     (fun rest =>
                        Py.Ok (vote_of_line options (Py.strip rest) choice))
              else Py.Ok choice) = Py.Ok c ->
             Spec.listed options c).
  { intros c Hm. destruct (Py.contains "VOTE:" (Py.upper line)).
    - peel Hm. injection Hm as <-. apply vote_of_line_listed. exact Hc.
    - injection Hm as <-. exact Hc. }
  peel H. specialize (Hmid _ eq_refl).
  destruct (_ && _)%bool in H.
  - peel H. destruct (_ && _)%bool in H.
    + peel H. injection H as <-. exact Hmid.
    + injection H as <-. exact Hmid.
  - injection H as <-. exact Hmid.
Qed.

Lemma structured_loop_listed (options lines : list string)
  (todo : list (Z * string)) :
  forall acc acc',
    Spec.listed options (fst acc) ->
    structured_loop options lines todo acc = Py.Ok acc' ->
    Spec.listed options (fst acc').
Proof.
  induction todo as [|[i line] todo IH]; intros acc acc' Hc H.
  - cbn in H. injection H as <-. exact Hc.
  - cbn [structured_loop] in H. peel H.
    eapply IH; [|exact H]. eapply structured_line_listed; eassumption.
Qed.

Lemma structured_tier_listed (response : string) (options : list string)
  (c : option string) (reason : option string) :
  structured_tier response options = Py.Ok (c, reason) ->
  Spec.listed options c.
Proof.
  unfold structured_tier. destruct (Py.contains _ _).
  - intros H. apply structured_loop_listed in H; [exact H|exact I].
  - intros H. injection H as <- _. exact I.
Qed.

Lemma mention_tier_listed (response : string) (options : list string)
  (c : option string) :
  Spec.listed options c -> Spec.listed options (mention_tier response options c).
Proof.
  intros Hc. unfold mention_tier. destruct (Py.truthy c); [exact Hc|].
  destruct (find _ options) as [o|] eqn:F; [|exact Hc].
  apply find_some in F. apply F.
Qed.

Lemma number_tier_listed (response : string) (options : list string)
  (c : option string) :
  Spec.listed options c -> Spec.listed options (number_tier response options c).
Proof.
  intros Hc. unfold number_tier. destruct (Py.truthy c); [exact Hc|].
  destruct (find _ (Py.enumerate options 1)) as [io|] eqn:F; [|exact Hc].
  apply find_some in F. cbn. eapply enumerate_in. apply F.
Qed.

(** X1: with at least one option, [_parse_vote] never raises, keeps the raw
    response, and the choice it returns is one of the listed options, or
    the word ABSTAIN when abstention is allowed; whatever the response says,
    no other label can come out. *)
Theorem parse_vote_choice_listed (self : VotingProtocol) (response : string)
  (first : string) (others : list string) :
  exists vote_data,
    _parse_vote self response (first :: others) = Py.Ok vote_data
    /\ vd_raw_response vote_data = response
    /\ (In (vd_choice vote_data) (first :: others)
        \/ (allow_abstention self = true
            /\ vd_choice vote_data = "ABSTAIN")).
Proof.
  unfold _parse_vote.
  destruct (structured_tier_total response (first :: others)) as [c [r H]].
  rewrite H. cbn [Py.rbind].
  pose proof (number_tier_listed response _ _
                (mention_tier_listed response _ _
                   (structured_tier_listed _ _ _ _ H))) as Hl.
  destruct (number_tier response (first :: others)
              (mention_tier response (first :: others) c)) as [o|] eqn:E.
  - destruct (Py.truthy (Some o)); cbn [Py.rbind Py.get].
    + eexists. split; [reflexivity|]. split; [reflexivity|]. left. exact Hl.
    + destruct (allow_abstention self) eqn:Ea; cbn [Py.rbind].
      * eexists. split; [reflexivity|]. split; [reflexivity|]. right.
        split; reflexivity.
      * rewrite getitem_head. cbn [Py.rbind].
        eexists. split; [reflexivity|]. split; [reflexivity|]. left. now left.
  - cbn [Py.truthy]. destruct (allow_abstention self) eqn:Ea; cbn [Py.rbind].
    + eexists. split; [reflexivity|]. split; [reflexivity|]. right.
      split; reflexivity.
    + rewrite getitem_head. cbn [Py.rbind].
      eexists. split; [reflexivity|]. split; [reflexivity|]. left. now left.
Qed.

Lemma find_nil {A} (f : A -> bool) : find f [] = None.
Proof. reflexivity. Qed.

(** X2: on an empty list of options [_parse_vote] can only fall back: it
    returns the abstention when abstention is allowed and otherwise raises
    [IndexError] from [options[0]], for every response. *)
Theorem parse_vote_no_options (self : VotingProtocol) (response : string) :
  exists reason,
    _parse_vote self response []
    = if allow_abstention self
      then Py.Ok {| vd_choice := "ABSTAIN";
                    vd_reasoning := reason;
                    vd_raw_response := response |}
      else Py.Raise Py.IndexError.
Proof.
  unfold _parse_vote.
  destruct (structured_tier_total response []) as [c [r H]].
  pose proof (structured_tier_listed _ _ _ _ H) as Hl.
  destruct c as [o|]; [contradiction|].
  exists r. rewrite H. cbn [Py.rbind].
  unfold mention_tier, number_tier. cbn [Py.truthy find Py.enumerate].
  destruct (allow_abstention self); cbn [Py.rbind]; [reflexivity|].
  rewrite getitem_nil. reflexivity.
Qed.

End ParsingRange.


(** ** A vote in the requested format *)

Section StructuredVote.
Import Voting.
Local Open Scope string_scope.

Lemma rstrip_cons (c : ascii) (s : string) :
  Py.rstrip (String c s)
  = match Py.rstrip s with
    | EmptyString => if Py.isspace c then EmptyString else String c EmptyString
    | r => String c r
    end.
Proof. reflexivity. Qed.

Lemma rstrip_keep (c : ascii) (s : string) :
  Py.isspace c = false -> Py.rstrip s = s -> Py.rstrip (String c s) = String c s.
Proof.
  intros Hc Hs. rewrite rstrip_cons, Hs, Hc. destruct s; reflexivity.
Qed.

Lemma contains_cons_false (kw : string) (c : ascii) (s : string) :
  String.prefix kw (String c s) = false -> Py.contains kw s = false ->
  Py.contains kw (String c s) = false.
Proof. intros Hp Hs. cbn [Py.contains]. rewrite Hp, Hs. reflexivity. Qed.

Lemma printed_digits (d : Decimal.uint) :
  Py.sfilter Py.isdigit (NilEmpty.string_of_uint d) = NilEmpty.string_of_uint d
  /\ Py.upper (NilEmpty.string_of_uint d) = NilEmpty.string_of_uint d
  /\ Py.rstrip (NilEmpty.string_of_uint d) = NilEmpty.string_of_uint d
  /\ Py.split (ascii_of_nat 10) (NilEmpty.string_of_uint d)
     = [NilEmpty.string_of_uint d]
  /\ Py.contains "REASON:" (NilEmpty.string_of_uint d) = false.
Proof.
  unfold Py.upper.
  induction d as [|d IH|d IH|d IH|d IH|d IH|d IH|d IH|d IH|d IH|d IH];
    [repeat split; reflexivity|..];
    destruct IH as [H1 [H2 [H4 [H5 H6]]]];
    cbn [NilEmpty.string_of_uint];
    (split; [cbn; rewrite H1; reflexivity|];
     split; [cbn [Py.smap]; rewrite H2; reflexivity|];
     split; [apply rstrip_keep; [reflexivity|exact H4]|];
     split; [cbn [Py.split]; rewrite H5; reflexivity|];
     apply contains_cons_false; [reflexivity|exact H6]).
Qed.

Lemma digits_value_acc (d : Decimal.uint) (acc : positive) :
  Py.digits_value (Zpos acc) (NilEmpty.string_of_uint d)
  = Zpos (Pos.of_uint_acc d acc).
Proof.
  revert acc.
  induction d as [|d IH|d IH|d IH|d IH|d IH|d IH|d IH|d IH|d IH|d IH];
    intros acc; [reflexivity|..];
    cbn [NilEmpty.string_of_uint Py.digits_value Pos.of_uint_acc];
    rewrite <- IH; f_equal.
  all: match goal with
       | |- context [Z.of_nat ?n] =>
           let v := eval vm_compute in (Z.of_nat n) in
           change (Z.of_nat n) with v
       end; lia.
Qed.

Lemma digits_value_uint (d : Decimal.uint) :
  Py.digits_value 0 (NilEmpty.string_of_uint d) = Z.of_N (Pos.of_uint d).
Proof.
  induction d as [|d IH|d IH|d IH|d IH|d IH|d IH|d IH|d IH|d IH|d IH];
    [reflexivity|..];
    cbn [NilEmpty.string_of_uint Py.digits_value Pos.of_uint].
  1: exact IH.
  all: cbn [Z.of_N]; rewrite <- digits_value_acc; reflexivity.
Qed.

(** [int(str(k)) = k] for a positive [k], and [str(k)] is a digit string. *)
Lemma str_positive (p : positive) :
  exists d, Py.str (Zpos p) = NilEmpty.string_of_uint d
            /\ NilEmpty.string_of_uint d <> ""
            /\ Py.digits_value 0 (NilEmpty.string_of_uint d) = Zpos p.
Proof.
  exists (Pos.to_uint p). unfold Py.str. cbn [Z.to_int NilZero.string_of_int].
  pose proof (Unsigned.to_uint_nonnil p) as Hnn.
  unfold NilZero.string_of_uint.
  destruct (Pos.to_uint p) eqn:E; try congruence; rewrite <- E.
  all: (split; [reflexivity|]; split;
        [rewrite E; discriminate
        |rewrite digits_value_uint, Unsigned.of_to; reflexivity]).
Qed.

Lemma lstrip_printed (d : Decimal.uint) :
  Py.lstrip (NilEmpty.string_of_uint d) = NilEmpty.string_of_uint d.
Proof. destruct d; reflexivity. Qed.

Lemma getitem_nth {A} (l : list A) (k : nat) (x : A) :
  nth_error l k = Some x -> Py.getitem l (Z.of_nat k) = Py.Ok x.
Proof.
  intros H. unfold Py.getitem.
  assert (Hk : (k < List.length l)%nat) by (apply nth_error_Some; congruence).
  destruct (Z.of_nat k <? 0)%Z eqn:E; [apply Z.ltb_lt in E; lia|].
  replace (0 <=? Z.of_nat k)%Z with true by (symmetry; apply Z.leb_le; lia).
  replace (Z.of_nat k <? Z.of_nat (List.length l))%Z with true
    by (symmetry; apply Z.ltb_lt; lia).
  cbn [andb]. rewrite Nat2Z.id, H. reflexivity.
Qed.

Lemma truthy_nonempty (o : string) : o <> "" -> Py.truthy (Some o) = true.
Proof. intros H. destruct o; [congruence|reflexivity]. Qed.

Lemma formatted_line (self : VotingProtocol) (options : list string)
  (s : string) (n : Z) (o : string) :
  Py.sfilter Py.isdigit s = s -> Py.upper s = s -> Py.lstrip s = s ->
  Py.rstrip s = s -> Py.split (ascii_of_nat 10) s = [s] ->
  Py.contains "REASON:" s = false ->
  s <> "" -> Py.digits_value 0 s = n ->
  (1 <= n <= Py.len options)%Z -> Py.getitem options (n - 1) = Py.Ok o ->
  structured_tier ("VOTE: " ++ s) options = Py.Ok (Some o, None).
Proof.
  intros H1 H2 H3 H4 H5 H6 Hne Hn Hr Hget.
  unfold structured_tier.
  replace (Py.contains "VOTE:" (Py.upper ("VOTE: " ++ s))) with true
    by reflexivity.
  assert (Hlines : Py.split (ascii_of_nat 10) ("VOTE: " ++ s) = ["VOTE: " ++ s]).
  { simpl. rewrite H5. reflexivity. }
  rewrite Hlines. cbn [Py.enumerate structured_loop]. unfold structured_line.
  replace (Py.contains "VOTE:" (Py.upper ("VOTE: " ++ s))) with true
    by reflexivity.
  assert (Hsplit : Py.split1 ":" ("VOTE: " ++ s) = ["VOTE"; String " " s])
    by reflexivity.
  rewrite Hsplit.
  replace (Py.getitem ["VOTE"; String " " s] 1) with (Py.Ok (String " " s))
    by reflexivity.
  cbn [Py.rbind].
  assert (Hstrip : Py.strip (String " " s) = s).
  { unfold Py.strip. change (Py.lstrip (String " " s)) with (Py.lstrip s).
    rewrite H3. exact H4. }
  rewrite Hstrip.
  assert (Hvote : vote_of_line options s None = Some o).
  { unfold vote_of_line. rewrite H1. unfold Py.int.
    destruct s as [|c s']; [congruence|]. rewrite H1, String.eqb_refl, Hn.
    replace ((1 <=? n)%Z && (n <=? Py.len options)%Z)%bool with true.
    - rewrite Hget. reflexivity.
    - symmetry. apply andb_true_iff. split; apply Z.leb_le; lia. }
  rewrite Hvote.
  assert (Hreason : Py.contains "REASON:" (Py.upper ("VOTE: " ++ s)) = false).
  { unfold Py.upper in *. simpl. rewrite H2, H6. reflexivity. }
  rewrite Hreason. reflexivity.
Qed.

(** X3: a response in the format the prompt asks for, [VOTE: k] with
    [1 <= k <= len(options)], is parsed as the [k]-th listed option (a
    non-empty label), with no reasoning: printing a position and parsing it
    back select that option. *)
Theorem parse_vote_formatted (self : VotingProtocol) (options : list string)
  (k : nat) (o : string) :
  nth_error options k = Some o -> o <> "" ->
  _parse_vote self ("VOTE: " ++ Py.str (Z.of_nat (S k))) options
  = Py.Ok {| vd_choice := o;
             vd_reasoning := None;
             vd_raw_response := "VOTE: " ++ Py.str (Z.of_nat (S k)) |}.
Proof.
  intros Hnth Ho.
  assert (Hk : (k < List.length options)%nat) by (apply nth_error_Some; congruence).
  replace (Z.of_nat (S k)) with (Zpos (Pos.of_succ_nat k)) by lia.
  destruct (str_positive (Pos.of_succ_nat k)) as [d [Hstr [Hne Hval]]].
  destruct (printed_digits d) as [H1 [H2 [H4 [H5 H6]]]].
  rewrite Hstr. unfold _parse_vote.
  rewrite (formatted_line self options _ (Zpos (Pos.of_succ_nat k)) o
             H1 H2 (lstrip_printed d) H4 H5 H6 Hne Hval).
  - cbn [Py.rbind]. pose proof (truthy_nonempty o Ho) as Ht.
    assert (E2 : forall r, mention_tier r options (Some o) = Some o)
      by (intros r; unfold mention_tier; rewrite Ht; reflexivity).
    assert (E3 : forall r, number_tier r options (Some o) = Some o)
      by (intros r; unfold number_tier; rewrite Ht; reflexivity).
    rewrite E2, E3, Ht. reflexivity.
  - unfold Py.len. lia.
  - replace (Zpos (Pos.of_succ_nat k) - 1)%Z with (Z.of_nat k) by lia.
    apply getitem_nth. exact Hnth.
Qed.

Lemma parse_vote_formatted_witness :
  _parse_vote default ("VOTE: " ++ Py.str (Z.of_nat 2)) ["Yes"; "No"]
  = Py.Ok {| vd_choice := "No";
             vd_reasoning := None;
             vd_raw_response := "VOTE: " ++ Py.str (Z.of_nat 2) |}.
Proof.
  apply (parse_vote_formatted default ["Yes"; "No"] 1 "No").
  - reflexivity.
  - discriminate.
Defined.

End StructuredVote.

(** ** Running the voting protocol: who is asked, what is logged *)

Section VotingTrace.
Import Voting.

Lemma think_ok (a : Persona.Citizen) (stim lbl : string) (w w1 : World)
  (r : string) :
  Protocol.think a stim lbl w = (Py.Ok r, w1) ->
  state w1 = state w
  /\ calls w1 = calls w ++ [{| Persona.caller := Persona.name a;
                               Persona.stimulus := stim;
                               Persona.label := lbl;
                               Persona.reply := r |}].
Proof.
  unfold Protocol.think. destruct (Persona.llm a (calls w) stim lbl) as [x|e].
  - intros H. injection H as <- <-. split; reflexivity.
  - intros H. discriminate H.
Qed.

Lemma collect_loop_trace (self : VotingProtocol) (prompt : string)
  (options : list string) (agents : list Persona.Citizen) :
  forall (w w' : World) (votes : list Vote),
    collect_loop self prompt options agents w = (Py.Ok votes, w') ->
    map agent_id votes = map Persona.name agents
    /\ ProtocolState.messages (state w') = ProtocolState.messages (state w)
    /\ ProtocolState.is_complete (state w')
       = ProtocolState.is_complete (state w)
    /\ ProtocolState.result (state w') = ProtocolState.result (state w)
    /\ exists cs rs,
         calls w' = calls w ++ cs
         /\ map Persona.caller cs = map Persona.name agents
         /\ map Persona.stimulus cs = map (fun _ => prompt) agents
         /\ map Persona.reply cs = map raw_response votes
         /\ ProtocolState.responses (state w')
            = ProtocolState.responses (state w) ++ rs
         /\ map AgentResponse.agent_id rs = map Persona.name agents
         /\ map AgentResponse.vote rs = map (fun v => Some (choice v)) votes.
Proof.
  induction agents as [|a agents IH]; intros w w' votes H.
  - cbn in H. unfold ret in H. injection H as <- <-.
    repeat split. exists [], []. rewrite !app_nil_r. repeat split.
  - cbn [collect_loop] in H.
    apply bind_ok in H. destruct H as [v [w1 [Hone H]]].
    apply bind_ok in H. destruct H as [vs [w2 [Hrest H]]].
    unfold ret in H. injection H as <- <-.
    unfold collect_one in Hone.
    apply bind_ok in Hone. destruct Hone as [response [wa [Hthink Hone]]].
    apply think_ok in Hthink. destruct Hthink as [Hst Hcalls].
    apply bind_ok in Hone. destruct Hone as [vd [wb [Hparse Hone]]].
    apply lift_ok in Hparse. destruct Hparse as [Hparse ->].
    apply bind_ok in Hone. destruct Hone as [u [wc [Hlog Hone]]].
    unfold ret in Hone. injection Hone as <- <-.
    unfold Protocol.log_response, Protocol.modify_state in Hlog.
    injection Hlog as _ <-.
    assert (Hraw : vd_raw_response vd = response).
    { unfold _parse_vote in Hparse. peel Hparse. injection Hparse as <-.
      reflexivity. }
    apply IH in Hrest.
    destruct Hrest as [Hids [Hmsg [Hdone [Hres [cs [rs Htrace]]]]]].
    destruct Htrace as [Hc [Hcn [Hcs [Hcr [Hr [Hrn Hrv]]]]]].
    cbn [state calls ProtocolState.messages ProtocolState.is_complete
         ProtocolState.result ProtocolState.responses] in *.
    rewrite Hst in *.
    split; [cbn; now rewrite Hids|]. split; [exact Hmsg|].
    split; [exact Hdone|]. split; [exact Hres|].
    exists ({| Persona.caller := Persona.name a; Persona.stimulus := prompt;
               Persona.label := "Voting decision"%string;
               Persona.reply := response |} :: cs),
           ({| AgentResponse.agent_id := Persona.name a;
               AgentResponse.response := response;
               AgentResponse.confidence := None;
               AgentResponse.reasoning := vd_reasoning vd;
               AgentResponse.vote := Some (vd_choice vd) |} :: rs).
    rewrite Hc, Hcalls, Hr, <- !app_assoc. cbn [app map].
    rewrite Hcn, Hcs, Hcr, Hrn, Hrv, Hraw. repeat split.
Qed.

Lemma calculate_result_total (self : VotingProtocol) (votes : list Vote)
  (agents : list Persona.Citizen) (r : VotingResult.t) :
  _calculate_result self votes agents = Py.Ok r ->
  VotingResult.total_votes r = Py.len votes.
Proof.
  unfold _calculate_result, _simple_majority, _supermajority, _unanimous,
    _plurality, _weighted.
  intros H. destruct (consensus_type self); peel H; injection H as <-;
    reflexivity.
Qed.

(** X4: a run of the voting protocol that returns a result has asked every
    agent exactly once, in the order given, logged one response per agent in
    that order and no message, counted one vote per agent, and recorded the
    returned result with the completion flag set. *)
Theorem voting_execute_trace (self : VotingProtocol)
  (agents : list Persona.Citizen) (context : Context) (w w' : World)
  (r : VotingResult.t) :
  execute self agents context w = (Py.Ok r, w') ->
  VotingResult.total_votes r = Py.len agents
  /\ ProtocolState.is_complete (state w') = true
  /\ ProtocolState.result (state w') = Some r
  /\ ProtocolState.messages (state w') = ProtocolState.messages (state w)
  /\ exists cs rs,
       calls w' = calls w ++ cs
       /\ map Persona.caller cs = map Persona.name agents
       /\ ProtocolState.responses (state w')
          = ProtocolState.responses (state w) ++ rs
       /\ map AgentResponse.agent_id rs = map Persona.name agents.
Proof.
  unfold execute. intros H.
  destruct (negb (validate_participation agents)); [discriminate H|].
  destruct (Py.get (options context) []) as [|first others];
    [discriminate H|].
  apply bind_ok in H. destruct H as [votes [w1 [Hcollect H]]].
  apply bind_ok in H. destruct H as [r' [w2 [Hcalc H]]].
  apply lift_ok in Hcalc. destruct Hcalc as [Hcalc ->].
  apply bind_ok in H. destruct H as [u [w3 [Hrec H]]].
  unfold ret in H. injection H as <- <-.
  unfold record_result, Protocol.modify_state in Hrec.
  injection Hrec as _ <-.
  apply collect_loop_trace in Hcollect.
  destruct Hcollect as [Hids [Hmsg [_ [_ [cs [rs Htrace]]]]]].
  destruct Htrace as [Hc [Hcn [_ [_ [Hr [Hrn _]]]]]].
  cbn [state calls ProtocolState.messages ProtocolState.is_complete
       ProtocolState.result ProtocolState.responses].
  split.
  { rewrite (calculate_result_total _ _ _ _ Hcalc). unfold Py.len.
    rewrite <- (length_map agent_id votes), Hids, length_map. reflexivity. }
  split; [reflexivity|]. split; [reflexivity|]. split; [exact Hmsg|].
  exists cs, rs. repeat split; assumption.
Qed.

Lemma voting_execute_trace_witness :
  exists r w',
    execute default Examples.split_ballot Examples.four_options Protocol.init
    = (Py.Ok r, w')
    /\ VotingResult.total_votes r = Py.len Examples.split_ballot
    /\ ProtocolState.is_complete (state w') = true
    /\ ProtocolState.result (state w') = Some r
    /\ ProtocolState.messages (state w')
       = ProtocolState.messages (state Protocol.init)
    /\ exists cs rs,
         calls w' = calls Protocol.init ++ cs
         /\ map Persona.caller cs = map Persona.name Examples.split_ballot
         /\ ProtocolState.responses (state w')
            = ProtocolState.responses (state Protocol.init) ++ rs
         /\ map AgentResponse.agent_id rs
            = map Persona.name Examples.split_ballot.
Proof.
  do 2 eexists. split; [vm_compute; reflexivity|].
  apply (voting_execute_trace default Examples.split_ballot
           Examples.four_options Protocol.init).
  vm_compute. reflexivity.
Defined.

(** X5: with fewer than two agents [execute] raises [ValueError] at once,
    whatever the context: nobody is asked and the protocol state is left as
    it was. *)
Theorem voting_execute_too_few (self : VotingProtocol)
  (agents : list Persona.Citizen) (context : Context) (w : World) :
  (List.length agents < 2)%nat ->
  execute self agents context w
  = (Py.Raise (Py.ValueError "Voting requires at least 2 agents"%string), w).
Proof.
  intros H. unfold execute, validate_participation, Py.len.
  replace (2 <=? Z.of_nat (List.length agents))%Z with false
    by (symmetry; apply Z.leb_gt; lia).
  reflexivity.
Qed.

Lemma voting_execute_too_few_witness :
  execute default [Spec.parrot "solo"%string "VOTE: 1"%string] Examples.four_options
          Protocol.init
  = (Py.Raise (Py.ValueError "Voting requires at least 2 agents"%string),
     Protocol.init).
Proof.
  apply (voting_execute_too_few default [Spec.parrot "solo"%string "VOTE: 1"%string]
           Examples.four_options Protocol.init).
  cbn. lia.
Defined.

End VotingTrace.

(** ** The tally behind a voting result *)

Section TallyFacts.
Import Voting.
Local Open Scope Z_scope.

(** The rules that count one vote per agent (all but the weighted one). *)
Lemma counted_result (self : VotingProtocol) (votes : list Vote)
  (agents : list Persona.Citizen) (r : VotingResult.t) :
  _calculate_result self votes agents = Py.Ok r ->
  consensus_type self <> WEIGHTED ->
  VotingResult.vote_counts r = Counter (map choice votes)
  /\ VotingResult.total_votes r = Py.len votes
  /\ VotingResult.breakdown r = build_breakdown votes
  /\ exists c, Py.getitem (most_common 1 (Counter (map choice votes))) 0
               = Py.Ok (VotingResult.winner r, c).
Proof.
  unfold _calculate_result, _simple_majority, _supermajority, _unanimous,
    _plurality.
  intros H Hrule. destruct (consensus_type self); try congruence;
    peel H; injection H as <-; cbn; repeat split; eexists; reflexivity.
Qed.

Lemma votes_nonempty (self : VotingProtocol) (votes : list Vote)
  (agents : list Persona.Citizen) (r : VotingResult.t) :
  _calculate_result self votes agents = Py.Ok r ->
  consensus_type self <> WEIGHTED ->
  votes <> [].
Proof.
  intros H Hrule Hnil. subst votes.
  destruct (counted_result _ _ _ _ H Hrule) as [_ [_ [_ [c Hc]]]].
  cbn in Hc. discriminate Hc.
Qed.

Lemma counter_sum (l : list string) :
  Forall (fun x => 0 < snd x) (Counter l)
  /\ Spec.tally_sum (Counter l) = Py.len l.
Proof.
  destruct (@counter_fold l [] (Forall_nil _)) as [Hpos [Hsum _]].
  split; [exact Hpos|]. unfold Counter, Py.len. rewrite Hsum. reflexivity.
Qed.

(** X6: under the four counting rules, every option listed in the tally of a
    voting result received at least one vote, and the counts add up to
    [total_votes], the number of votes cast. *)
Theorem tally_adds_up (self : VotingProtocol) (votes : list Vote)
  (agents : list Persona.Citizen) (r : VotingResult.t) :
  _calculate_result self votes agents = Py.Ok r ->
  consensus_type self <> WEIGHTED ->
  Forall (fun x => 0 < snd x) (VotingResult.vote_counts r)
  /\ Spec.tally_sum (VotingResult.vote_counts r) = VotingResult.total_votes r
  /\ VotingResult.total_votes r = Py.len votes.
Proof.
  intros H Hrule.
  destruct (counted_result _ _ _ _ H Hrule) as [Hvc [Htot _]].
  destruct (counter_sum (map choice votes)) as [Hpos Hsum].
  rewrite Hvc, Htot. split; [exact Hpos|]. split; [|reflexivity].
  rewrite Hsum. unfold Py.len. now rewrite length_map.
Qed.

Lemma tally_adds_up_witness :
  exists r,
    _calculate_result default Examples.four_one [] = Py.Ok r
    /\ Forall (fun x => 0 < snd x) (VotingResult.vote_counts r)
    /\ Spec.tally_sum (VotingResult.vote_counts r)
       = VotingResult.total_votes r
    /\ VotingResult.total_votes r = Py.len Examples.four_one.
Proof.
  eexists. split; [vm_compute; reflexivity|].
  apply (tally_adds_up default Examples.four_one []).
  - vm_compute. reflexivity.
  - discriminate.
Defined.







Lemma breakdown_add_sizes (k a : string) (b : list (string * list string)) :
  Spec.sizes (breakdown_add k a b) = tally_add k 1 (Spec.sizes b).
Proof.
  unfold Spec.sizes. induction b as [|[k' l] b IH]; cbn [breakdown_add map].
  - reflexivity.
  - cbn [tally_add fst snd]. destruct (String.eqb k k'); cbn [map fst snd].
    + unfold Py.len. rewrite length_app. cbn [List.length].
      f_equal. f_equal. lia.
    + rewrite IH. reflexivity.
Qed.

Lemma breakdown_sizes_fold (votes : list Vote) :
  forall b : list (string * list string),
    Spec.sizes (fold_left (fun b v => breakdown_add (choice v) (agent_id v) b)
                          votes b)
    = fold_left (fun t k => tally_add k 1 t) (map choice votes) (Spec.sizes b).
Proof.
  induction votes as [|v votes IH]; intros b; [reflexivity|].
  cbn [fold_left map]. rewrite IH, breakdown_add_sizes. reflexivity.
Qed.

Lemma breakdown_add_keeps (k a k' a' : string)
  (b : list (string * list string)) :
  (exists l, In (k, l) b /\ In a l) ->
  exists l, In (k, l) (breakdown_add k' a' b) /\ In a l.
Proof.
  intros [l [Hin Ha]]. induction b as [|[k2 l2] b IH]; [contradiction|].
  cbn [breakdown_add]. destruct (String.eqb k' k2) eqn:E.
  - destruct Hin as [Heq|Hin].
    + injection Heq as -> ->. exists (l ++ [a']).
      split; [now left|]. apply in_or_app. now left.
    + exists l. split; [now right|exact Ha].
  - destruct Hin as [Heq|Hin].
    + exists l. split; [now left|exact Ha].
    + destruct (IH Hin) as [l' [Hin' Ha']].
      exists l'. split; [now right|exact Ha'].
Qed.

Lemma breakdown_add_lists (k a : string) (b : list (string * list string)) :
  exists l, In (k, l) (breakdown_add k a b) /\ In a l.
Proof.
  induction b as [|[k2 l2] b IH]; cbn [breakdown_add].
  - exists [a]. split; now left.
  - destruct (String.eqb k k2) eqn:E.
    + apply String.eqb_eq in E. subst k2. exists (l2 ++ [a]).
      split; [now left|]. apply in_or_app. right. now left.
    + destruct IH as [l [Hin Ha]]. exists l. split; [now right|exact Ha].
Qed.

Lemma breakdown_lists_fold (votes : list Vote) :
  forall (b : list (string * list string)) (v : Vote),
    In v votes
    \/ (exists l, In (choice v, l) b /\ In (agent_id v) l) ->
    exists l,
      In (choice v, l)
         (fold_left (fun b v => breakdown_add (choice v) (agent_id v) b)
                    votes b)
      /\ In (agent_id v) l.
Proof.
  induction votes as [|u votes IH]; intros b v H.
  - destruct H as [[]|H]. exact H.
  - cbn [fold_left]. apply IH. destruct H as [[->|H]|H].
    + right. apply breakdown_add_lists.
    + left. exact H.
    + right. apply breakdown_add_keeps. exact H.
Qed.

Lemma result_breakdown (self : VotingProtocol) (votes : list Vote)
  (agents : list Persona.Citizen) (r : VotingResult.t) :
  _calculate_result self votes agents = Py.Ok r ->
  VotingResult.breakdown r = build_breakdown votes.
Proof.
  unfold _calculate_result, _simple_majority, _supermajority, _unanimous,
    _plurality, _weighted.
  intros H. destruct (consensus_type self); peel H; injection H as <-;
    reflexivity.
Qed.

(** X8: under every rule, the weighted one included, every voter's id
    stands in the breakdown of a voting result under the option that voter
    chose; under the four counting rules (all but the weighted one, whose
    [vote_counts] holds scaled weights, not numbers of votes) the breakdown
    lists the options in the same order as the tally, with exactly as many
    supporters per option as votes counted. *)
Theorem breakdown_matches_tally (self : VotingProtocol) (votes : list Vote)
  (agents : list Persona.Citizen) (r : VotingResult.t) :
  _calculate_result self votes agents = Py.Ok r ->
  (consensus_type self <> WEIGHTED ->
   Spec.sizes (VotingResult.breakdown r) = VotingResult.vote_counts r)
  /\ forall v, In v votes ->
               exists supporters,
                 In (choice v, supporters) (VotingResult.breakdown r)
                 /\ In (agent_id v) supporters.
Proof.
  intros H. split.
  - intros Hrule.
    destruct (counted_result _ _ _ _ H Hrule) as [Hvc [_ [Hbd _]]].
    rewrite Hvc, Hbd. unfold build_breakdown, Counter.
    apply (breakdown_sizes_fold votes []).
  - rewrite (result_breakdown _ _ _ _ H). unfold build_breakdown.
    intros v Hv. apply breakdown_lists_fold. now left.
Qed.

Lemma breakdown_matches_tally_witness :
  exists r,
    _calculate_result default Examples.four_one [] = Py.Ok r
    /\ Spec.sizes (VotingResult.breakdown r) = VotingResult.vote_counts r
    /\ forall v, In v Examples.four_one ->
                 exists supporters,
                   In (choice v, supporters) (VotingResult.breakdown r)
                   /\ In (agent_id v) supporters.
Proof.
  eexists. split; [vm_compute; reflexivity|].
  edestruct (breakdown_matches_tally default Examples.four_one [])
    as [Hsizes Hlisted].
  { vm_compute. reflexivity. }
  split; [apply Hsizes; discriminate|exact Hlisted].
Defined.

(** X9: under simple majority and under plurality the tie flag of a voting
    result is set exactly when at least two options hold the largest count
    of the tally. *)
Theorem tied_iff_top_shared (self : VotingProtocol) (votes : list Vote)
  (agents : list Persona.Citizen) (r : VotingResult.t) :
  _calculate_result self votes agents = Py.Ok r ->
  consensus_type self = SIMPLE_MAJORITY \/ consensus_type self = PLURALITY ->
  (VotingResult.tied r = true <-> Spec.top_shared (VotingResult.vote_counts r)).
Proof.
  intros H Hrule. rewrite <- tie_test_shared.
  unfold _calculate_result in H.
  destruct Hrule as [Hrule|Hrule]; rewrite Hrule in H.
  - unfold _simple_majority in H. peel H. injection H as <-. cbn. reflexivity.
  - unfold _plurality in H. peel H. injection H as <-. cbn. reflexivity.
Qed.

Lemma tied_iff_top_shared_witness :
  exists r,
    _calculate_result default Examples.two_each [] = Py.Ok r
    /\ (VotingResult.tied r = true
        <-> Spec.top_shared (VotingResult.vote_counts r)).
Proof.
  eexists. split; [vm_compute; reflexivity|].
  apply (tied_iff_top_shared default Examples.two_each []).
  - vm_compute. reflexivity.
  - left. reflexivity.
Defined.

Lemma shared_count_sum (l : list Z) (c : Z) :
  Forall (fun x => 0 < x) l ->
  Z.of_nat (count_occ Z.eq_dec l c) * c <= fold_right Z.add 0 l.
Proof.
  induction 1 as [|x l Hx Hl IH]; [cbn; lia|].
  cbn [count_occ fold_right]. destruct (Z.eq_dec x c) as [->|Hne].
  - rewrite Nat2Z.inj_succ. lia.
  - assert (0 <= fold_right Z.add 0 l) by (clear - Hl; induction Hl; cbn; lia).
    lia.
Qed.

(** A count above half of the votes cannot be shared. *)
Lemma majority_unshared (t : Tally) :
  Forall (fun x => 0 < snd x) t ->
  Spec.tally_sum t < 2 * Spec.top_count t ->
  ~ Spec.top_shared t.
Proof.
  intros Hpos Hhalf Hs. unfold Spec.top_shared in Hs.
  assert (Hp : Forall (fun x => 0 < x) (map snd t)).
  { apply Forall_map. exact Hpos. }
  pose proof (shared_count_sum _ (Spec.top_count t) Hp) as Hsum.
  assert (Htop : 0 < Spec.top_count t).
  { rewrite Forall_forall in Hp. apply Hp.
    apply (count_occ_In Z.eq_dec). lia. }
  unfold Spec.tally_sum in Hhalf.
  set (n := Z.of_nat (count_occ Z.eq_dec (map snd t) (Spec.top_count t))) in *.
  assert (Hn : 2 <= n) by (unfold n; lia).
  nia.
Qed.

Lemma half_lt (total top : Z) :
  Py.Qlt_bool (inject_Z total / 2) (inject_Z top) = true <-> total < 2 * top.
Proof.
  rewrite Qlt_bool_iff. remember (2 * top) as double eqn:Hd.
  unfold Qlt, Qdiv, Qmult, Qinv, inject_Z. cbn. lia.
Qed.

(** X10: a simple-majority result of the voting protocol is decisive
    exactly when the winner holds more than half of the votes cast; with
    such a count no tie is possible, so the tie test takes nothing away. *)
Theorem simple_majority_decisive_iff (self : VotingProtocol)
  (votes : list Vote) (agents : list Persona.Citizen) (r : VotingResult.t) :
  _calculate_result self votes agents = Py.Ok r ->
  consensus_type self = SIMPLE_MAJORITY ->
  (VotingResult.is_decisive r = true
   <-> Py.len votes < 2 * Spec.top_count (VotingResult.vote_counts r)).
Proof.
  intros H Hrule.
  assert (Hnw : consensus_type self <> WEIGHTED) by congruence.
  destruct (counted_result _ _ _ _ H Hnw) as [Hvc _].
  pose proof (votes_nonempty _ _ _ _ H Hnw) as Hne.
  destruct (tally_adds_up _ _ _ _ H Hnw) as [Hpos [Hsum Htot]].
  unfold _calculate_result in H. rewrite Hrule in H.
  assert (Hvcne : Counter (map choice votes) <> []).
  { apply counter_bounds. destruct votes; [congruence|discriminate]. }
  destruct (@simple_majority_run _ (Py.len votes) (build_breakdown votes)
              Hvcne (votes_len_nonzero Hne))
    as [r' [q [Hr' [_ [Htied [Hdec _]]]]]].
  rewrite Hr' in H. injection H as <-.
  rewrite Hdec, andb_true_iff, half_lt, negb_true_iff, <- Hvc.
  split; [intros [Hh _]; exact Hh|].
  intros Hh. split; [exact Hh|].
  destruct (VotingResult.tied r') eqn:Et; [|reflexivity].
  exfalso. symmetry in Htied. rewrite <- Hvc in Htied.
  apply tie_test_shared in Htied.
  apply (majority_unshared _ Hpos); [|exact Htied]. rewrite Hsum, Htot, Hvc.
  rewrite Hvc in Hh. exact Hh.
Qed.

Lemma simple_majority_decisive_iff_witness :
  exists r,
    _calculate_result default Examples.four_one [] = Py.Ok r
    /\ (VotingResult.is_decisive r = true
        <-> Py.len Examples.four_one
            < 2 * Spec.top_count (VotingResult.vote_counts r)).
Proof.
  eexists. split; [vm_compute; reflexivity|].
  apply (simple_majority_decisive_iff default Examples.four_one []).
  - vm_compute. reflexivity.
  - reflexivity.
Defined.

Lemma share_unit (a b : Z) :
  0 < a <= b -> (0 < Spec.share a b /\ Spec.share a b <= 1)%Q.
Proof.
  intros [Ha Hab]. unfold Spec.share.
  assert (Hb : (0 < inject_Z b)%Q).
  { replace 0%Q with (inject_Z 0) by reflexivity. rewrite <- Zlt_Qlt. lia. }
  split.
  - apply Qlt_shift_div_l; [exact Hb|]. rewrite Qmult_0_l.
    replace 0%Q with (inject_Z 0) by reflexivity. rewrite <- Zlt_Qlt. lia.
  - apply Qle_shift_div_r; [exact Hb|]. rewrite Qmult_1_l.
    rewrite <- Zle_Qle. lia.
Qed.

(** X11: under the four counting rules the confidence of a voting result is
    a fraction in the interval (0, 1]. *)
Theorem confidence_in_unit (self : VotingProtocol) (votes : list Vote)
  (agents : list Persona.Citizen) (r : VotingResult.t) :
  _calculate_result self votes agents = Py.Ok r ->
  consensus_type self <> WEIGHTED ->
  exists q, VotingResult.confidence r = Some q /\ (0 < q /\ q <= 1)%Q.
Proof.
  intros H Hrule.
  pose proof (votes_nonempty _ _ _ _ H Hrule) as Hne.
  assert (Hl : map choice votes <> [])
    by (destruct votes; [congruence|discriminate]).
  destruct (counter_bounds Hl) as [Hvc Hb].
  assert (Hlen : Py.len (map choice votes) = Py.len votes)
    by (unfold Py.len; now rewrite length_map).
  rewrite Hlen in Hb. pose proof (share_unit _ _ Hb) as Hs.
  pose proof (votes_len_nonzero Hne) as Htot.
  destruct (most_common_1 Hvc) as [w Hw].
  assert (Hhalf : (0 < 1 # 2 /\ 1 # 2 <= 1)%Q)
    by (split; [reflexivity|discriminate]).
  assert (Hone : (0 < 1 /\ 1 <= 1)%Q) by (split; [reflexivity|discriminate]).
  unfold _calculate_result in H.
  destruct (consensus_type self); try congruence;
    [ unfold _unanimous in H | unfold _simple_majority in H
    | unfold _supermajority in H | unfold _plurality in H
    | unfold _simple_majority in H ];
    unfold inject in H; rewrite Hw, getitem_head in H; cbn [Py.rbind] in H;
    rewrite ?(truediv_ok _ Htot) in H; cbn [Py.rbind] in H; peel H;
    repeat match goal with
      | E : (if ?c then _ else _) = Py.Ok _ |- _ =>
          destruct c; injection E as <-
      | E : Py.Ok _ = Py.Ok _ |- _ => injection E as <-
      end;
    try (injection H as <-); cbn [VotingResult.confidence];
    eexists; (split; [reflexivity|]); assumption.
Qed.

Lemma confidence_in_unit_witness :
  exists r q,
    _calculate_result Examples.unanimous_protocol Examples.four_one []
    = Py.Ok r
    /\ VotingResult.confidence r = Some q /\ (0 < q /\ q <= 1)%Q.
Proof.
  destruct (confidence_in_unit Examples.unanimous_protocol Examples.four_one []
              (VotingResult.Build_t "A" [("A"%string, 4); ("B"%string, 1)] 5
                 UNANIMOUS false false (Some (4 # 5)%Q)
                 [("A"%string, ["v1"; "v2"; "v4"; "v5"]%string);
                  ("B"%string, ["v3"]%string)]))
    as [q [Hq Hr]].
  - vm_compute. reflexivity.
  - discriminate.
  - eexists. exists q. split; [vm_compute; reflexivity|].
    split; [exact Hq|exact Hr].
Defined.

End TallyFacts.

(** ** Weighted voting *)

Section WeightedFacts.
Import Voting.
Local Open Scope Q_scope.

Lemma weight_add_nonempty (k : string) (w : Q) (t : list (string * Q)) :
  weight_add k w t <> [].
Proof.
  destruct t as [|[k' c] t]; cbn; [discriminate|].
  destruct (String.eqb k k'); discriminate.
Qed.

Lemma weight_add_keeps (P : Q -> Prop) (k : string) (w : Q)
  (t : list (string * Q)) :
  P (0 + w) -> (forall c, P c -> P (c + w)) ->
  Forall (fun kv => P (snd kv)) t ->
  Forall (fun kv => P (snd kv)) (weight_add k w t).
Proof.
  intros H0 Hadd. induction 1 as [|[k' c] t Hc Ht IH]; cbn [weight_add].
  - repeat constructor. exact H0.
  - destruct (String.eqb k k'); constructor; cbn [snd] in *; auto.
Qed.

Lemma weight_add_key (k : string) (w : Q) (t : list (string * Q))
  (x : string * Q) :
  In x (weight_add k w t) -> fst x = k \/ In (fst x) (map fst t).
Proof.
  induction t as [|[k' c] t IH]; cbn [weight_add].
  - intros [<-|[]]. now left.
  - destruct (String.eqb k k') eqn:E; cbn [In map fst].
    + intros [<-|H]; [right; now left|right; right; now apply in_map].
    + intros [<-|H]; [right; now left|].
      destruct (IH H) as [Hk|Hk]; [now left|right; now right].
Qed.

(** The weights accumulated by [_weighted]. *)
Lemma weights_fold (P : Q -> Prop) (votes : list Vote) :
  (forall v, In v votes ->
             P (0 + Persona.conscientiousness (Persona.traits (agent v)))
             /\ forall c, P c ->
                          P (c + Persona.conscientiousness
                                   (Persona.traits (agent v)))) ->
  forall t : list (string * Q),
    Forall (fun kv => P (snd kv)) t ->
    let t' := fold_left
                (fun t v => weight_add (choice v)
                              (Persona.conscientiousness
                                 (Persona.traits (agent v))) t)
                votes t in
    Forall (fun kv => P (snd kv)) t'
    /\ (votes <> [] -> t' <> [])
    /\ forall x, In x t' ->
                 In (fst x) (map choice votes) \/ In (fst x) (map fst t).
Proof.
  induction votes as [|v votes IH]; intros HP t Ht; cbn [fold_left].
  - cbv zeta. split; [exact Ht|]. split; [congruence|].
    intros x Hx. right. now apply in_map.
  - destruct (HP v (or_introl eq_refl)) as [H0 Hadd].
    destruct (IH (fun u Hu => HP u (or_intror Hu))
                 (weight_add (choice v)
                    (Persona.conscientiousness (Persona.traits (agent v))) t)
                 (weight_add_keeps P _ _ _ H0 Hadd Ht)) as [H1 [H2 H3]].
    cbv zeta in *. split; [exact H1|]. split.
    + intros _. destruct votes as [|u votes];
        [apply weight_add_nonempty|apply H2; discriminate].
    + intros x Hx. destruct (H3 x Hx) as [Hc|Hk]; [left; now right|].
      apply in_map_iff in Hk. destruct Hk as [y [Hy Hin]].
      destruct (weight_add_key _ _ _ _ Hin) as [E|E].
      * left. left. cbn [map]. congruence.
      * right. congruence.
Qed.

Lemma sum_of_zeros (l : list (string * Q)) (a : Q) :
  Forall (fun kv => snd kv == 0) l ->
  fold_left (fun acc kv => acc + snd kv) l a == a.
Proof.
  intros H. revert a. induction H as [|x l Hx Hl IH]; intros a; cbn.
  - reflexivity.
  - rewrite IH, Hx. ring.
Qed.

(** X12: when every voter has conscientiousness 0 (the lowest value the
    profile allows), the weighted rule cannot normalise the weights: with at
    least one vote it raises [ZeroDivisionError] instead of returning a
    result. *)
Theorem weighted_zero_weights (self : VotingProtocol) (votes : list Vote)
  (agents : list Persona.Citizen) :
  consensus_type self = WEIGHTED ->
  votes <> [] ->
  (forall v, In v votes ->
             Persona.conscientiousness (Persona.traits (agent v)) == 0) ->
  _calculate_result self votes agents = Py.Raise Py.ZeroDivisionError.
Proof.
  intros Hrule Hne Hzero. unfold _calculate_result. rewrite Hrule.
  unfold _weighted.
  destruct (weights_fold (fun q => q == 0) votes) with (t := @nil (string * Q))
    as [Hall [Hnn _]].
  { intros v Hv. split.
    - rewrite (Hzero v Hv). reflexivity.
    - intros c Hc. rewrite Hc, (Hzero v Hv). reflexivity. }
  { constructor. }
  cbv zeta in Hall, Hnn. specialize (Hnn Hne).
  set (weighted_votes := fold_left _ votes []) in *.
  destruct weighted_votes as [|x t] eqn:Ew; [congruence|].
  cbn [argmax Py.rbind]. destruct (argmax_from x t) as [winner weight].
  unfold Py.truediv.
  replace (Qeq_bool (fold_left (fun acc kv => acc + snd kv) (x :: t) 0) 0)
    with true; [reflexivity|].
  symmetry. apply Qeq_bool_iff. apply sum_of_zeros. exact Hall.
Qed.

Lemma weighted_zero_weights_witness :
  _calculate_result Examples.weighted_protocol
    [Examples.careless "v1" "A"; Examples.careless "v2" "B"] []
  = Py.Raise Py.ZeroDivisionError.
Proof.
  apply (weighted_zero_weights Examples.weighted_protocol
           [Examples.careless "v1" "A"; Examples.careless "v2" "B"] []).
  - reflexivity.
  - discriminate.
  - intros v [<-|[<-|[]]]; reflexivity.
Defined.

Lemma argmax_from_in (t : list (string * Q)) :
  forall best, In (argmax_from best t) (best :: t).
Proof.
  induction t as [|x t IH]; intros best; cbn [argmax_from]; [now left|].
  destruct (IH (if Py.Qlt_bool (snd best) (snd x) then x else best))
    as [H|H].
  - rewrite <- H. destruct (Py.Qlt_bool (snd best) (snd x));
      [right; now left|now left].
  - right. now right.
Qed.

Lemma sum_bounds (l : list (string * Q)) :
  Forall (fun kv => 0 <= snd kv) l ->
  forall a,
    a <= fold_left (fun acc kv => acc + snd kv) l a
    /\ forall x, In x l ->
                 a + snd x <= fold_left (fun acc kv => acc + snd kv) l a.
Proof.
  induction 1 as [|y l Hy Hl IH]; intros a; cbn [fold_left].
  - split; [apply Qle_refl|intros x []].
  - destruct (IH (a + snd y)) as [H1 H2]. split.
    + eapply Qle_trans; [|exact H1]. lra.
    + intros x [<-|Hx]; [exact H1|].
      eapply Qle_trans; [|apply (H2 x Hx)]. lra.
Qed.

(** X13: when no voter has a negative conscientiousness (the profile keeps
    it in [0, 1]), every result of the weighted rule is decisive and not
    tied, counts one vote per voter, names a winner that somebody chose, and
    has a confidence between 0 and 1. *)
Theorem weighted_result (self : VotingProtocol) (votes : list Vote)
  (agents : list Persona.Citizen) (r : VotingResult.t) :
  consensus_type self = WEIGHTED ->
  (forall v, In v votes ->
             0 <= Persona.conscientiousness (Persona.traits (agent v))) ->
  _calculate_result self votes agents = Py.Ok r ->
  VotingResult.is_decisive r = true
  /\ VotingResult.tied r = false
  /\ VotingResult.total_votes r = Py.len votes
  /\ In (VotingResult.winner r) (map choice votes)
  /\ exists q, VotingResult.confidence r = Some q /\ 0 <= q /\ q <= 1.
Proof.
  intros Hrule Hpos H. unfold _calculate_result in H. rewrite Hrule in H.
  unfold _weighted in H.
  destruct (weights_fold (fun q => 0 <= q) votes) with (t := @nil (string * Q))
    as [Hall [_ Hkeys]].
  { intros v Hv. specialize (Hpos v Hv). split; [lra|]. intros c Hc. lra. }
  { constructor. }
  cbv zeta in Hall, Hkeys.
  set (weighted_votes := fold_left _ votes []) in *.
  destruct weighted_votes as [|x t] eqn:Ew; [discriminate H|].
  cbn [argmax Py.rbind] in H.
  pose proof (argmax_from_in t x) as Hin.
  destruct (argmax_from x t) as [winner weight].
  set (total := fold_left (fun acc kv => acc + snd kv) (x :: t) 0) in *.
  unfold Py.truediv in H. destruct (Qeq_bool total 0) eqn:Et;
    [discriminate H|].
  cbn [Py.rbind] in H. injection H as <-.
  cbn [VotingResult.is_decisive VotingResult.tied VotingResult.total_votes
       VotingResult.winner VotingResult.confidence].
  split; [reflexivity|]. split; [reflexivity|]. split; [reflexivity|]. split.
  - destruct (Hkeys (winner, weight) Hin) as [Hc|[]]. exact Hc.
  - exists (weight / total). split; [reflexivity|].
    destruct (sum_bounds _ Hall 0) as [Hge Hle].
    specialize (Hle (winner, weight) Hin). cbn [snd] in Hle. fold total in Hge, Hle.
    rewrite Forall_forall in Hall. specialize (Hall _ Hin). cbn [snd] in Hall.
    assert (Hnz : ~ total == 0).
    { intros E. apply Qeq_bool_iff in E. congruence. }
    assert (Htot : 0 < total) by lra.
    split.
    + apply Qle_shift_div_l; [exact Htot|]. lra.
    + apply Qle_shift_div_r; [exact Htot|]. lra.
Qed.

Lemma weighted_result_witness :
  exists r,
    _calculate_result Examples.weighted_protocol Examples.two_each [] = Py.Ok r
    /\ VotingResult.is_decisive r = true
    /\ VotingResult.tied r = false
    /\ VotingResult.total_votes r = Py.len Examples.two_each
    /\ In (VotingResult.winner r) (map choice Examples.two_each)
    /\ exists q, VotingResult.confidence r = Some q /\ 0 <= q /\ q <= 1.
Proof.
  eexists. split; [vm_compute; reflexivity|].
  apply (weighted_result Examples.weighted_protocol Examples.two_each []).
  - reflexivity.
  - intros v [<-|[<-|[<-|[<-|[]]]]]; vm_compute; discriminate.
  - vm_compute. reflexivity.
Defined.

End WeightedFacts.

(** ** Jury deliberation: the shape of a run *)

Section JuryRuns.
Import Jury.
Local Open Scope Z_scope.

(** X14: with fewer than six or more than twelve agents the jury's
    [execute] raises [ValueError] naming the number of agents, before any
    ballot: nobody is asked and the protocol state is left as it was. *)
Theorem jury_execute_wrong_size (self : JuryProtocol)
  (agents : list Persona.Citizen) (context : Context) (w : World) :
  Py.len agents < 6 \/ 12 < Py.len agents ->
  execute self agents context w
  = (Py.Raise (Py.ValueError ("Jury requires 6-12 agents, got "
                              ++ Py.str (Py.len agents))%string), w).
Proof.
  intros H. unfold execute, validate_participation.
  replace ((6 <=? Py.len agents) && (Py.len agents <=? 12))%bool with false.
  - reflexivity.
  - symmetry. apply andb_false_iff.
    destruct H as [H|H]; [left; apply Z.leb_gt|right; apply Z.leb_gt]; lia.
Qed.

Lemma jury_execute_wrong_size_witness :
  execute default Examples.split_ballot Examples.theft_case Protocol.init
  = (Py.Raise (Py.ValueError ("Jury requires 6-12 agents, got "
                              ++ Py.str (Py.len Examples.split_ballot))%string),
     Protocol.init).
Proof.
  apply (jury_execute_wrong_size default Examples.split_ballot
           Examples.theft_case Protocol.init).
  left. reflexivity.
Defined.

(** X15: whatever the response and whatever the verdict options, the vote
    [_parse_jury_vote] returns is one of three labels: Guilty, Not Guilty,
    or the first listed option (the default for an unclear response); with
    at least one option it never raises. *)
Theorem parse_jury_vote_labels (response : string) (first : string)
  (others : list string) :
  exists vote,
    _parse_jury_vote response (first :: others) = Py.Ok vote
    /\ (vote = "Guilty"%string \/ vote = "Not Guilty"%string \/ vote = first).
Proof.
  destruct (parse_jury_vote_total response first others) as [vote H].
  exists vote. split; [exact H|].
  unfold _parse_jury_vote in H.
  assert (Hfall : forall v,
             (if Py.contains "NOT GUILTY" (Py.upper response)
              then Py.Ok "Not Guilty"%string
              else if Py.contains "GUILTY" (Py.upper response)
                   then Py.Ok "Guilty"%string
                   else Py.getitem (first :: others) 0) = Py.Ok v ->
             v = "Guilty"%string \/ v = "Not Guilty"%string \/ v = first).
  { intros v Hv. destruct (Py.contains "NOT GUILTY" _).
    - injection Hv as <-. right. now left.
    - destruct (Py.contains "GUILTY" _).
      + injection Hv as <-. now left.
      + rewrite getitem_head in Hv. injection Hv as <-. right. now right. }
  destruct (Py.contains "VOTE:" (Py.upper response)); [|apply Hfall; exact H].
  peel H. destruct (_ && _)%bool in H.
  - injection H as <-. now left.
  - destruct (Py.contains "NOT GUILTY" _) in H.
    + injection H as <-. right. now left.
    + apply Hfall. exact H.
Qed.

End JuryRuns.

(** ** Jury deliberation: what a returned verdict tells *)

Section JuryVerdicts.
Import Jury.
Local Open Scope Z_scope.

Lemma len_app {A} (l l' : list A) : Py.len (l ++ l') = Py.len l + Py.len l'.
Proof. unfold Py.len. rewrite length_app. lia. Qed.

Lemma len_of_maps {A B C} (f : A -> C) (g : B -> C) (l : list A)
  (l' : list B) :
  map f l = map g l' -> Py.len l = Py.len l'.
Proof.
  intros H. apply (f_equal (@List.length C)) in H.
  rewrite !length_map in H. unfold Py.len. now rewrite H.
Qed.

Lemma argmax_from_top (t : Tally) :
  forall best,
    In (argmax_from best t) (best :: t)
    /\ snd (argmax_from best t) = fold_left Z.max (map snd t) (snd best).
Proof.
  induction t as [|x t IH]; intros best; cbn [argmax_from map fold_left].
  - split; [now left|reflexivity].
  - destruct (IH (if snd best <? snd x then x else best)) as [Hin Hsnd].
    split.
    + destruct Hin as [Hin|Hin].
      * rewrite <- Hin.
        destruct (snd best <? snd x); [right; now left|now left].
      * right. now right.
    + rewrite Hsnd. f_equal.
      destruct (Z.ltb_spec (snd best) (snd x)); cbn; lia.
Qed.

(** [max(votes, key=votes.get)] names a verdict that holds the largest
    count. *)
Lemma argmax_top (t : Tally) (winner : string) :
  argmax t = Py.Ok winner -> In (winner, Spec.top_count t) t.
Proof.
  destruct t as [|x t]; [discriminate|]. cbn [argmax]. intros H.
  injection H as <-.
  destruct (argmax_from_top t x) as [Hin Hsnd].
  unfold Spec.top_count. cbn [map]. rewrite <- Hsnd.
  rewrite <- surjective_pairing. exact Hin.
Qed.

Lemma ballot_nonempty (n : Z) (t : Tally) :
  n <> 0 -> Spec.ballot n t -> t <> [].
Proof. intros Hn [_ Hs] ->. cbn in Hs. congruence. Qed.

Lemma check_meets (self : JuryProtocol) (n : Z) (t : Tally) (b : bool) :
  n <> 0 -> Spec.ballot n t ->
  _check_consensus self t n = Py.Ok b ->
  (b = true <-> Spec.meets self n t).
Proof.
  intros Hn Hb H.
  rewrite (check_consensus_exact self (ballot_nonempty n t Hn Hb) Hn) in H.
  injection H as <-. unfold Spec.meets. apply Qle_bool_iff.
Qed.

(** One ballot: every juror is asked once and answers are logged; the
    tally grows by one vote per juror. *)
Lemma ballot_loop_trace (prompt lbl : string) (options : list string)
  (agents : list Persona.Citizen) :
  forall (votes tally : Tally) (w w' : World),
    ballot_loop prompt lbl options agents votes w = (Py.Ok tally, w') ->
    (Forall (fun x => 0 < snd x) votes -> Forall (fun x => 0 < snd x) tally)
    /\ Spec.tally_sum tally = Spec.tally_sum votes + Py.len agents
    /\ ProtocolState.messages (state w') = ProtocolState.messages (state w)
    /\ exists cs rs,
         calls w' = (calls w ++ cs)%list
         /\ map Persona.caller cs = map Persona.name agents
         /\ ProtocolState.responses (state w')
            = (ProtocolState.responses (state w) ++ rs)%list
         /\ map AgentResponse.agent_id rs = map Persona.name agents.
Proof.
  induction agents as [|a agents IH]; intros votes tally w w' H.
  - cbn in H. unfold ret in H. injection H as <- <-.
    split; [tauto|]. split; [unfold Py.len; cbn; lia|].
    split; [reflexivity|]. exists [], []. rewrite !app_nil_r. repeat split.
  - cbn [ballot_loop] in H.
    apply bind_ok in H. destruct H as [response [wa [Hthink H]]].
    apply think_ok in Hthink. destruct Hthink as [Hst Hcalls].
    apply bind_ok in H. destruct H as [vote [wb [Hparse H]]].
    apply lift_ok in Hparse. destruct Hparse as [Hparse ->].
    apply bind_ok in H. destruct H as [u [wc [Hlog H]]].
    unfold Protocol.log_response, Protocol.modify_state in Hlog.
    injection Hlog as _ <-.
    apply IH in H. destruct H as [Hpos [Hsum [Hmsg [cs [rs Htrace]]]]].
    destruct Htrace as [Hc [Hcn [Hr Hrn]]].
    cbn [state calls ProtocolState.messages ProtocolState.responses] in *.
    rewrite Hst in *.
    split.
    { intros Hv. apply Hpos. apply tally_add_positive; [lia|exact Hv]. }
    split.
    { rewrite Hsum, tally_add_sum. unfold Py.len. cbn [List.length].
      rewrite Nat2Z.inj_succ. lia. }
    split; [exact Hmsg|].
    exists ({| Persona.caller := Persona.name a; Persona.stimulus := prompt;
               Persona.label := lbl; Persona.reply := response |} :: cs),
           ({| AgentResponse.agent_id := Persona.name a;
               AgentResponse.response := response;
               AgentResponse.confidence := None;
               AgentResponse.reasoning := None;
               AgentResponse.vote := Some vote |} :: rs).
    rewrite Hc, Hcalls, Hr, <- !app_assoc. cbn [app map].
    rewrite Hcn, Hrn. repeat split.
Qed.

(** One discussion round: every juror is asked once, the argument is
    logged as a message and collected under the juror's name. *)
Lemma discussion_loop_trace (prompt : string)
  (agents : list Persona.Citizen) :
  forall (arguments result : list string) (w w' : World),
    discussion_loop prompt agents arguments w = (Py.Ok result, w') ->
    ProtocolState.responses (state w') = ProtocolState.responses (state w)
    /\ exists cs ms,
         calls w' = (calls w ++ cs)%list
         /\ map Persona.caller cs = map Persona.name agents
         /\ ProtocolState.messages (state w')
            = (ProtocolState.messages (state w) ++ ms)%list
         /\ map ProtocolMessage.sender_id ms = map Persona.name agents
         /\ map ProtocolMessage.content ms = map Persona.reply cs
         /\ result
            = (arguments
               ++ map (fun c => (Persona.caller c ++ ": "
                                 ++ Persona.reply c)%string) cs)%list.
Proof.
  induction agents as [|a agents IH]; intros arguments result w w' H.
  - cbn in H. unfold ret in H. injection H as <- <-.
    split; [reflexivity|]. exists [], []. rewrite !app_nil_r. repeat split.
  - cbn [discussion_loop] in H.
    apply bind_ok in H. destruct H as [argument [wa [Hthink H]]].
    apply think_ok in Hthink. destruct Hthink as [Hst Hcalls].
    apply bind_ok in H. destruct H as [u [wc [Hlog H]]].
    unfold Protocol.log_message, Protocol.modify_state in Hlog.
    injection Hlog as _ <-.
    apply IH in H. destruct H as [Hresp [cs [ms Htrace]]].
    destruct Htrace as [Hc [Hcn [Hm [Hmn [Hmc Hres]]]]].
    cbn [state calls ProtocolState.messages ProtocolState.responses] in *.
    rewrite Hst in *.
    split; [exact Hresp|].
    exists ({| Persona.caller := Persona.name a; Persona.stimulus := prompt;
               Persona.label := "Jury deliberation argument"%string;
               Persona.reply := argument |} :: cs),
           ({| ProtocolMessage.sender_id := Persona.name a;
               ProtocolMessage.content := argument;
               ProtocolMessage.message_type := "argument"%string |} :: ms).
    rewrite Hc, Hcalls, Hm, Hres, <- !app_assoc. cbn [app map].
    rewrite Hcn, Hmn, Hmc. repeat split.
Qed.

(** What one pass through the body of the deliberation loop does. *)
Lemma deliberate_step (self : JuryProtocol) (agents : list Persona.Citizen)
  (case_summary : string) (options : list string) (round_num : Z)
  (rounds : list Z) (current_votes : Tally) (trajectory : list Tally)
  (key_args : list string) (positions : list (string * option string))
  (w w' : World) (v : JuryVerdict) :
  deliberate self agents case_summary options (round_num :: rounds)
             current_votes trajectory key_args positions w = (Py.Ok v, w') ->
  exists args w1 votes w2 reached,
    _discussion_round agents current_votes case_summary round_num w
    = (Py.Ok args, w1)
    /\ _revote agents args options w1 = (Py.Ok votes, w2)
    /\ _check_consensus self votes (Py.len agents) = Py.Ok reached
    /\ if reached
       then exists winner,
           argmax votes = Py.Ok winner /\ w' = w2
           /\ v = {| verdict := winner;
                     final_vote_counts := votes;
                     rounds_taken := round_num;
                     consensus_reached := true;
                     vote_trajectory := (trajectory ++ [votes])%list;
                     key_arguments := firstn 5 (key_args ++ args);
                     holdouts := [] |}
       else exists positions',
           deliberate self agents case_summary options rounds votes
                      (trajectory ++ [votes]) (key_args ++ args) positions' w2
           = (Py.Ok v, w').
Proof.
  intros Hrun. cbn [deliberate] in Hrun.
  apply bind_ok in Hrun. destruct Hrun as [args [w1 [Hdisc Hrun]]].
  apply bind_ok in Hrun. destruct Hrun as [votes [w2 [Hvote Hrun]]].
  apply bind_ok in Hrun. destruct Hrun as [s [w3 [Hs Hrun]]].
  apply get_state_ok in Hs. destruct Hs as [-> ->].
  apply bind_ok in Hrun. destruct Hrun as [reached [w4 [Hcheck Hrun]]].
  apply lift_ok in Hcheck. destruct Hcheck as [Hcheck ->].
  exists args, w1, votes, w2, reached.
  split; [exact Hdisc|]. split; [exact Hvote|]. split; [exact Hcheck|].
  destruct reached.
  - apply bind_ok in Hrun. destruct Hrun as [winner [w5 [Hw Hrun]]].
    apply lift_ok in Hw. destruct Hw as [Hw ->].
    unfold ret in Hrun. injection Hrun as <- <-.
    exists winner. repeat split. exact Hw.
  - eexists. exact Hrun.
Qed.

(** What the code after the loop returns. *)
Lemma conclude_verdict (self : JuryProtocol) (current_votes : Tally)
  (trajectory : list Tally) (key_args : list string) (w w' : World)
  (v : JuryVerdict) :
  conclude self current_votes trajectory key_args w = (Py.Ok v, w') ->
  w' = w
  /\ consensus_reached v = false
  /\ rounds_taken v = max_rounds self
  /\ final_vote_counts v = current_votes
  /\ vote_trajectory v = trajectory
  /\ key_arguments v = firstn 5 key_args
  /\ holdouts v = []
  /\ if allow_hung_jury self
     then verdict v = "Hung Jury"%string
     else argmax current_votes = Py.Ok (verdict v).
Proof.
  unfold conclude. destruct (allow_hung_jury self).
  - unfold ret. intros H. injection H as <- <-. repeat split.
  - intros H. apply bind_ok in H. destruct H as [winner [w1 [Hw H]]].
    apply lift_ok in Hw. destruct Hw as [Hw ->].
    unfold ret in H. injection H as <- <-. repeat split. exact Hw.
Qed.

(** What [execute] does before the loop. *)
Lemma jury_execute_start (self : JuryProtocol)
  (agents : list Persona.Citizen) (context : Context) (w w' : World)
  (v : JuryVerdict) :
  execute self agents context w = (Py.Ok v, w') ->
  validate_participation agents = true
  /\ exists initial w1 reached,
      _initial_vote agents (Py.get (case_summary context) ""%string)
                    (Py.get (evidence context) [])
                    (Py.get (charges context) ""%string)
                    (Py.get (verdict_options context)
                            ["Guilty"; "Not Guilty"]%string) w
      = (Py.Ok initial, w1)
      /\ _check_consensus self initial (Py.len agents) = Py.Ok reached
      /\ if reached
         then exists winner,
             argmax initial = Py.Ok winner /\ w' = w1
             /\ v = {| verdict := winner;
                       final_vote_counts := initial;
                       rounds_taken := 0;
                       consensus_reached := true;
                       vote_trajectory := [initial];
                       key_arguments := [];
                       holdouts := [] |}
         else exists positions,
             deliberate self agents (Py.get (case_summary context) ""%string)
               (Py.get (verdict_options context)
                       ["Guilty"; "Not Guilty"]%string)
               (Py.range 1 (max_rounds self + 1)) initial [initial] []
               positions w1
             = (Py.Ok v, w').
Proof.
  intros Hrun. unfold execute in Hrun.
  destruct (validate_participation agents); cbn [negb] in Hrun;
    [|discriminate Hrun].
  split; [reflexivity|].
  apply bind_ok in Hrun. destruct Hrun as [initial [w1 [Hballot Hrun]]].
  apply bind_ok in Hrun. destruct Hrun as [s [w2 [Hs Hrun]]].
  apply get_state_ok in Hs. destruct Hs as [-> ->].
  apply bind_ok in Hrun. destruct Hrun as [reached [w3 [Hcheck Hrun]]].
  apply lift_ok in Hcheck. destruct Hcheck as [Hcheck ->].
  exists initial, w1, reached.
  split; [exact Hballot|]. split; [exact Hcheck|].
  destruct reached.
  - apply bind_ok in Hrun. destruct Hrun as [winner [w4 [Hw Hrun]]].
    apply lift_ok in Hw. destruct Hw as [Hw ->].
    unfold ret in Hrun. injection Hrun as <- <-.
    exists winner. repeat split. exact Hw.
  - eexists. exact Hrun.
Qed.

Lemma valid_jury_size (agents : list Persona.Citizen) :
  validate_participation agents = true -> 6 <= Py.len agents <= 12.
Proof.
  unfold validate_participation. intros H.
  apply andb_true_iff in H. destruct H as [H1 H2].
  apply Z.leb_le in H1. apply Z.leb_le in H2. lia.
Qed.

Lemma fresh_ballot (prompt lbl : string) (options : list string)
  (agents : list Persona.Citizen) (tally : Tally) (w w' : World) :
  ballot_loop prompt lbl options agents [] w = (Py.Ok tally, w') ->
  Spec.ballot (Py.len agents) tally.
Proof.
  intros H. apply ballot_loop_trace in H.
  destruct H as [Hpos [Hsum _]].
  split; [apply Hpos; constructor|exact Hsum].
Qed.

(** The loop's invariant on tallies and flags. *)
Lemma deliberate_sound (self : JuryProtocol) (agents : list Persona.Citizen)
  (case_summary : string) (options : list string) (rounds : list Z) :
  forall (current_votes : Tally) (trajectory : list Tally)
         (key_args : list string) (positions : list (string * option string))
         (w w' : World) (v : JuryVerdict),
    Spec.ballot (Py.len agents) current_votes ->
    Forall (Spec.ballot (Py.len agents)) trajectory ->
    Forall (fun t => _check_consensus self t (Py.len agents) = Py.Ok false)
           trajectory ->
    deliberate self agents case_summary options rounds current_votes
               trajectory key_args positions w = (Py.Ok v, w') ->
    Spec.ballot (Py.len agents) (final_vote_counts v)
    /\ Forall (Spec.ballot (Py.len agents)) (vote_trajectory v)
    /\ holdouts v = []
    /\ if consensus_reached v
       then _check_consensus self (final_vote_counts v) (Py.len agents)
            = Py.Ok true
            /\ argmax (final_vote_counts v) = Py.Ok (verdict v)
            /\ Forall (fun t => _check_consensus self t (Py.len agents)
                                = Py.Ok false)
                      (removelast (vote_trajectory v))
       else rounds_taken v = max_rounds self
            /\ Forall (fun t => _check_consensus self t (Py.len agents)
                                = Py.Ok false)
                      (vote_trajectory v)
            /\ if allow_hung_jury self
               then verdict v = "Hung Jury"%string
               else argmax (final_vote_counts v) = Py.Ok (verdict v).
Proof.
  induction rounds as [|round_num rounds IH];
    intros cv trajectory ka pos w w' v Hcv Htraj Hshort Hrun.
  - cbn [deliberate] in Hrun. apply conclude_verdict in Hrun.
    destruct Hrun as [_ [Hc [Hr [Hf [Ht [_ [Hh Hv]]]]]]].
    rewrite Hc, Hf, Ht.
    split; [exact Hcv|]. split; [exact Htraj|]. split; [exact Hh|].
    split; [exact Hr|]. split; [exact Hshort|exact Hv].
  - apply deliberate_step in Hrun.
    destruct Hrun as [args [w1 [votes [w2 [reached Hrun]]]]].
    destruct Hrun as [_ [Hvote [Hcheck Hrun]]].
    assert (Hb : Spec.ballot (Py.len agents) votes).
    { eapply fresh_ballot. exact Hvote. }
    destruct reached.
    + destruct Hrun as [winner [Hw [_ ->]]].
      cbn [final_vote_counts vote_trajectory holdouts consensus_reached
           verdict].
      rewrite removelast_last.
      split; [exact Hb|]. split.
      { apply Forall_app. split; [exact Htraj|]. constructor; [exact Hb|].
        constructor. }
      split; [reflexivity|]. split; [exact Hcheck|].
      split; [exact Hw|exact Hshort].
    + destruct Hrun as [pos' Hrun].
      apply IH in Hrun; [exact Hrun|exact Hb| |].
      * apply Forall_app. split; [exact Htraj|]. constructor; [exact Hb|].
        constructor.
      * apply Forall_app. split; [exact Hshort|].
        constructor; [exact Hcheck|]. constructor.
Qed.

(** What every returned verdict satisfies. *)
Lemma jury_execute_sound (self : JuryProtocol)
  (agents : list Persona.Citizen) (context : Context) (w w' : World)
  (v : JuryVerdict) :
  execute self agents context w = (Py.Ok v, w') ->
  Spec.ballot (Py.len agents) (final_vote_counts v)
  /\ Forall (Spec.ballot (Py.len agents)) (vote_trajectory v)
  /\ holdouts v = []
  /\ if consensus_reached v
     then _check_consensus self (final_vote_counts v) (Py.len agents)
          = Py.Ok true
          /\ argmax (final_vote_counts v) = Py.Ok (verdict v)
          /\ Forall (fun t => _check_consensus self t (Py.len agents)
                              = Py.Ok false)
                    (removelast (vote_trajectory v))
     else rounds_taken v = max_rounds self
          /\ Forall (fun t => _check_consensus self t (Py.len agents)
                              = Py.Ok false)
                    (vote_trajectory v)
          /\ if allow_hung_jury self
             then verdict v = "Hung Jury"%string
             else argmax (final_vote_counts v) = Py.Ok (verdict v).
Proof.
  intros Hrun. apply jury_execute_start in Hrun.
  destruct Hrun as [_ [initial [w1 [reached [Hballot [Hcheck Hrun]]]]]].
  assert (Hb : Spec.ballot (Py.len agents) initial).
  { eapply fresh_ballot. exact Hballot. }
  destruct reached.
  - destruct Hrun as [winner [Hw [_ ->]]].
    cbn [final_vote_counts vote_trajectory holdouts consensus_reached
         verdict removelast].
    split; [exact Hb|]. split; [constructor; [exact Hb|constructor]|].
    split; [reflexivity|]. split; [exact Hcheck|].
    split; [exact Hw|constructor].
  - destruct Hrun as [pos Hrun].
    apply deliberate_sound in Hrun; [exact Hrun|exact Hb| |].
    + constructor; [exact Hb|constructor].
    + constructor; [exact Hcheck|constructor].
Qed.

(** *** The threshold of a twelve-person jury *)








Lemma jury_execute_returns_witness :
  exists v w',
    execute Examples.one_round Examples.three_three Examples.theft_case
            Protocol.init = (Py.Ok v, w').
Proof.
  apply (@jury_execute_returns Examples.one_round Examples.three_three
           Examples.theft_case Protocol.init).
  - reflexivity.
  - intros a Ha history stim lbl.
    repeat (destruct Ha as [<-|Ha]; [eexists; reflexivity|]).
    destruct Ha.
  - discriminate.
Defined.

(** X17: every tally a returned verdict carries (each entry of
    [vote_trajectory], and [final_vote_counts]) is a complete ballot: it
    lists only verdicts that got at least one vote, and its counts add up
    to the number of jurors. *)
Theorem jury_ballots_complete (self : JuryProtocol)
  (agents : list Persona.Citizen) (context : Context) (w w' : World)
  (v : JuryVerdict) :
  execute self agents context w = (Py.Ok v, w') ->
  Spec.ballot (Py.len agents) (final_vote_counts v)
  /\ Forall (Spec.ballot (Py.len agents)) (vote_trajectory v).
Proof.
  intros Hrun. apply jury_execute_sound in Hrun.
  destruct Hrun as [Hf [Ht _]]. split; assumption.
Qed.

Lemma jury_ballots_complete_witness :
  exists v w',
    execute Examples.one_round Examples.three_three Examples.theft_case
            Protocol.init = (Py.Ok v, w')
    /\ Spec.ballot (Py.len Examples.three_three) (final_vote_counts v)
    /\ Forall (Spec.ballot (Py.len Examples.three_three)) (vote_trajectory v).
Proof.
  do 2 eexists. split; [vm_compute; reflexivity|].
  eapply (jury_ballots_complete Examples.one_round Examples.three_three
           Examples.theft_case Protocol.init).
  vm_compute. reflexivity.
Defined.

(** X18: when a returned verdict says consensus was reached, the final
    tally meets the threshold ([max / jurors >= required_consensus] on exact
    fractions), the verdict is an option holding the largest count of that
    tally, and no earlier ballot of the trajectory met the threshold: the
    deliberation stopped at the first ballot that did. *)
Theorem jury_consensus_sound (self : JuryProtocol)
  (agents : list Persona.Citizen) (context : Context) (w w' : World)
  (v : JuryVerdict) :
  execute self agents context w = (Py.Ok v, w') ->
  consensus_reached v = true ->
  Spec.meets self (Py.len agents) (final_vote_counts v)
  /\ In (verdict v, Spec.top_count (final_vote_counts v))
        (final_vote_counts v)
  /\ forall t, In t (removelast (vote_trajectory v)) ->
               ~ Spec.meets self (Py.len agents) t.
Proof.
  intros Hrun Hreached.
  pose proof (jury_execute_start _ _ _ _ _ _ Hrun) as [Hvalid _].
  apply valid_jury_size in Hvalid.
  assert (Hn : Py.len agents <> 0) by lia.
  apply jury_execute_sound in Hrun.
  destruct Hrun as [Hf [Ht [_ Hrun]]]. rewrite Hreached in Hrun.
  destruct Hrun as [Hcheck [Hw Hshort]].
  split; [apply (check_meets self _ _ true Hn Hf Hcheck); reflexivity|].
  split; [apply argmax_top; exact Hw|].
  intros t Hin Hmeets.
  assert (Hb : Spec.ballot (Py.len agents) t).
  { rewrite Forall_forall in Ht. apply Ht.
    destruct (vote_trajectory v) as [|x l] eqn:E; [destruct Hin|].
    rewrite <- E in *.
    assert (Hl : vote_trajectory v <> []) by (rewrite E; discriminate).
    rewrite (app_removelast_last [] Hl). apply in_or_app. now left. }
  rewrite Forall_forall in Hshort. specialize (Hshort t Hin).
  apply (check_meets self _ _ false Hn Hb Hshort) in Hmeets.
  discriminate Hmeets.
Qed.

Lemma jury_consensus_sound_witness :
  exists v w',
    execute default Examples.six_guilty Examples.theft_case Protocol.init
    = (Py.Ok v, w')
    /\ consensus_reached v = true
    /\ Spec.meets default (Py.len Examples.six_guilty) (final_vote_counts v)
    /\ In (verdict v, Spec.top_count (final_vote_counts v))
          (final_vote_counts v)
    /\ forall t, In t (removelast (vote_trajectory v)) ->
                 ~ Spec.meets default (Py.len Examples.six_guilty) t.
Proof.
  do 2 eexists. split; [vm_compute; reflexivity|].
  split; [reflexivity|].
  eapply (jury_consensus_sound default Examples.six_guilty
           Examples.theft_case Protocol.init).
  - vm_compute. reflexivity.
  - reflexivity.
Defined.

(** X19: when a returned verdict says consensus was not reached, the loop
    ran out: [rounds_taken] is [max_rounds], no ballot of the trajectory met
    the threshold, and the verdict is Hung Jury when hung juries are allowed
    and otherwise an option holding the largest count of the final tally. *)
Theorem jury_no_consensus (self : JuryProtocol)
  (agents : list Persona.Citizen) (context : Context) (w w' : World)
  (v : JuryVerdict) :
  execute self agents context w = (Py.Ok v, w') ->
  consensus_reached v = false ->
  rounds_taken v = max_rounds self
  /\ (forall t, In t (vote_trajectory v) ->
                ~ Spec.meets self (Py.len agents) t)
  /\ (allow_hung_jury self = true -> verdict v = "Hung Jury"%string)
  /\ (allow_hung_jury self = false ->
      In (verdict v, Spec.top_count (final_vote_counts v))
         (final_vote_counts v)).
Proof.
  intros Hrun Hreached.
  pose proof (jury_execute_start _ _ _ _ _ _ Hrun) as [Hvalid _].
  apply valid_jury_size in Hvalid.
  assert (Hn : Py.len agents <> 0) by lia.
  apply jury_execute_sound in Hrun.
  destruct Hrun as [Hf [Ht [_ Hrun]]]. rewrite Hreached in Hrun.
  destruct Hrun as [Hrounds [Hshort Hv]].
  split; [exact Hrounds|]. split.
  - intros t Hin Hmeets. rewrite Forall_forall in Ht, Hshort.
    apply (check_meets self _ _ false Hn (Ht t Hin) (Hshort t Hin)) in Hmeets.
    discriminate Hmeets.
  - destruct (allow_hung_jury self).
    + split; [intros _; exact Hv|discriminate].
    + split; [discriminate|]. intros _. apply argmax_top. exact Hv.
Qed.

Lemma jury_no_consensus_witness :
  exists v w',
    execute Examples.one_round Examples.three_three Examples.theft_case
            Protocol.init = (Py.Ok v, w')
    /\ consensus_reached v = false
    /\ rounds_taken v = max_rounds Examples.one_round
    /\ (forall t, In t (vote_trajectory v) ->
                  ~ Spec.meets Examples.one_round
                               (Py.len Examples.three_three) t)
    /\ (allow_hung_jury Examples.one_round = true ->
        verdict v = "Hung Jury"%string)
    /\ (allow_hung_jury Examples.one_round = false ->
        In (verdict v, Spec.top_count (final_vote_counts v))
           (final_vote_counts v)).
Proof.
  do 2 eexists. split; [vm_compute; reflexivity|].
  split; [reflexivity|].
  eapply (jury_no_consensus Examples.one_round Examples.three_three
           Examples.theft_case Protocol.init).
  - vm_compute. reflexivity.
  - reflexivity.
Defined.

(** *** Consultations and log entries *)

Lemma ballot_counts (prompt lbl : string) (options : list string)
  (agents : list Persona.Citizen) (votes tally : Tally) (w w' : World) :
  ballot_loop prompt lbl options agents votes w = (Py.Ok tally, w') ->
  Spec.asked w' = Spec.asked w + Py.len agents
  /\ Spec.voiced w' = Spec.voiced w
  /\ Spec.answered w' = Spec.answered w + Py.len agents.
Proof.
  intros H. apply ballot_loop_trace in H.
  destruct H as [_ [_ [Hmsg [cs [rs [Hc [Hcn [Hr Hrn]]]]]]]].
  unfold Spec.asked, Spec.voiced, Spec.answered.
  rewrite Hc, Hmsg, Hr, !len_app.
  rewrite (len_of_maps _ _ _ _ Hcn), (len_of_maps _ _ _ _ Hrn).
  repeat split.
Qed.

Lemma discussion_counts (prompt : string) (agents : list Persona.Citizen)
  (arguments result : list string) (w w' : World) :
  discussion_loop prompt agents arguments w = (Py.Ok result, w') ->
  Spec.asked w' = Spec.asked w + Py.len agents
  /\ Spec.voiced w' = Spec.voiced w + Py.len agents
  /\ Spec.answered w' = Spec.answered w
  /\ Py.len result = Py.len arguments + Py.len agents.
Proof.
  intros H. apply discussion_loop_trace in H.
  destruct H as [Hresp [cs [ms [Hc [Hcn [Hm [Hmn [_ Hres]]]]]]]].
  unfold Spec.asked, Spec.voiced, Spec.answered.
  rewrite Hc, Hm, Hresp, Hres, !len_app.
  assert (Hlen : forall f : Persona.Call -> string,
             Py.len (map f cs) = Py.len agents).
  { intros f. rewrite <- (len_of_maps _ _ _ _ Hcn). unfold Py.len.
    now rewrite length_map. }
  rewrite Hlen, (len_of_maps _ _ _ _ Hcn), (len_of_maps _ _ _ _ Hmn).
  repeat split.
Qed.

(** The loop's invariant on the number of consultations. *)
Lemma deliberate_counts (self : JuryProtocol) (agents : list Persona.Citizen)
  (case_summary : string) (options : list string) (k : nat) :
  forall (start : Z) (current_votes : Tally) (trajectory : list Tally)
         (key_args : list string) (positions : list (string * option string))
         (w w' : World) (v : JuryVerdict),
    start + Z.of_nat k = max_rounds self + 1 ->
    deliberate self agents case_summary options
               (Py.range start (start + Z.of_nat k))
               current_votes trajectory key_args positions w
    = (Py.Ok v, w') ->
    start - 1 <= rounds_taken v <= max_rounds self
    /\ Spec.asked w'
       = Spec.asked w + 2 * Py.len agents * (rounds_taken v - start + 1)
    /\ Spec.voiced w'
       = Spec.voiced w + Py.len agents * (rounds_taken v - start + 1)
    /\ Spec.answered w'
       = Spec.answered w + Py.len agents * (rounds_taken v - start + 1).
Proof.
  induction k as [|k IH];
    intros start cv trajectory ka pos w w' v Hmax Hrun.
  - rewrite range_nil in Hrun by lia. cbn [deliberate] in Hrun.
    apply conclude_verdict in Hrun. destruct Hrun as [-> [_ [Hr _]]].
    rewrite Hr. repeat split; lia.
  - rewrite range_cons in Hrun by lia.
    apply deliberate_step in Hrun.
    destruct Hrun as [args [w1 [votes [w2 [reached Hrun]]]]].
    destruct Hrun as [Hdisc [Hvote [_ Hrun]]].
    apply discussion_counts in Hdisc.
    destruct Hdisc as [Ha1 [Hm1 [Hr1 _]]].
    apply ballot_counts in Hvote. destruct Hvote as [Ha2 [Hm2 Hr2]].
    destruct reached.
    + destruct Hrun as [winner [_ [-> ->]]]. cbn [rounds_taken].
      repeat split; lia.
    + destruct Hrun as [pos' Hrun].
      replace (start + Z.of_nat (S k)) with (start + 1 + Z.of_nat k)
        in Hrun by lia.
      apply IH in Hrun; [|lia].
      destruct Hrun as [Hb [Ha [Hm Hr]]].
      repeat split; lia.
Qed.

(** X20: for a protocol with [max_rounds >= 0], a jury run that returns a
    verdict after [rounds_taken] rounds (between 0 and [max_rounds]) has
    consulted the jurors once each for the initial ballot and twice each
    (argument, re-vote) per round, has logged one response per juror and
    ballot, and one message per juror and round. *)
Theorem jury_consultations (self : JuryProtocol)
  (agents : list Persona.Citizen) (context : Context) (w w' : World)
  (v : JuryVerdict) :
  0 <= max_rounds self ->
  execute self agents context w = (Py.Ok v, w') ->
  0 <= rounds_taken v <= max_rounds self
  /\ Spec.asked w'
     = Spec.asked w + Py.len agents * (1 + 2 * rounds_taken v)
  /\ Spec.voiced w' = Spec.voiced w + Py.len agents * rounds_taken v
  /\ Spec.answered w'
     = Spec.answered w + Py.len agents * (1 + rounds_taken v).
Proof.
  intros Hmax Hrun. apply jury_execute_start in Hrun.
  destruct Hrun as [_ [initial [w1 [reached [Hballot [_ Hrun]]]]]].
  apply ballot_counts in Hballot. destruct Hballot as [Ha0 [Hm0 Hr0]].
  destruct reached.
  - destruct Hrun as [winner [_ [-> ->]]]. cbn [rounds_taken].
    repeat split; lia.
  - destruct Hrun as [pos Hrun].
    replace (max_rounds self + 1)
      with (1 + Z.of_nat (Z.to_nat (max_rounds self))) in Hrun by lia.
    apply deliberate_counts in Hrun; [|lia].
    destruct Hrun as [Hb [Ha [Hm Hr]]].
    repeat split; lia.
Qed.

Lemma jury_consultations_witness :
  exists v w',
    execute Examples.one_round Examples.three_three Examples.theft_case
            Protocol.init = (Py.Ok v, w')
    /\ rounds_taken v = 1
    /\ 0 <= rounds_taken v <= max_rounds Examples.one_round
    /\ Spec.asked w'
       = Spec.asked Protocol.init
         + Py.len Examples.three_three * (1 + 2 * rounds_taken v)
    /\ Spec.voiced w'
       = Spec.voiced Protocol.init
         + Py.len Examples.three_three * rounds_taken v
    /\ Spec.answered w'
       = Spec.answered Protocol.init
         + Py.len Examples.three_three * (1 + rounds_taken v).
Proof.
  do 2 eexists. split; [vm_compute; reflexivity|].
  split; [reflexivity|].
  apply (jury_consultations Examples.one_round Examples.three_three
           Examples.theft_case Protocol.init).
  - vm_compute. discriminate.
  - vm_compute. reflexivity.
Defined.

(** *** Key arguments *)

Lemma firstn_full {A} (n : nat) (l l' : list A) :
  (n <= List.length l)%nat -> firstn n (l ++ l') = firstn n l.
Proof.
  intros H. rewrite firstn_app.
  replace (n - List.length l)%nat with O by lia.
  cbn. apply app_nil_r.
Qed.

(** Once five arguments are collected, later rounds do not change the
    reported ones. *)
Lemma deliberate_keys (self : JuryProtocol) (agents : list Persona.Citizen)
  (case_summary : string) (options : list string) (rounds : list Z) :
  forall (current_votes : Tally) (trajectory : list Tally)
         (key_args : list string) (positions : list (string * option string))
         (w w' : World) (v : JuryVerdict),
    (5 <= List.length key_args)%nat ->
    deliberate self agents case_summary options rounds current_votes
               trajectory key_args positions w = (Py.Ok v, w') ->
    key_arguments v = firstn 5 key_args.
Proof.
  induction rounds as [|round_num rounds IH];
    intros cv trajectory ka pos w w' v Hlen Hrun.
  - cbn [deliberate] in Hrun. apply conclude_verdict in Hrun.
    destruct Hrun as [_ [_ [_ [_ [_ [Hk _]]]]]]. exact Hk.
  - apply deliberate_step in Hrun.
    destruct Hrun as [args [w1 [votes [w2 [reached Hrun]]]]].
    destruct Hrun as [_ [_ [_ Hrun]]].
    destruct reached.
    + destruct Hrun as [winner [_ [_ ->]]]. cbn [key_arguments].
      apply firstn_full. exact Hlen.
    + destruct Hrun as [pos' Hrun].
      apply IH in Hrun; [|rewrite length_app; lia].
      rewrite Hrun. apply firstn_full. exact Hlen.
Qed.

(** X21: the key arguments of a returned verdict are never chosen by
    influence: when no discussion took place the list is empty, and
    otherwise it holds exactly the first five arguments of round 1 (the
    jurors speak in the order given), whatever was said in later rounds. *)
Theorem jury_key_arguments (self : JuryProtocol)
  (agents : list Persona.Citizen) (context : Context) (w w' : World)
  (v : JuryVerdict) :
  execute self agents context w = (Py.Ok v, w') ->
  (rounds_taken v <= 0 /\ key_arguments v = [])
  \/ (1 <= rounds_taken v
      /\ exists initial w1 arguments w2,
          _initial_vote agents (Py.get (case_summary context) ""%string)
                        (Py.get (evidence context) [])
                        (Py.get (charges context) ""%string)
                        (Py.get (verdict_options context)
                                ["Guilty"; "Not Guilty"]%string) w
          = (Py.Ok initial, w1)
          /\ _discussion_round agents initial
                               (Py.get (case_summary context) ""%string) 1 w1
             = (Py.Ok arguments, w2)
          /\ Py.len arguments = Py.len agents
          /\ key_arguments v = firstn 5 arguments
          /\ Py.len (key_arguments v) = 5).
Proof.
  intros Hrun.
  pose proof (jury_execute_start _ _ _ _ _ _ Hrun) as [Hvalid Hstart].
  apply valid_jury_size in Hvalid. clear Hrun.
  destruct Hstart as [initial [w1 [reached [Hballot [_ Hrun]]]]].
  destruct reached.
  { destruct Hrun as [winner [_ [_ ->]]]. left. cbn. split; [lia|reflexivity]. }
  destruct Hrun as [pos Hrun].
  destruct (Z_lt_le_dec (max_rounds self) 1) as [Hmax|Hmax].
  { rewrite range_nil in Hrun by lia. cbn [deliberate] in Hrun.
    apply conclude_verdict in Hrun.
    destruct Hrun as [_ [_ [Hr [_ [_ [Hk _]]]]]].
    left. rewrite Hr, Hk. split; [lia|reflexivity]. }
  right. rewrite range_cons in Hrun by lia.
  apply deliberate_step in Hrun.
  destruct Hrun as [args [w2 [votes [w3 [reached Hrun]]]]].
  destruct Hrun as [Hdisc [_ [_ Hrun]]].
  pose proof (discussion_counts _ _ _ _ _ _ Hdisc) as [_ [_ [_ Hlen]]].
  change (Py.len (@nil string)) with 0 in Hlen.
  assert (Hfive : Py.len (firstn 5 args) = 5).
  { unfold Py.len in *. rewrite length_firstn. lia. }
  assert (Hrounds_keys :
            1 <= rounds_taken v /\ key_arguments v = firstn 5 args).
  { destruct reached.
    - destruct Hrun as [winner [_ [_ ->]]]. cbn. split; [lia|reflexivity].
    - destruct Hrun as [pos' Hrun]. split.
      + replace (max_rounds self + 1)
          with (1 + 1 + Z.of_nat (Z.to_nat (max_rounds self - 1)))
          in Hrun by lia.
        apply deliberate_counts in Hrun; [|lia]. lia.
      + apply deliberate_keys in Hrun; [exact Hrun|].
        cbn [app]. unfold Py.len in Hlen, Hvalid. lia. }
  destruct Hrounds_keys as [Hr Hk].
  split; [exact Hr|].
  exists initial, w1, args, w2.
  split; [exact Hballot|]. split; [exact Hdisc|]. split; [lia|].
  split; [exact Hk|]. rewrite Hk. exact Hfive.
Qed.

Lemma jury_key_arguments_witness :
  exists v w',
    execute Examples.one_round Examples.three_three Examples.theft_case
            Protocol.init = (Py.Ok v, w')
    /\ key_arguments v
       = [ "j1: VOTE: Guilty"; "j2: VOTE: Not Guilty"; "j3: VOTE: Guilty";
           "j4: VOTE: Not Guilty"; "j5: VOTE: Guilty" ]%string
    /\ ((rounds_taken v <= 0 /\ key_arguments v = [])
        \/ (1 <= rounds_taken v
            /\ exists initial w1 arguments w2,
                _initial_vote Examples.three_three
                  (Py.get (case_summary Examples.theft_case) ""%string)
                  (Py.get (evidence Examples.theft_case) [])
                  (Py.get (charges Examples.theft_case) ""%string)
                  (Py.get (verdict_options Examples.theft_case)
                          ["Guilty"; "Not Guilty"]%string) Protocol.init
                = (Py.Ok initial, w1)
                /\ _discussion_round Examples.three_three initial
                     (Py.get (case_summary Examples.theft_case) ""%string)
                     1 w1
                   = (Py.Ok arguments, w2)
                /\ Py.len arguments = Py.len Examples.three_three
                /\ key_arguments v = firstn 5 arguments
                /\ Py.len (key_arguments v) = 5)).
Proof.
  do 2 eexists. split; [vm_compute; reflexivity|].
  split; [reflexivity|].
  eapply (jury_key_arguments Examples.one_round Examples.three_three
            Examples.theft_case Protocol.init).
  vm_compute. reflexivity.
Defined.

End JuryVerdicts.

(** ** Negotiation: errors, termination and the record of offers *)

Section NegotiationRuns.
Import Negotiation.
Local Open Scope Q_scope.

(** X23: with any number of agents other than two, [execute] raises
    [ValueError] before it looks at the context. *)
Theorem negotiation_wrong_agents (self : NegotiationProtocol)
  (agents : list Persona.Citizen) (context : Context) (w : World) :
  Py.len agents <> 2%Z ->
  execute self agents context w
  = (Py.Raise (Py.ValueError "Negotiation requires exactly 2 agents"%string),
     w).
Proof.
  intros H. unfold execute, validate_participation.
  apply Z.eqb_neq in H. rewrite H. reflexivity.
Qed.

Lemma negotiation_wrong_agents_witness :
  execute default [Examples.seller] (Examples.deal 20 40) Protocol.init
  = (Py.Raise (Py.ValueError "Negotiation requires exactly 2 agents"%string),
     Protocol.init).
Proof.
  apply (negotiation_wrong_agents default [Examples.seller]
           (Examples.deal 20 40) Protocol.init).
  discriminate.
Defined.

Lemma getitem_outside {A} (l : list A) (i : Z) :
  (i < - Py.len l \/ Py.len l <= i)%Z -> Py.getitem l i = Py.Raise Py.IndexError.
Proof.
  unfold Py.getitem, Py.len. intros H.
  destruct (i <? 0)%Z eqn:E.
  - apply Z.ltb_lt in E.
    replace (0 <=? Z.of_nat (List.length l) + i)%Z with false; [reflexivity|].
    symmetry. apply Z.leb_gt. lia.
  - apply Z.ltb_ge in E.
    replace (i <? Z.of_nat (List.length l))%Z with false;
      [now rewrite andb_false_r|].
    symmetry. apply Z.ltb_ge. lia.
Qed.

(** X24: with two agents and a [seller_index] other than 0 or 1, [execute]
    raises [IndexError]: a negative index may still pick a seller
    ([agents[-1]]), but then [1 - seller_index] is out of range for the
    buyer. *)
Theorem negotiation_seller_index (self : NegotiationProtocol)
  (a b : Persona.Citizen) (context : Context) (w : World) :
  Py.get (seller_index context) 0%Z <> 0%Z ->
  Py.get (seller_index context) 0%Z <> 1%Z ->
  execute self [a; b] context w = (Py.Raise Py.IndexError, w).
Proof.
  intros H0 H1. unfold execute.
  replace (negb (validate_participation [a; b])) with false by reflexivity.
  remember (Py.get (seller_index context) 0%Z) as i eqn:Ei. clear Ei.
  unfold bind, lift.
  assert (Hcases : (i <= -3 \/ i = -2 \/ i = -1 \/ 2 <= i)%Z) by lia.
  destruct Hcases as [H|[->|[->|H]]].
  - rewrite (getitem_outside [a; b] i); [reflexivity|].
    left. unfold Py.len. cbn. lia.
  - reflexivity.
  - reflexivity.
  - rewrite (getitem_outside [a; b] i); [reflexivity|].
    right. unfold Py.len. cbn. lia.
Qed.

Lemma negotiation_seller_index_witness :
  execute default [Examples.seller; Examples.buyer]
          {| ctx_item := None; seller_index := Some (-1)%Z;
             seller_reserve := None; buyer_max := None |} Protocol.init
  = (Py.Raise Py.IndexError, Protocol.init).
Proof.
  apply (negotiation_seller_index default Examples.seller Examples.buyer
           {| ctx_item := None; seller_index := Some (-1)%Z;
              seller_reserve := None; buyer_max := None |} Protocol.init).
  - discriminate.
  - discriminate.
Defined.

(** *** Every valid negotiation returns *)

Lemma seller_counter_returns (self : NegotiationProtocol)
  (seller : Persona.Citizen) (ask bid reserve : Q) (round_num : Z) :
  (1 <= round_num <= max_rounds self)%Z ->
  exists ask', _seller_counter self seller ask bid reserve round_num
               = Py.Ok ask'.
Proof.
  intros Hround. unfold _seller_counter.
  destruct (pressure_bounds Hround) as [p [Hp _]].
  rewrite Hp. cbn [Py.rbind].
  destruct (Py.Qlt_bool _ _); eexists; reflexivity.
Qed.

Lemma buyer_counter_returns (self : NegotiationProtocol)
  (buyer : Persona.Citizen) (bid ask max_price : Q) (round_num : Z) :
  (1 <= round_num <= max_rounds self)%Z ->
  exists bid', _buyer_counter self buyer bid ask max_price round_num
               = Py.Ok bid'.
Proof.
  intros Hround. unfold _buyer_counter.
  destruct (pressure_bounds Hround) as [p [Hp _]].
  rewrite Hp. cbn [Py.rbind].
  destruct (Py.Qlt_bool _ _); eexists; reflexivity.
Qed.

(** Inside the loop [round_num / self.max_rounds] never divides by zero. *)
Lemma bargain_returns (self : NegotiationProtocol)
  (buyer seller : Persona.Citizen) (item : string)
  (reserve max_price ia ib : Q) (k : nat) :
  forall (start : Z) (ask bid : Q) (offers : list Offer) (w : World),
    (1 <= start)%Z ->
    (start + Z.of_nat k = max_rounds self + 1)%Z ->
    exists r,
      bargain self buyer seller item reserve max_price ia ib
              (Py.range start (start + Z.of_nat k)) ask bid offers w
      = (Py.Ok r, w).
Proof.
  induction k as [|k IH]; intros start ask bid offers w Hstart Hmax.
  - rewrite range_nil by lia. eexists. reflexivity.
  - rewrite range_cons by lia. cbn [bargain].
    destruct (seller_counter_returns self seller ask bid reserve start)
      as [ask' Hask]; [lia|].
    unfold bind at 1. unfold lift at 1. rewrite Hask.
    destruct (converged self ask' bid); [eexists; reflexivity|].
    destruct (buyer_counter_returns self buyer bid ask' max_price start)
      as [bid' Hbid]; [lia|].
    unfold bind at 1. unfold lift at 1. rewrite Hbid.
    destruct (converged self ask' bid'); [eexists; reflexivity|].
    replace (start + Z.of_nat (S k))%Z with (start + 1 + Z.of_nat k)%Z
      by lia.
    apply IH; lia.
Qed.

(** X25: with two agents and a [seller_index] of 0 or 1, [execute] always
    returns a result and leaves the protocol state alone, whatever the
    prices, the thresholds and [max_rounds] are: in particular
    [max_rounds = 0] does not lead to a division by zero, because the
    division sits inside the loop. *)
Theorem negotiation_returns (self : NegotiationProtocol)
  (agents : list Persona.Citizen) (context : Context) (w : World) :
  Py.len agents = 2%Z ->
  Py.get (seller_index context) 0%Z = 0%Z
  \/ Py.get (seller_index context) 0%Z = 1%Z ->
  exists r, execute self agents context w = (Py.Ok r, w).
Proof.
  intros Hlen Hidx.
  destruct (@two_agents agents) as [a [b ->]].
  { unfold Py.len in Hlen. lia. }
  unfold execute.
  replace (negb (validate_participation [a; b])) with false by reflexivity.
  assert (Hpick : exists seller buyer,
             Py.getitem [a; b] (Py.get (seller_index context) 0%Z)
             = Py.Ok seller
             /\ Py.getitem [a; b] (1 - Py.get (seller_index context) 0)%Z
                = Py.Ok buyer).
  { destruct Hidx as [-> | ->]; eexists; eexists; split; reflexivity. }
  destruct Hpick as [seller [buyer [Hs Hb]]].
  unfold bind at 1. unfold lift at 1. rewrite Hs.
  unfold bind at 1. unfold lift at 1. rewrite Hb.
  destruct (Py.Qlt_bool _ _); [eexists; reflexivity|].
  destruct (converged self _ _); [eexists; reflexivity|].
  destruct (Z_lt_le_dec (max_rounds self) 0) as [Hneg|Hpos].
  - rewrite range_nil by lia. eexists. reflexivity.
  - replace (max_rounds self + 1)%Z
      with (1 + Z.of_nat (Z.to_nat (max_rounds self)))%Z by lia.
    apply bargain_returns; lia.
Qed.

Lemma negotiation_returns_witness :
  exists r,
    execute default [Examples.seller; Examples.buyer] (Examples.deal 20 40)
            Protocol.init = (Py.Ok r, Protocol.init).
Proof.
  apply (negotiation_returns default [Examples.seller; Examples.buyer]
           (Examples.deal 20 40) Protocol.init).
  - reflexivity.
  - left. reflexivity.
Defined.

(** *** The record of offers *)

Lemma seller_counter_floor (self : NegotiationProtocol)
  (seller : Persona.Citizen) (ask bid reserve ask' : Q) (round_num : Z) :
  _seller_counter self seller ask bid reserve round_num = Py.Ok ask' ->
  reserve <= ask'.
Proof.
  unfold _seller_counter.
  destruct (Py.truediv _ _) as [p|e]; cbn [Py.rbind]; [|discriminate].
  destruct (Py.Qlt_bool _ _); intros H; injection H as <-.
  - destruct (max2_cases (ask - min_price_movement self) reserve)
      as [[-> Hc]|[-> Hc]]; lra.
  - destruct (max2_cases (ask - (ask - bid) * (seller_rate seller * (1 + p)))
                         reserve) as [[-> Hc]|[-> Hc]]; lra.
Qed.

Lemma buyer_counter_ceiling (self : NegotiationProtocol)
  (buyer : Persona.Citizen) (bid ask max_price bid' : Q) (round_num : Z) :
  _buyer_counter self buyer bid ask max_price round_num = Py.Ok bid' ->
  bid' <= max_price.
Proof.
  unfold _buyer_counter.
  destruct (Py.truediv _ _) as [p|e]; cbn [Py.rbind]; [|discriminate].
  destruct (Py.Qlt_bool _ _); intros H; injection H as <-.
  - destruct (min2_cases (bid + min_price_movement self) max_price)
      as [[-> Hc]|[-> Hc]]; lra.
  - destruct (min2_cases (bid + (ask - bid) * (buyer_rate buyer * (1 + p)))
                         max_price) as [[-> Hc]|[-> Hc]]; lra.
Qed.

(** What one pass through the body of the negotiation loop does. *)
Lemma bargain_step (self : NegotiationProtocol)
  (buyer seller : Persona.Citizen) (item : string)
  (reserve max_price ia ib : Q) (round_num : Z) (rounds : list Z)
  (ask bid : Q) (offers : list Offer) (w w' : World)
  (r : NegotiationResult) :
  bargain self buyer seller item reserve max_price ia ib
          (round_num :: rounds) ask bid offers w = (Py.Ok r, w') ->
  exists ask',
    _seller_counter self seller ask bid reserve round_num = Py.Ok ask'
    /\ ((converged self ask' bid = true
         /\ r = _create_success_result buyer seller item
                  ((ask' + bid) / 2) ia ib
                  (offers ++ [{| round := round_num;
                                 agent_id := Persona.name seller;
                                 role := "seller"; price := ask';
                                 message := "Counter-offer" |}]))
        \/ (converged self ask' bid = false
            /\ exists bid',
                _buyer_counter self buyer bid ask' max_price round_num
                = Py.Ok bid'
                /\ ((converged self ask' bid' = true
                     /\ r = _create_success_result buyer seller item
                              ((ask' + bid') / 2) ia ib
                              ((offers
                                ++ [{| round := round_num;
                                       agent_id := Persona.name seller;
                                       role := "seller"; price := ask';
                                       message := "Counter-offer" |}])
                               ++ [{| round := round_num;
                                      agent_id := Persona.name buyer;
                                      role := "buyer"; price := bid';
                                      message := "Counter-offer" |}]))
                    \/ (converged self ask' bid' = false
                        /\ bargain self buyer seller item reserve max_price
                             ia ib rounds ask' bid'
                             ((offers
                               ++ [{| round := round_num;
                                      agent_id := Persona.name seller;
                                      role := "seller"; price := ask';
                                      message := "Counter-offer" |}])
                              ++ [{| round := round_num;
                                     agent_id := Persona.name buyer;
                                     role := "buyer"; price := bid';
                                     message := "Counter-offer" |}]) w
                           = (Py.Ok r, w'))))).
Proof.
  intros Hrun. cbn [bargain] in Hrun.
  apply bind_ok in Hrun. destruct Hrun as [ask' [w1 [Hask Hrun]]].
  apply lift_ok in Hask. destruct Hask as [Hask ->].
  exists ask'. split; [exact Hask|].
  destruct (converged self ask' bid) eqn:Ec.
  - left. split; [reflexivity|]. unfold ret in Hrun.
    injection Hrun as <- _. reflexivity.
  - right. split; [reflexivity|].
    apply bind_ok in Hrun. destruct Hrun as [bid' [w2 [Hbid Hrun]]].
    apply lift_ok in Hbid. destruct Hbid as [Hbid ->].
    exists bid'. split; [exact Hbid|].
    destruct (converged self ask' bid') eqn:Ec'.
    + left. split; [reflexivity|]. unfold ret in Hrun.
      injection Hrun as <- _. reflexivity.
    + right. split; [reflexivity|exact Hrun].
Qed.

Lemma in_turns_app (seller buyer : string) (offers : list Offer)
  (o : Offer) :
  Spec.in_turns seller buyer offers ->
  Spec.turn seller buyer (List.length offers) o ->
  Spec.in_turns seller buyer (offers ++ [o]).
Proof.
  intros Hall Ho i o' Hi.
  destruct (Nat.lt_ge_cases i (List.length offers)) as [Hlt|Hge].
  - rewrite nth_error_app1 in Hi by exact Hlt. apply Hall. exact Hi.
  - rewrite nth_error_app2 in Hi by exact Hge.
    destruct (i - List.length offers)%nat as [|j] eqn:Ej.
    + cbn in Hi. injection Hi as <-.
      replace i with (List.length offers) by lia. exact Ho.
    + cbn in Hi. destruct j; discriminate Hi.
Qed.

Lemma seller_turn (seller buyer : string) (n : nat) (round_num : Z)
  (p : Q) (m : string) :
  Z.of_nat n = (2 * round_num)%Z ->
  Spec.turn seller buyer n
       {| round := round_num; agent_id := seller; role := "seller";
          price := p; message := m |}.
Proof.
  intros Hn. unfold Spec.turn. cbn [round agent_id role].
  assert (He : Nat.even n = true).
  { apply Nat.even_spec. exists (Z.to_nat round_num). lia. }
  rewrite He. repeat split.
  apply (Z.div_unique _ 2 round_num 0); lia.
Qed.

Lemma buyer_turn (seller buyer : string) (n : nat) (round_num : Z)
  (p : Q) (m : string) :
  Z.of_nat n = (2 * round_num + 1)%Z ->
  Spec.turn seller buyer n
       {| round := round_num; agent_id := buyer; role := "buyer";
          price := p; message := m |}.
Proof.
  intros Hn. unfold Spec.turn. cbn [round agent_id role].
  assert (He : Nat.even n = false).
  { rewrite <- Nat.negb_odd. apply negb_false_iff. apply Nat.odd_spec.
    exists (Z.to_nat round_num). lia. }
  rewrite He. repeat split.
  apply (Z.div_unique _ 2 round_num 1); lia.
Qed.

Lemma filter_app_one {A} (f : A -> bool) (l : list A) (x : A) :
  f x = true -> Py.len (filter f (l ++ [x])) = (Py.len (filter f l) + 1)%Z.
Proof.
  intros H. rewrite filter_app. cbn [filter]. rewrite H. apply len_app_one.
Qed.

Lemma not_converged_apart (self : NegotiationProtocol) (ask bid : Q) :
  converged self ask bid = false ->
  convergence_threshold self < Qabs (ask - bid).
Proof.
  unfold converged. intros Hc. apply Qnot_le_lt. intros H.
  apply Qle_bool_iff in H. congruence.
Qed.

Lemma converged_close (self : NegotiationProtocol) (ask bid : Q) :
  converged self ask bid = true ->
  Qabs (ask - bid) <= convergence_threshold self.
Proof. unfold converged. intros Hc. apply Qle_bool_iff. exact Hc. Qed.

(** A success result built on a log whose last two offers are the standing
    ask and bid, in either order. *)
Lemma success_agreed (self : NegotiationProtocol)
  (buyer seller : Persona.Citizen) (item : string) (ia ib ask bid : Q)
  (log rest : list Offer) (a b : Offer) :
  log = rest ++ [a; b] ->
  (price a = ask /\ price b = bid) \/ (price a = bid /\ price b = ask) ->
  converged self ask bid = true ->
  Py.len (filter (fun o => (0 <? round o)%Z) log) = (Py.len log - 2)%Z ->
  Spec.agreed self (_create_success_result buyer seller item
                      ((ask + bid) / 2) ia ib log).
Proof.
  intros Hlog Hlast Hc Hfilter. apply converged_close in Hc.
  unfold Spec.agreed, _create_success_result.
  cbn [rounds_taken offers final_price savings premium initial_ask
       initial_bid].
  split; [rewrite Hfilter; reflexivity|].
  exists rest, a, b, ((ask + bid) / 2).
  split; [exact Hlog|]. split; [reflexivity|].
  destruct Hlast as [[-> ->]|[-> ->]].
  - split; [reflexivity|]. split; [exact Hc|]. split; reflexivity.
  - split; [unfold Qdiv; ring|]. split; [|split; reflexivity].
    rewrite Qabs_Qminus. exact Hc.
Qed.

(** The loop's invariant on the record of offers. *)
Lemma bargain_record (self : NegotiationProtocol)
  (buyer seller : Persona.Citizen) (item : string)
  (reserve max_price ia ib : Q) (k : nat) :
  forall (start : Z) (ask bid : Q) (log : list Offer) (w w' : World)
         (r : NegotiationResult),
    (1 <= start)%Z ->
    (start + Z.of_nat k = max_rounds self + 1)%Z ->
    Py.len log = (2 * start)%Z ->
    Py.len (filter (fun o => (0 <? round o)%Z) log) = (Py.len log - 2)%Z ->
    Spec.in_turns (Persona.name seller) (Persona.name buyer) log ->
    Forall (Spec.within_limits reserve max_price) log ->
    (exists rest a b,
        log = rest ++ [a; b] /\ price a = ask /\ price b = bid) ->
    converged self ask bid = false ->
    bargain self buyer seller item reserve max_price ia ib
            (Py.range start (start + Z.of_nat k)) ask bid log w
    = (Py.Ok r, w') ->
    Spec.in_turns (Persona.name seller) (Persona.name buyer) (offers r)
    /\ Forall (Spec.within_limits reserve max_price) (offers r)
    /\ seller_id r = Persona.name seller
    /\ buyer_id r = Persona.name buyer
    /\ match outcome r with
       | FAILURE => False
       | TIMEOUT =>
           Spec.timed_out self r
           /\ Py.len (offers r) = (2 + 2 * max_rounds self)%Z
       | SUCCESS => Spec.agreed self r
       end.
Proof.
  induction k as [|k IH];
    intros start ask bid log w w' r Hstart Hmax Hlen Hfilter Hturns Hlim
           Hlast Hapart Hrun.
  - rewrite range_nil in Hrun by lia. cbn [bargain] in Hrun.
    unfold ret in Hrun. injection Hrun as <- _.
    cbn [offers seller_id buyer_id outcome].
    split; [exact Hturns|]. split; [exact Hlim|].
    split; [reflexivity|]. split; [reflexivity|].
    split; [|lia].
    unfold Spec.timed_out.
    cbn [rounds_taken final_price savings premium offers].
    repeat (split; [reflexivity|]).
    destruct Hlast as [rest [a [b [Hlog [Ha Hb]]]]].
    exists rest, a, b. split; [exact Hlog|].
    rewrite Ha, Hb. apply not_converged_apart. exact Hapart.
  - rewrite range_cons in Hrun by lia. apply bargain_step in Hrun.
    destruct Hrun as [ask' [Hask Hrun]].
    destruct Hlast as [rest [a [b [Hlog [Ha Hb]]]]].
    assert (Hround : (0 <? start)%Z = true) by (apply Z.ltb_lt; lia).
    assert (Hturns1 :
              Spec.in_turns (Persona.name seller) (Persona.name buyer)
                (log ++ [{| round := start;
                            agent_id := Persona.name seller;
                            role := "seller"; price := ask';
                            message := "Counter-offer" |}])).
    { apply in_turns_app; [exact Hturns|]. apply seller_turn. exact Hlen. }
    assert (Hlim1 :
              Forall (Spec.within_limits reserve max_price)
                (log ++ [{| round := start;
                            agent_id := Persona.name seller;
                            role := "seller"; price := ask';
                            message := "Counter-offer" |}])).
    { apply Forall_app. split; [exact Hlim|]. constructor; [|constructor].
      intros _. cbn [role price]. split; [|discriminate].
      intros _. eapply seller_counter_floor. exact Hask. }
    destruct Hrun as [[Hc ->]|[Hc [bid' [Hbid Hrun]]]].
    { cbn [_create_success_result offers seller_id buyer_id outcome].
      split; [exact Hturns1|]. split; [exact Hlim1|].
      split; [reflexivity|]. split; [reflexivity|].
      apply (success_agreed self buyer seller item ia ib ask' bid _
               (rest ++ [a]) b
               {| round := start; agent_id := Persona.name seller;
                  role := "seller"; price := ask';
                  message := "Counter-offer" |}).
      - rewrite Hlog, <- !app_assoc. reflexivity.
      - right. split; [exact Hb|reflexivity].
      - exact Hc.
      - rewrite filter_app_one by exact Hround.
        rewrite len_app_one. lia. }
    assert (Hturns2 :
              Spec.in_turns (Persona.name seller) (Persona.name buyer)
                ((log ++ [{| round := start;
                             agent_id := Persona.name seller;
                             role := "seller"; price := ask';
                             message := "Counter-offer" |}])
                 ++ [{| round := start;
                        agent_id := Persona.name buyer;
                        role := "buyer"; price := bid';
                        message := "Counter-offer" |}])).
    { apply in_turns_app; [exact Hturns1|]. apply buyer_turn.
      change (Z.of_nat (List.length ?l)) with (Py.len l).
      rewrite len_app_one. lia. }
    assert (Hlim2 :
              Forall (Spec.within_limits reserve max_price)
                ((log ++ [{| round := start;
                             agent_id := Persona.name seller;
                             role := "seller"; price := ask';
                             message := "Counter-offer" |}])
                 ++ [{| round := start;
                        agent_id := Persona.name buyer;
                        role := "buyer"; price := bid';
                        message := "Counter-offer" |}])).
    { apply Forall_app. split; [exact Hlim1|]. constructor; [|constructor].
      intros _. cbn [role price]. split; [discriminate|].
      intros _. eapply buyer_counter_ceiling. exact Hbid. }
    assert (Hfilter2 :
              Py.len (filter (fun o => (0 <? round o)%Z)
                ((log ++ [{| round := start;
                             agent_id := Persona.name seller;
                             role := "seller"; price := ask';
                             message := "Counter-offer" |}])
                 ++ [{| round := start;
                        agent_id := Persona.name buyer;
                        role := "buyer"; price := bid';
                        message := "Counter-offer" |}]))
              = (Py.len
                   ((log ++ [{| round := start;
                                agent_id := Persona.name seller;
                                role := "seller"; price := ask';
                                message := "Counter-offer" |}])
                    ++ [{| round := start;
                           agent_id := Persona.name buyer;
                           role := "buyer"; price := bid';
                           message := "Counter-offer" |}]) - 2)%Z).
    { rewrite !filter_app_one by exact Hround.
      rewrite !len_app_one. lia. }
    assert (Hlast2 :
              (log ++ [{| round := start;
                          agent_id := Persona.name seller;
                          role := "seller"; price := ask';
                          message := "Counter-offer" |}])
              ++ [{| round := start;
                     agent_id := Persona.name buyer;
                     role := "buyer"; price := bid';
                     message := "Counter-offer" |}]
              = log
                ++ [ {| round := start; agent_id := Persona.name seller;
                        role := "seller"; price := ask';
                        message := "Counter-offer" |};
                     {| round := start; agent_id := Persona.name buyer;
                        role := "buyer"; price := bid';
                        message := "Counter-offer" |} ]).
    { rewrite <- app_assoc. reflexivity. }
    destruct Hrun as [[Hc' ->]|[Hc' Hrun]].
    { cbn [_create_success_result offers seller_id buyer_id outcome].
      split; [exact Hturns2|]. split; [exact Hlim2|].
      split; [reflexivity|]. split; [reflexivity|].
      eapply success_agreed;
        [exact Hlast2|left; split; reflexivity|exact Hc'|exact Hfilter2]. }
    replace (start + Z.of_nat (S k))%Z with (start + 1 + Z.of_nat k)%Z
      in Hrun by lia.
    apply IH in Hrun; try assumption; try lia.
    + rewrite !len_app_one. lia.
    + eexists; eexists; eexists.
      split; [exact Hlast2|]. split; reflexivity.
Qed.

(** What every returned negotiation result records. *)
Lemma negotiation_record (self : NegotiationProtocol)
  (agents : list Persona.Citizen) (context : Context) (w w' : World)
  (r : NegotiationResult) :
  execute self agents context w = (Py.Ok r, w') ->
  Spec.in_turns (seller_id r) (buyer_id r) (offers r)
  /\ Forall (Spec.within_limits (Py.get (seller_reserve context) 100)
                                (Py.get (buyer_max context) 200))
            (offers r)
  /\ match outcome r with
     | FAILURE =>
         Py.get (buyer_max context) 200 < Py.get (seller_reserve context) 100
     | TIMEOUT =>
         ~ Py.get (buyer_max context) 200
           < Py.get (seller_reserve context) 100
         /\ Spec.timed_out self r
         /\ Py.len (offers r) = (2 + 2 * Z.max 0 (max_rounds self))%Z
     | SUCCESS =>
         ~ Py.get (buyer_max context) 200
           < Py.get (seller_reserve context) 100
         /\ Spec.agreed self r
     end.
Proof.
  intros Hrun. unfold execute in Hrun.
  destruct (validate_participation agents); cbn [negb] in Hrun;
    [|discriminate Hrun].
  apply bind_ok in Hrun. destruct Hrun as [seller [w1 [Hs Hrun]]].
  apply lift_ok in Hs. destruct Hs as [_ ->].
  apply bind_ok in Hrun. destruct Hrun as [buyer [w2 [Hb Hrun]]].
  apply lift_ok in Hb. destruct Hb as [_ ->].
  remember (Py.get (seller_reserve context) 100) as reserve eqn:Er.
  remember (Py.get (buyer_max context) 200) as max_price eqn:Em.
  clear Er Em.
  destruct (Py.Qlt_bool max_price reserve) eqn:Egap.
  { unfold ret in Hrun. injection Hrun as <- _.
    cbn [offers seller_id buyer_id outcome].
    split; [intros [|i] o Hi; discriminate Hi|].
    split; [constructor|]. apply Qlt_bool_iff. exact Egap. }
  assert (Hzopa : ~ max_price < reserve).
  { intros H. apply Qlt_bool_iff in H. congruence. }
  remember (_get_initial_ask seller reserve) as ia eqn:Eia.
  remember (_get_initial_bid buyer max_price) as ib eqn:Eib.
  clear Eia Eib.
  assert (Hturns :
            Spec.in_turns (Persona.name seller) (Persona.name buyer)
              [ {| round := 0; agent_id := Persona.name seller;
                   role := "seller"; price := ia;
                   message := "Initial ask" |};
                {| round := 0; agent_id := Persona.name buyer;
                   role := "buyer"; price := ib;
                   message := "Initial bid" |} ]).
  { intros [|[|i]] o Hi; cbn in Hi.
    - injection Hi as <-. repeat split.
    - injection Hi as <-. repeat split.
    - destruct i; discriminate Hi. }
  assert (Hlim :
            Forall (Spec.within_limits reserve max_price)
              [ {| round := 0; agent_id := Persona.name seller;
                   role := "seller"; price := ia;
                   message := "Initial ask" |};
                {| round := 0; agent_id := Persona.name buyer;
                   role := "buyer"; price := ib;
                   message := "Initial bid" |} ]).
  { constructor; [|constructor; [|constructor]]; intros H; cbn in H;
      discriminate H. }
  destruct (converged self ia ib) eqn:Ec.
  { unfold ret in Hrun. injection Hrun as <- _.
    cbn [_create_success_result offers seller_id buyer_id outcome].
    split; [exact Hturns|]. split; [exact Hlim|]. split; [exact Hzopa|].
    apply (success_agreed self buyer seller _ ia ib ia ib _ []
             {| round := 0; agent_id := Persona.name seller;
                role := "seller"; price := ia; message := "Initial ask" |}
             {| round := 0; agent_id := Persona.name buyer;
                role := "buyer"; price := ib; message := "Initial bid" |}).
    - reflexivity.
    - left. split; reflexivity.
    - exact Ec.
    - reflexivity. }
  destruct (Z_lt_le_dec (max_rounds self) 0) as [Hneg|Hpos].
  { rewrite range_nil in Hrun by lia. cbn [bargain] in Hrun.
    unfold ret in Hrun. injection Hrun as <- _.
    cbn [offers seller_id buyer_id outcome].
    split; [exact Hturns|]. split; [exact Hlim|]. split; [exact Hzopa|].
    split.
    - unfold Spec.timed_out.
      cbn [rounds_taken final_price savings premium offers].
      repeat (split; [reflexivity|]).
      exists [], {| round := 0; agent_id := Persona.name seller;
                    role := "seller"; price := ia;
                    message := "Initial ask" |},
             {| round := 0; agent_id := Persona.name buyer;
                role := "buyer"; price := ib; message := "Initial bid" |}.
      split; [reflexivity|]. cbn [price].
      apply not_converged_apart. exact Ec.
    - rewrite Z.max_l by lia. reflexivity. }
  replace (max_rounds self + 1)%Z
    with (1 + Z.of_nat (Z.to_nat (max_rounds self)))%Z in Hrun by lia.
  apply bargain_record in Hrun; try assumption; try lia; try reflexivity.
  - destruct Hrun as [H1 [H2 [H3 [H4 H5]]]]. rewrite H3, H4.
    split; [exact H1|]. split; [exact H2|].
    destruct (outcome r); [split; [exact Hzopa|exact H5]|destruct H5|].
    destruct H5 as [H5 H6]. split; [exact Hzopa|]. split; [exact H5|].
    rewrite Z.max_r by lia. exact H6.
  - exists [], {| round := 0; agent_id := Persona.name seller;
                  role := "seller"; price := ia;
                  message := "Initial ask" |},
           {| round := 0; agent_id := Persona.name buyer;
              role := "buyer"; price := ib; message := "Initial bid" |}.
    repeat split.
Qed.

(** X26: in every returned result the offers are recorded in turn: offer
    [i] of the list carries round [i / 2], the seller's name and role at
    even positions and the buyer's at odd positions; so each round holds
    the seller's offer followed by the buyer's. *)
Theorem negotiation_offers_in_turn (self : NegotiationProtocol)
  (agents : list Persona.Citizen) (context : Context) (w w' : World)
  (r : NegotiationResult) :
  execute self agents context w = (Py.Ok r, w') ->
  Spec.in_turns (seller_id r) (buyer_id r) (offers r).
Proof. intros Hrun. apply negotiation_record in Hrun. apply Hrun. Qed.

Lemma negotiation_offers_in_turn_witness :
  exists r w',
    execute Examples.one_shot [Examples.seller; Examples.buyer]
            (Examples.deal 800 1500) Protocol.init = (Py.Ok r, w')
    /\ Py.len (offers r) = 4%Z
    /\ Spec.in_turns (seller_id r) (buyer_id r) (offers r).
Proof.
  do 2 eexists. split; [vm_compute; reflexivity|].
  split; [reflexivity|].
  eapply (negotiation_offers_in_turn Examples.one_shot
            [Examples.seller; Examples.buyer] (Examples.deal 800 1500)
            Protocol.init).
  vm_compute. reflexivity.
Defined.

(** X27: in every returned result, no counter-offer of the seller is below
    [seller_reserve] and no counter-offer of the buyer is above
    [buyer_max], whatever the thresholds and the traits are. *)
Theorem negotiation_counters_within_limits (self : NegotiationProtocol)
  (agents : list Persona.Citizen) (context : Context) (w w' : World)
  (r : NegotiationResult) :
  execute self agents context w = (Py.Ok r, w') ->
  Forall (Spec.within_limits (Py.get (seller_reserve context) 100)
                             (Py.get (buyer_max context) 200))
         (offers r).
Proof. intros Hrun. apply negotiation_record in Hrun. apply Hrun. Qed.

Lemma negotiation_counters_within_limits_witness :
  exists r w',
    execute Examples.one_shot [Examples.seller; Examples.buyer]
            (Examples.deal 800 1500) Protocol.init = (Py.Ok r, w')
    /\ Py.len (offers r) = 4%Z
    /\ Forall (Spec.within_limits 800 1500) (offers r).
Proof.
  do 2 eexists. split; [vm_compute; reflexivity|].
  split; [reflexivity|].
  eapply (negotiation_counters_within_limits Examples.one_shot
            [Examples.seller; Examples.buyer] (Examples.deal 800 1500)
            Protocol.init).
  vm_compute. reflexivity.
Defined.

(** X28: a result with outcome TIMEOUT has no final price, savings or
    premium, reports [rounds_taken = max_rounds], holds the two opening
    offers and two offers per round ([2 + 2 * max(0, max_rounds)] in all),
    and its last two offers are still further apart than the convergence
    threshold. *)
Theorem negotiation_timeout (self : NegotiationProtocol)
  (agents : list Persona.Citizen) (context : Context) (w w' : World)
  (r : NegotiationResult) :
  execute self agents context w = (Py.Ok r, w') ->
  outcome r = TIMEOUT ->
  Spec.timed_out self r
  /\ Py.len (offers r) = (2 + 2 * Z.max 0 (max_rounds self))%Z.
Proof.
  intros Hrun Hout. apply negotiation_record in Hrun.
  destruct Hrun as [_ [_ Hrun]]. rewrite Hout in Hrun.
  destruct Hrun as [_ Hrun]. exact Hrun.
Qed.

Lemma negotiation_timeout_witness :
  exists r w',
    execute Examples.one_shot [Examples.seller; Examples.buyer]
            (Examples.deal 800 1500) Protocol.init = (Py.Ok r, w')
    /\ outcome r = TIMEOUT
    /\ Spec.timed_out Examples.one_shot r
    /\ Py.len (offers r)
       = (2 + 2 * Z.max 0 (max_rounds Examples.one_shot))%Z.
Proof.
  do 2 eexists. split; [vm_compute; reflexivity|].
  split; [reflexivity|].
  eapply (negotiation_timeout Examples.one_shot
            [Examples.seller; Examples.buyer] (Examples.deal 800 1500)
            Protocol.init).
  - vm_compute. reflexivity.
  - reflexivity.
Defined.

(** X29: a result with outcome SUCCESS carries a final price that is the
    midpoint of the last two recorded offers, which lie within the
    convergence threshold of each other; savings and premium are the
    distances of that price from the recorded opening ask and bid; and
    [rounds_taken] is [(len(offers) - 2) // 2], the number of completed
    rounds, so a deal closed by the seller's counter-offer of round [k]
    reports [k - 1] rounds. *)
Theorem negotiation_agreement (self : NegotiationProtocol)
  (agents : list Persona.Citizen) (context : Context) (w w' : World)
  (r : NegotiationResult) :
  execute self agents context w = (Py.Ok r, w') ->
  outcome r = SUCCESS ->
  Spec.agreed self r.
Proof.
  intros Hrun Hout. apply negotiation_record in Hrun.
  destruct Hrun as [_ [_ Hrun]]. rewrite Hout in Hrun.
  destruct Hrun as [_ Hrun]. exact Hrun.
Qed.

Lemma negotiation_agreement_witness :
  exists r w',
    execute default [Examples.seller; Examples.buyer] (Examples.deal 20 40)
            Protocol.init = (Py.Ok r, w')
    /\ outcome r = SUCCESS
    /\ Spec.agreed default r.
Proof.
  do 2 eexists. split; [vm_compute; reflexivity|].
  split; [reflexivity|].
  eapply (negotiation_agreement default [Examples.seller; Examples.buyer]
            (Examples.deal 20 40) Protocol.init).
  - vm_compute. reflexivity.
  - reflexivity.
Defined.

(** X30: the outcome FAILURE is reported exactly when [seller_reserve] is
    above [buyer_max]: a negotiation that gets to the bargaining ends in
    SUCCESS or TIMEOUT, never in FAILURE. *)
Theorem negotiation_failure_iff (self : NegotiationProtocol)
  (agents : list Persona.Citizen) (context : Context) (w w' : World)
  (r : NegotiationResult) :
  execute self agents context w = (Py.Ok r, w') ->
  (outcome r = FAILURE
   <-> Py.get (buyer_max context) 200 < Py.get (seller_reserve context) 100).
Proof.
  intros Hrun. apply negotiation_record in Hrun.
  destruct Hrun as [_ [_ Hrun]].
  destruct (outcome r).
  - destruct Hrun as [Hzopa _]. split; [discriminate|].
    intros H. contradiction.
  - split; [intros _; exact Hrun|reflexivity].
  - destruct Hrun as [Hzopa _]. split; [discriminate|].
    intros H. contradiction.
Qed.

Lemma negotiation_failure_iff_witness :
  exists r w',
    execute Examples.one_shot [Examples.seller; Examples.buyer]
            (Examples.deal 800 1500) Protocol.init = (Py.Ok r, w')
    /\ (outcome r = FAILURE <-> (1500 < 800)%Q).
Proof.
  do 2 eexists. split; [vm_compute; reflexivity|].
  eapply (negotiation_failure_iff Examples.one_shot
            [Examples.seller; Examples.buyer] (Examples.deal 800 1500)
            Protocol.init).
  vm_compute. reflexivity.
Defined.

End NegotiationRuns.
